(** * A shallow embedding of the LangChain RAG tutorial pipeline

    The development follows the TypeScript sources: the ingestion code that
    labels chunks by positional thirds, the query-analysed workflow
    ([analyzeQuery], [retrieve], [generate]), the tool-calling graph
    ([queryOrRespond], [tools], [generate]), the command line entry point and
    the lazily initialised provider accessors.

    External collaborators (chat model, embedding provider, vector index,
    graph runtime) are not part of the repository; they appear here either as
    parameters or as small models written from their documented interface. *)

From stdpp Require Import base tactics options decidable relations list strings sorting.
From Stdlib Require Import Lia Arith.

#[local] Set Warnings "-register-all".

(** ** Data model *)

(** The three values of [z.enum(["beginning", "middle", "end"])]. *)
Inductive SectionLabel := Beginning | Middle | End.

Global Instance SectionLabel_eq_dec : EqDecision SectionLabel.
Proof. solve_decision. Defined.

Definition sectionName (s : SectionLabel) : string :=
  match s with
  | Beginning => "beginning"
  | Middle => "middle"
  | End => "end"
  end.

(** [doc.metadata]: the loader sets [source]; [section] is [undefined]
    ([None]) until ingestion assigns it. *)
Record Metadata := mkMetadata {
  source : string;
  section : option SectionLabel
}.

(** A LangChain [Document]. *)
Record Document := mkDocument {
  pageContent : string;
  metadata : Metadata
}.

Global Instance Metadata_eq_dec : EqDecision Metadata.
Proof. solve_decision. Defined.

Global Instance Document_eq_dec : EqDecision Document.
Proof. solve_decision. Defined.

(** [document.metadata.section = s] *)
Definition setSection (s : SectionLabel) (document : Document) : Document :=
  {| pageContent := pageContent document;
     metadata := {| source := source (metadata document); section := Some s |} |}.

(** The characters the sources write as escapes. *)
Definition nl : string := String (Ascii.ascii_of_nat 10) EmptyString.
Definition dquote : string := String (Ascii.ascii_of_nat 34) EmptyString.

(** [Array.prototype.join] on strings. *)
Fixpoint join (sep : string) (parts : list string) : string :=
  match parts with
  | [] => EmptyString
  | [p] => p
  | p :: rest => p +:+ sep +:+ join sep rest
  end.

(** A scalar of the JSON object a chat model emits as structured output or
    as tool-call arguments. *)
Inductive JsValue :=
| JsNull
| JsBool (b : bool)
| JsNumber (n : Z)
| JsString (s : string).

(** A flat JSON object: keys in emission order. *)
Definition RawObject := list (string * JsValue).

Fixpoint rawLookup (key : string) (o : RawObject) : option JsValue :=
  match o with
  | [] => None
  | (k, v) :: rest => if decide (k = key) then Some v else rawLookup key rest
  end.

(** [z.infer<typeof searchSchema>] *)
Record SearchSpec := mkSearchSpec {
  query : string;
  searchSection : SectionLabel
}.

(** One entry of [AIMessage.tool_calls]. *)
Record ToolCall := mkToolCall {
  name : string;
  args : RawObject;
  id : string
}.

(** The [BaseMessage] class hierarchy, as [instanceof] tells it apart.
    [tool_calls] is declared optional ([tool_calls?: ToolCall[]]), hence the
    [option]. [OtherMessage] stands for the remaining subclasses of
    [BaseMessage] (chat, function and chunk messages). *)
Inductive Message :=
| HumanMessage (content : string)
| SystemMessage (content : string)
| AIMessage (content : string) (tool_calls : option (list ToolCall))
| ToolMessage (content : string) (tool_call_id : string) (artifact : list Document)
| OtherMessage (type : string) (content : string).

(** [message.content] *)
Definition content (m : Message) : string :=
  match m with
  | HumanMessage c | SystemMessage c | AIMessage c _
  | ToolMessage c _ _ | OtherMessage _ c => c
  end.

(** [message instanceof ToolMessage] and its siblings. *)
Definition isToolMessage (m : Message) : bool :=
  match m with ToolMessage _ _ _ => true | _ => false end.
Definition isHumanMessage (m : Message) : bool :=
  match m with HumanMessage _ => true | _ => false end.
Definition isSystemMessage (m : Message) : bool :=
  match m with SystemMessage _ => true | _ => false end.
Definition isAIMessage (m : Message) : bool :=
  match m with AIMessage _ _ => true | _ => false end.

(** ** Effects: errors, the observable trace and the object heap *)

(** What makes a run stop early. [process.exit(code)] ends the run the way an
    uncaught exception does (the sources contain no [try]), so it is one more
    way to abort. *)
Inductive Error :=
| ConfigurationError (reason : string)
| ProviderError (reason : string)
| SchemaError (reason : string)
| UndefinedRead (field : string)
| GraphError (reason : string)
| ProcessExit (code : Z).

Inductive Result (A : Type) :=
| Ok (a : A)
| Err (e : Error).
Arguments Ok {A} a.
Arguments Err {A} e.

(** A reference to an object created by [new]: its allocation number. *)
Definition Ref := nat.

(** One record of [MemoryVectorStore.memoryVectors]. *)
Record MemoryVector (Vector : Type) := mkMemoryVector {
  mvContent : string;
  mvEmbedding : Vector;
  mvMetadata : Metadata
}.
Arguments mkMemoryVector {Vector} _ _ _.
Arguments mvContent {Vector} _.
Arguments mvEmbedding {Vector} _.
Arguments mvMetadata {Vector} _.

(** The provider clients the program constructs. *)
Inductive Obj (Vector : Type) :=
| ChatAnthropic (model : string) (temperature : Z) (apiKey : string)
| CohereEmbeddings (model : string)
| MemoryVectorStore (embeddings : Ref) (memoryVectors : list (MemoryVector Vector)).
Arguments ChatAnthropic {Vector} _ _ _.
Arguments CohereEmbeddings {Vector} _.
Arguments MemoryVectorStore {Vector} _ _.

(** A value handed to [console.log]. *)
Inductive Printable :=
| PString (s : string)
| PDocuments (docs : list Document)
| PSearch (spec : SearchSpec)
| PObject (fields : list (string * Printable)).

(** What an observer of a run can see, oldest first. *)
Inductive Event :=
| ConsoleLog (values : list Printable)
| ConsoleError (line : string)
| LoaderLoad
| EmbedDocuments (texts : list string)
| EmbedQuery (text : string)
| StructuredInvoke (input : string)
| LlmInvoke (prompt : list Message)
| LlmWithToolsInvoke (prompt : list Message)
| AgentStream (input : list Message)
| NodeRun (node : string).

(** The events by which the graph runtime reports the node it starts. *)
Definition isNodeRun (e : Event) : bool :=
  match e with NodeRun _ => true | _ => false end.

(** Output on the standard stream. *)
Definition isConsoleLog (e : Event) : Prop :=
  match e with ConsoleLog _ => True | _ => False end.

(** The external collaborators. A failing call reports a reason ([inl]). *)
Class Providers := {
  Vector : Type;
  Score : Type;
  (* Document Source *)
  loaderLoad : string + list Document;
  splitDocuments : list Document -> list Document;
  (* Embedding Provider *)
  embedDocuments : list string -> string + list Vector;
  embedQuery : string -> string + Vector;
  (* ranking used inside the Vector Index *)
  similarity : Vector -> Vector -> Score;
  ranksBefore : Score -> Score -> bool;
  (* Chat Model Provider *)
  chatInvoke : list Message -> string + Message;
  chatInvokeWithTools : list Message -> string + Message;
  chatInvokeStructured : string -> string + RawObject;
  (* [JSON.stringify] on tool-call arguments *)
  jsonStringify : RawObject -> string;
  (* the pre-built react agent: the steps it streams, and how it ends *)
  agentStream : list Message -> list (list Message) * option string
}.

(** The process: trace, heap, environment and the module-level variables of
    the lazy [models] module. *)
Record World `{Providers} := mkWorld {
  events : list Event;
  heap : list (Obj Vector);
  ANTHROPIC_API_KEY : option string;
  COHERE_API_KEY : option string;
  _llm : option Ref;
  _embeddings : option Ref;
  _vectorStore : option Ref
}.

Section Monad.
Context `{Providers}.

(** State and abrupt termination: changes made before an error persist. *)
Definition M (A : Type) : Type := World -> World * Result A.

Definition ret {A} (a : A) : M A := fun w => (w, Ok a).
Definition throw {A} (e : Error) : M A := fun w => (w, Err e).
Definition bind {A B} (m : M A) (k : A -> M B) : M B :=
  fun w =>
    match m w with
    | (w', Ok a) => k a w'
    | (w', Err e) => (w', Err e)
    end.

Definition get : M World := fun w => (w, Ok w).

Definition withEvents (f : list Event -> list Event) (w : World) : World :=
  {| events := f (events w); heap := heap w;
     ANTHROPIC_API_KEY := ANTHROPIC_API_KEY w;
     COHERE_API_KEY := COHERE_API_KEY w;
     _llm := _llm w; _embeddings := _embeddings w;
     _vectorStore := _vectorStore w |}.

Definition withHeap (f : list (Obj Vector) -> list (Obj Vector)) (w : World) : World :=
  {| events := events w; heap := f (heap w);
     ANTHROPIC_API_KEY := ANTHROPIC_API_KEY w;
     COHERE_API_KEY := COHERE_API_KEY w;
     _llm := _llm w; _embeddings := _embeddings w;
     _vectorStore := _vectorStore w |}.

Definition emit (e : Event) : M unit :=
  fun w => (withEvents (fun es => es ++ [e]) w, Ok tt).

(** [console.log(...)], [console.error(line)], [process.exit(code)] *)
Definition console_log (values : list Printable) : M unit := emit (ConsoleLog values).
Definition console_error (line : string) : M unit := emit (ConsoleError line).
Definition process_exit {A} (code : Z) : M A := throw (ProcessExit code).

(** [new C(...)]: the object gets the next free reference. *)
Definition alloc (o : Obj Vector) : M Ref :=
  fun w => (withHeap (fun h => h ++ [o]) w, Ok (length (heap w))).

(** A call to a collaborator: its failure becomes a [ProviderError]. *)
Definition provider {A} (r : string + A) : M A :=
  match r with
  | inl reason => throw (ProviderError reason)
  | inr a => ret a
  end.

(** [for (const x of xs) { await f(x) }] *)
Fixpoint forEachM {A} (f : A -> M unit) (xs : list A) : M unit :=
  match xs with
  | [] => ret tt
  | x :: rest => bind (f x) (fun _ => forEachM f rest)
  end.
End Monad.

Notation "'let*' x ':=' m 'in' k" := (bind m (fun x => k))
  (at level 10, x pattern, m at level 100, k at level 200).
Notation "'run' m 'in' k" := (bind m (fun _ => k))
  (at level 10, m at level 100, k at level 200).

(** ** Ingestion: section labels by positional thirds *)

Module Ingestion.

(** The body of the [forEach] callback: the label of index [i] once
    [third = Math.floor(totalDocuments / 3)] is known. *)
Definition sectionAt (third i : nat) : SectionLabel :=
  if decide (i < third) then Beginning
  else if decide (i < third * 2) then Middle
  else End.

(** [allSplits.forEach((document, i) => ...)] of [main]. *)
Definition labelSections (allSplits : list Document) : list Document :=
  let totalDocuments := length allSplits in
  let third := totalDocuments / 3 in
  imap (fun i document => setSection (sectionAt third i) document) allSplits.

(** Number of chunks carrying label [s]. *)
Definition countSection (s : SectionLabel) (docs : list Document) : nat :=
  length (filter (fun d => section (metadata d) = Some s) docs).

End Ingestion.

(** ** Provider clients: the [models] module *)

Module Models.
Section Models.
Context `{Providers}.

(** Modelled from the spec: the constructor of the chat client, which is
    library code. "Missing keys cause the relevant provider client
    construction to fail": the key is the [apiKey] field or, failing that,
    the environment variable. *)
Definition newChatAnthropic (model : string) (temperature : Z)
    (apiKey : option string) : M Ref :=
  let* w := get in
  match from_option Some (ANTHROPIC_API_KEY w) apiKey with
  | Some key => alloc (ChatAnthropic model temperature key)
  | None => throw (ConfigurationError "Anthropic API key not found")
  end.

(** Modelled from the spec: the constructor of the embeddings client, which
    reads its key from the environment and fails without it. *)
Definition newCohereEmbeddings (model : string) : M Ref :=
  let* w := get in
  match COHERE_API_KEY w with
  | Some _ => alloc (CohereEmbeddings model)
  | None => throw (ConfigurationError "Cohere API key not found")
  end.

(** [new MemoryVectorStore(embeddings)]: an empty index. *)
Definition newMemoryVectorStore (embeddings : Ref) : M Ref :=
  alloc (MemoryVectorStore embeddings []).

Definition set_llm (r : Ref) : M unit :=
  fun w => ({| events := events w; heap := heap w;
               ANTHROPIC_API_KEY := ANTHROPIC_API_KEY w;
               COHERE_API_KEY := COHERE_API_KEY w;
               _llm := Some r; _embeddings := _embeddings w;
               _vectorStore := _vectorStore w |}, Ok tt).

Definition set_embeddings (r : Ref) : M unit :=
  fun w => ({| events := events w; heap := heap w;
               ANTHROPIC_API_KEY := ANTHROPIC_API_KEY w;
               COHERE_API_KEY := COHERE_API_KEY w;
               _llm := _llm w; _embeddings := Some r;
               _vectorStore := _vectorStore w |}, Ok tt).

Definition set_vectorStore (r : Ref) : M unit :=
  fun w => ({| events := events w; heap := heap w;
               ANTHROPIC_API_KEY := ANTHROPIC_API_KEY w;
               COHERE_API_KEY := COHERE_API_KEY w;
               _llm := _llm w; _embeddings := _embeddings w;
               _vectorStore := Some r |}, Ok tt).

(** [export function getLlm()] *)
Definition getLlm : M Ref :=
  let* w := get in
  match _llm w with
  | Some llm => ret llm
  | None =>
      let* llm := newChatAnthropic "claude-3-7-sonnet-20250219" 0
                    (ANTHROPIC_API_KEY w) in
      run set_llm llm in
      ret llm
  end.

(** [export function getEmbeddings()] *)
Definition getEmbeddings : M Ref :=
  let* w := get in
  match _embeddings w with
  | Some embeddings => ret embeddings
  | None =>
      let* embeddings := newCohereEmbeddings "embed-english-v3.0" in
      run set_embeddings embeddings in
      ret embeddings
  end.

(** [export function getVectorStore()] *)
Definition getVectorStore : M Ref :=
  let* w := get in
  match _vectorStore w with
  | Some vectorStore => ret vectorStore
  | None =>
      let* embeddings := getEmbeddings in
      let* vectorStore := newMemoryVectorStore embeddings in
      run set_vectorStore vectorStore in
      ret vectorStore
  end.

(** The exports of the eager [models.ts]. *)
Record Exports := mkExports {
  llm : Ref;
  embeddings : Ref;
  vectorStore : Ref
}.

(** Evaluation of the eager [models.ts] at import time. *)
Definition importModels : M Exports :=
  let* w := get in
  let* llm := newChatAnthropic "claude-3-7-sonnet-20250219" 0
                (ANTHROPIC_API_KEY w) in
  let* embeddings := newCohereEmbeddings "embed-english-v3.0" in
  let* vectorStore := newMemoryVectorStore embeddings in
  ret (mkExports llm embeddings vectorStore).

(** A caller of the lazy module. *)
Inductive Call := CallGetLlm | CallGetEmbeddings | CallGetVectorStore.

Definition call (c : Call) : M Ref :=
  match c with
  | CallGetLlm => getLlm
  | CallGetEmbeddings => getEmbeddings
  | CallGetVectorStore => getVectorStore
  end.

(** Any sequence of calls, each caller going on whatever the outcome of the
    previous ones: the outcomes, in call order, and the final process. *)
Fixpoint calls (cs : list Call) (w : World) : World * list (Call * Result Ref) :=
  match cs with
  | [] => (w, [])
  | c :: rest =>
      let '(w1, r) := call c w in
      let '(w2, rs) := calls rest w1 in
      (w2, (c, r) :: rs)
  end.

(** The process before the module's first use. *)
Definition freshProcess (anthropicKey cohereKey : option string) : World :=
  {| events := []; heap := [];
     ANTHROPIC_API_KEY := anthropicKey; COHERE_API_KEY := cohereKey;
     _llm := None; _embeddings := None; _vectorStore := None |}.

Definition isChatAnthropic (o : Obj Vector) : bool :=
  match o with ChatAnthropic _ _ _ => true | _ => false end.
Definition isCohereEmbeddings (o : Obj Vector) : bool :=
  match o with CohereEmbeddings _ => true | _ => false end.
Definition isMemoryVectorStore (o : Obj Vector) : bool :=
  match o with MemoryVectorStore _ _ => true | _ => false end.

(** How many objects a constructor has built so far. *)
Definition constructed (kind : Obj Vector -> bool) (w : World) : nat :=
  length (filter (fun o => kind o) (heap w)).

Definition kindOf (c : Call) : Obj Vector -> bool :=
  match c with
  | CallGetLlm => isChatAnthropic
  | CallGetEmbeddings => isCohereEmbeddings
  | CallGetVectorStore => isMemoryVectorStore
  end.

(** The module variable an accessor guards. *)
Definition moduleVar (c : Call) (w : World) : option Ref :=
  match c with
  | CallGetLlm => _llm w
  | CallGetEmbeddings => _embeddings w
  | CallGetVectorStore => _vectorStore w
  end.

(** What holds of the process between any two calls: a module variable is
    set exactly when its client has been built, it then refers to that
    client, and the index refers to the embeddings client of the module. *)
Record consistent (w : World) : Prop := {
  cons_count : forall c,
    constructed (kindOf c) w = match moduleVar c w with Some _ => 1 | None => 0 end;
  cons_kind : forall c r, moduleVar c w = Some r ->
    exists o, heap w !! r = Some o /\ kindOf c o = true;
  cons_store : forall r, _vectorStore w = Some r ->
    exists e mvs, heap w !! r = Some (MemoryVectorStore e mvs)
                  /\ _embeddings w = Some e
}.
End Models.
End Models.

(** ** The vector index *)

Module VectorIndex.
Section VectorIndex.
Context `{Providers}.

Definition toDocument (mv : MemoryVector Vector) : Document :=
  {| pageContent := mvContent mv; metadata := mvMetadata mv |}.

(** The order the index ranks stored vectors in, for a query vector. *)
Definition nearer (q : Vector) (a b : MemoryVector Vector) : Prop :=
  ranksBefore (similarity q (mvEmbedding a)) (similarity q (mvEmbedding b)).

(** Whether the optional filter of a search lets a stored chunk through. *)
Definition keeps (filterFn : option (Document -> bool))
    (mv : MemoryVector Vector) : bool :=
  match filterFn with
  | None => true
  | Some f => f (toDocument mv)
  end.

(** The stored chunks a filter lets through, in storage order. *)
Definition matching (filterFn : option (Document -> bool))
    (memoryVectors : list (MemoryVector Vector)) : list (MemoryVector Vector) :=
  filter (fun mv => keeps filterFn mv) memoryVectors.

(** Modelled from the spec: the search of the Vector Index collaborator,
    which is library code: "nearest-neighbor search by text query,
    optionally filtered by metadata predicate", the filter applied during
    the search, the result ordered by similarity and cut at [k]. *)
Definition similaritySearchVectorWithScore (q : Vector) (k : nat)
    (filterFn : option (Document -> bool))
    (memoryVectors : list (MemoryVector Vector)) : list Document :=
  let filtered := matching filterFn memoryVectors in
  let ranked := merge_sort (nearer q) filtered in
  toDocument <$> take k ranked.

(** [vectorStore.memoryVectors] and [vectorStore.embeddings] *)
Definition readStore (vectorStore : Ref)
    : M (Ref * list (MemoryVector Vector)) :=
  let* w := get in
  match heap w !! vectorStore with
  | Some (MemoryVectorStore embeddings memoryVectors) =>
      ret (embeddings, memoryVectors)
  | _ => throw (UndefinedRead "memoryVectors")
  end.

(** Modelled from the spec: [search(queryText, k, optionalFilter)]; the
    query is embedded first, and a failure of the Embedding Provider
    aborts the search. *)
Definition similaritySearch (vectorStore : Ref) (queryText : string) (k : nat)
    (filterFn : option (Document -> bool)) : M (list Document) :=
  let* (_, memoryVectors) := readStore vectorStore in
  run emit (EmbedQuery queryText) in
  let* q := provider (embedQuery queryText) in
  ret (similaritySearchVectorWithScore q k filterFn memoryVectors).

(** Modelled from the spec: [add(chunks)] "embeds each chunk's text, stores
    vector + text + metadata". *)
Definition addDocuments (vectorStore : Ref) (documents : list Document) : M unit :=
  let texts := pageContent <$> documents in
  run emit (EmbedDocuments texts) in
  let* vectors := provider (embedDocuments texts) in
  let* (embeddings, memoryVectors) := readStore vectorStore in
  let added :=
    zip_with (fun d v => mkMemoryVector (pageContent d) v (metadata d))
             documents vectors in
  fun w =>
    (withHeap (fun h =>
       <[vectorStore := MemoryVectorStore embeddings (memoryVectors ++ added)]> h) w,
     Ok tt).
End VectorIndex.
End VectorIndex.

(** ** The graph runtime *)

Module StateGraph.

Definition START : string := "__start__".
Definition END_NODE : string := "__end__".

(** [streamMode] *)
Inductive StreamMode := updates | values.

Fixpoint assoc {V} (key : string) (entries : list (string * V)) : option V :=
  match entries with
  | [] => None
  | (k, v) :: rest => if decide (k = key) then Some v else assoc key rest
  end.

Section StateGraph.
Context `{Providers} {State Update : Type}.

(** The reducers of the state annotation: how an update is merged. *)
Variable reduce : State -> Update -> State.

(** [addEdge] and [addConditionalEdges] entries. *)
Inductive Edge :=
| Direct (source target : string)
| Conditional (source : string) (path : State -> string)
              (pathMap : list (string * string)).

Record Builder := mkBuilder {
  nodes : list (string * (State -> M Update));
  edges : list Edge
}.

(** [new StateGraph(annotation)] *)
Definition newStateGraph : Builder := mkBuilder [] [].

Definition addNode (name : string) (action : State -> M Update)
    (g : Builder) : Builder :=
  mkBuilder (nodes g ++ [(name, action)]) (edges g).

Definition addEdge (source target : string) (g : Builder) : Builder :=
  mkBuilder (nodes g) (edges g ++ [Direct source target]).

Definition addConditionalEdges (source : string) (path : State -> string)
    (pathMap : list (string * string)) (g : Builder) : Builder :=
  mkBuilder (nodes g) (edges g ++ [Conditional source path pathMap]).

(** Where edge [e] leads from node [current] in state [st], if it leaves
    [current] at all. *)
Definition follow (current : string) (st : State) (e : Edge) : option string :=
  match e with
  | Direct source target =>
      if decide (source = current) then Some target else None
  | Conditional source path pathMap =>
      if decide (source = current) then assoc (path st) pathMap else None
  end.

(** Every node the graph can move to from [current] in state [st]. *)
Definition successors (g : Builder) (current : string) (st : State) : list string :=
  omap (follow current st) (edges g).

(** One move of the graph: the step relation. *)
Definition step (g : Builder) (current : string) (st : State) (next : string) : Prop :=
  next ∈ successors g current st.

(** What the stream yields after a step. *)
Inductive Chunk :=
| UpdateChunk (node : string) (update : Update)
| ValueChunk (st : State).

Definition chunkOf (mode : StreamMode) (node : string) (update : Update)
    (st : State) : Chunk :=
  match mode with
  | updates => UpdateChunk node update
  | values => ValueChunk st
  end.

(** Modelled from the spec: the graph runtime, which is library code.
    "Each graph step runs to completion before the next begins", the stream
    "yields once per completed step", an error in a step "aborts the
    current invocation; no step retries automatically". [body] is the body
    of the caller's [for await] loop; [fuel] is the runtime's bound on the
    number of steps. *)
Fixpoint runFrom (fuel : nat) (g : Builder) (mode : StreamMode)
    (body : Chunk -> M unit) (current : string) (st : State) : M State :=
  if decide (current = END_NODE) then ret st
  else
    match fuel with
    | 0 => throw (GraphError "Recursion limit reached")
    | S fuel' =>
        match assoc current (nodes g) with
        | None => throw (GraphError "Unknown node")
        | Some action =>
            run emit (NodeRun current) in
            let* update := action st in
            let st' := reduce st update in
            run body (chunkOf mode current update st') in
            match successors g current st' with
            | [next] => runFrom fuel' g mode body next st'
            | _ => throw (GraphError "No single successor")
            end
        end
    end.

Definition recursionLimit : nat := 25.

(** Modelled from the spec: [graph.stream(input, { streamMode })] consumed by
    a [for await] loop whose body is [body]; the run starts at the successor
    of the start node and the stream "yields once per completed step". *)
Definition stream (g : Builder) (mode : StreamMode) (body : Chunk -> M unit)
    (input : State) : M State :=
  match successors g START input with
  | [first] => runFrom recursionLimit g mode body first input
  | _ => throw (GraphError "No single successor")
  end.
End StateGraph.

Arguments Edge : clear implicits.
Arguments Builder {_} State Update.
Arguments Chunk : clear implicits.
End StateGraph.

Notation "g '|>' f" := (f g) (at level 45, left associativity, only parsing).

(** ** The query-analysed workflow ([pipeline.ts]) *)

Module QA.
Import StateGraph.

(** [typeof StateAnnotation.State]. The graph is started with [question]
    only; the other channels are [undefined] until a node writes them. *)
Record State := mkState {
  question : string;
  search : option SearchSpec;
  context : option (list Document);
  answer : option string
}.

(** One [key: value] entry of the object a node returns. *)
Inductive Assignment :=
| SetQuestion (v : string)
| SetSearch (v : SearchSpec)
| SetContext (v : list Document)
| SetAnswer (v : string).

(** The object a node returns. *)
Definition Update := list Assignment.

Definition key (a : Assignment) : string :=
  match a with
  | SetQuestion _ => "question"
  | SetSearch _ => "search"
  | SetContext _ => "context"
  | SetAnswer _ => "answer"
  end.

Definition keys (u : Update) : list string := key <$> u.

Definition assign (st : State) (a : Assignment) : State :=
  match a with
  | SetQuestion v => mkState v (search st) (context st) (answer st)
  | SetSearch v => mkState (question st) (Some v) (context st) (answer st)
  | SetContext v => mkState (question st) (search st) (Some v) (answer st)
  | SetAnswer v => mkState (question st) (search st) (context st) (Some v)
  end.

(** Channels without a reducer keep the last value written. *)
Definition reduce (st : State) (u : Update) : State := foldl assign st u.

(** [z.enum(["beginning", "middle", "end"])] *)
Definition parseSection (s : string) : option SectionLabel :=
  if decide (s = "beginning") then Some Beginning
  else if decide (s = "middle") then Some Middle
  else if decide (s = "end") then Some End
  else None.

(** [searchSchema]: [z.object({ query: z.string(), section: z.enum(...) })] *)
Definition searchSchema (raw : RawObject) : Result SearchSpec :=
  match rawLookup "query" raw with
  | Some (JsString q) =>
      match rawLookup "section" raw with
      | Some (JsString s) =>
          match parseSection s with
          | Some label => Ok (mkSearchSpec q label)
          | None => Err (SchemaError "section: invalid enum value")
          end
      | Some _ => Err (SchemaError "section: expected string")
      | None => Err (SchemaError "section: required")
      end
  | Some _ => Err (SchemaError "query: expected string")
  | None => Err (SchemaError "query: required")
  end.

(** The text of [template] around its two placeholders. *)
Definition template (contextText questionText : string) : string :=
  "Use the following pieces of context to answer the question at the end." +:+ nl +:+
  "      If you don't know the answer, just say that you don't know, don't try to make up an answer." +:+ nl +:+
  "      Use three sentences maximum and keep the answer as concise as possible." +:+ nl +:+
  "      Always say " +:+ dquote +:+ "thanks for asking!" +:+ dquote +:+ " at the end of the answer." +:+ nl +:+
  nl +:+
  "      " +:+ contextText +:+ nl +:+
  nl +:+
  "      Question: " +:+ questionText +:+ nl +:+
  nl +:+
  "      Helpful Answer:".

(** [ChatPromptTemplate.fromMessages([["user", template]]).invoke(...)] *)
Definition promptTemplate (questionText contextText : string) : list Message :=
  [HumanMessage (template contextText questionText)].

Section QA.
Context `{Providers}.

(** [llm.withStructuredOutput(searchSchema).invoke(input)]: the model's
    object is validated against the schema, and a mismatch is thrown. *)
Definition structuredLlm (input : string) : M SearchSpec :=
  run emit (StructuredInvoke input) in
  let* raw := provider (chatInvokeStructured input) in
  match searchSchema raw with
  | Ok result => ret result
  | Err e => throw e
  end.

Definition analyzeQuery (state : State) : M Update :=
  let* result := structuredLlm (question state) in
  ret [SetSearch result].

(** [state.search], which must be there before [.query] is read. *)
Definition readSearch (state : State) : M SearchSpec :=
  match search state with
  | Some s => ret s
  | None => throw (UndefinedRead "search")
  end.

(** [state.context], which must be there before [.map] is called. *)
Definition readContext (state : State) : M (list Document) :=
  match context state with
  | Some c => ret c
  | None => throw (UndefinedRead "context")
  end.

(** [(doc) => doc.metadata.section === state.search.section] *)
Definition sectionFilter (s : SearchSpec) (doc : Document) : bool :=
  bool_decide (section (metadata doc) = Some (searchSection s)).

(** retrieve with query analysis *)
Definition retrieve (vectorStore : Ref) (state : State) : M Update :=
  let* s := readSearch state in
  let* retrievedDocs :=
    VectorIndex.similaritySearch vectorStore (query s) 2
      (Some (sectionFilter s)) in
  run console_log [PString "RETRIEVED DOCUMENTS"; PDocuments retrievedDocs] in
  ret [SetContext retrievedDocs].

(** generate with query analysis *)
Definition generate (state : State) : M Update :=
  let* ctx := readContext state in
  let docsContent := join nl (pageContent <$> ctx) in
  let messages := promptTemplate (question state) docsContent in
  run emit (LlmInvoke messages) in
  let* response := provider (chatInvoke messages) in
  ret [SetAnswer (content response)].

Definition graph (vectorStore : Ref) : Builder State Update :=
  newStateGraph
    |> addNode "analyzeQuery" analyzeQuery
    |> addNode "retrieve" (retrieve vectorStore)
    |> addNode "generate" generate
    |> addEdge START "analyzeQuery"
    |> addEdge "analyzeQuery" "retrieve"
    |> addEdge "retrieve" "generate"
    |> addEdge "generate" END_NODE.

(** The initial state made from [{ question }]. *)
Definition inputState (questionText : string) : State :=
  mkState questionText None None None.

Definition printAssignment (a : Assignment) : string * Printable :=
  match a with
  | SetQuestion v => ("question", PString v)
  | SetSearch v => ("search", PSearch v)
  | SetContext v => ("context", PDocuments v)
  | SetAnswer v => ("answer", PString v)
  end.

Definition printChunk (c : Chunk State Update) : Printable :=
  match c with
  | UpdateChunk node update => PObject [(node, PObject (printAssignment <$> update))]
  | ValueChunk st => PObject [("question", PString (question st))]
  end.

Definition separator : string := nl +:+ "========" +:+ nl.

(** The body of the [for await] loop of [main]. *)
Definition printStep (c : Chunk State Update) : M unit :=
  run console_log [printChunk c] in
  console_log [PString separator].

(** One invocation of the compiled graph, as [main] streams it. *)
Definition invoke (vectorStore : Ref) (questionText : string) : M State :=
  stream reduce (graph vectorStore) updates printStep (inputState questionText).

(** [main] of [pipeline.ts], after the import of [models.ts]. *)
Definition main (models : Models.Exports) : M unit :=
  run emit LoaderLoad in
  let* docs := provider loaderLoad in
  let allSplits := splitDocuments docs in
  let allSplits := Ingestion.labelSections allSplits in
  run VectorIndex.addDocuments (Models.vectorStore models) allSplits in
  let inputs := "What does the end of the post say about task decomposition?" in
  run console_log [PObject [("question", PString inputs)]] in
  run console_log [PString separator] in
  let* _ := invoke (Models.vectorStore models) inputs in
  ret tt.

Definition program : M unit :=
  let* models := Models.importModels in
  main models.
End QA.
End QA.

(** ** The tool-calling graph (the message-based variants) *)

Module Agent.
Import StateGraph.

(** [typeof MessagesAnnotation.State]: [state.messages]. A node returns
    [{ messages: [...] }], which the reducer appends. *)
Definition State := list Message.
Definition Update := list Message.
Definition reduce (st : State) (u : Update) : State := st ++ u.

(** [message._getType()] *)
Definition getType (m : Message) : string :=
  match m with
  | HumanMessage _ => "human"
  | SystemMessage _ => "system"
  | AIMessage _ _ => "ai"
  | ToolMessage _ _ _ => "tool"
  | OtherMessage t _ => t
  end.

(** [message.tool_calls?.length], [undefined] when there is no list. *)
Definition toolCallsLength (m : Message) : option nat :=
  match m with
  | AIMessage _ (Some calls) => Some (length calls)
  | _ => None
  end.

(** The [for] loop of [generate] with [n = i + 1]: it runs while [i >= 0],
    pushes [state.messages[i]] when it is a [ToolMessage] and breaks
    otherwise. *)
Fixpoint collectRecent (messages : list Message) (n : nat)
    (recentToolMessages : list Message) : list Message :=
  match n with
  | 0 => recentToolMessages
  | S i =>
      match messages !! i with
      | Some message =>
          if isToolMessage message
          then collectRecent messages i (recentToolMessages ++ [message])
          else recentToolMessages
      | None => recentToolMessages
      end
  end.

Definition recentToolMessages (messages : list Message) : list Message :=
  collectRecent messages (length messages) [].

(** [recentToolMessages.reverse()] *)
Definition toolMessages (messages : list Message) : list Message :=
  reverse (recentToolMessages messages).

Definition docsContent (messages : list Message) : string :=
  join nl (content <$> toolMessages messages).

Definition systemMessageContent (messages : list Message) : string :=
  "You are an assistant for question-answering tasks. " +:+
  "Use the following pieces of retrieved context to answer " +:+
  "the question. If you don't know the answer, say that you " +:+
  "don't know. Use three sentences maximum and keep the " +:+
  "answer concise." +:+
  nl +:+ nl +:+
  docsContent messages.

(** The predicate of [state.messages.filter(...)]; [x == 0] is false for
    [undefined]. *)
Definition inConversation (message : Message) : bool :=
  isHumanMessage message
  || isSystemMessage message
  || (isAIMessage message
      && match toolCallsLength message with
         | Some n => bool_decide (n = 0)
         | None => false
         end).

Definition conversationMessages (messages : list Message) : list Message :=
  filter (fun message => inConversation message) messages.

Definition prompt (messages : list Message) : list Message :=
  SystemMessage (systemMessageContent messages) :: conversationMessages messages.

(** The words of the specification for the context window of [generate]:
    scan the reversed list, collect while the message is a tool result,
    stop at the first other message, and put the collected messages back in
    forward order. *)
Fixpoint collectWhileTool (reversed : list Message) : list Message :=
  match reversed with
  | [] => []
  | m :: rest => if isToolMessage m then m :: collectWhileTool rest else []
  end.

Definition trailingToolRun (messages : list Message) : list Message :=
  reverse (collectWhileTool (reverse messages)).

(** Modelled from the spec: the routing function of the conditional edge,
    which is library code: "if the model's response contains a tool-call
    request, route to a tools execution step ...; otherwise route directly
    to terminal". The response is the last message of the state. *)
Definition toolsCondition (st : State) : string :=
  match last st with
  | Some (AIMessage _ (Some (_ :: _))) => "tools"
  | _ => END_NODE
  end.

(** [prettyPrint]: the text that is logged. The test
    [(isAIMessage(message) && message.tool_calls?.length) || 0 > 0]
    is true exactly for an AI message with a non-empty call list. *)
Definition prettyText `{Providers} (message : Message) : string :=
  let txt := "[" +:+ getType message +:+ "]: " +:+ content message in
  match message with
  | AIMessage _ (Some ((_ :: _) as calls)) =>
      let tool_calls :=
        join nl ((fun tc => "- " +:+ name tc +:+ "(" +:+ jsonStringify (args tc) +:+ ")")
                   <$> calls) in
      txt +:+ " " +:+ nl +:+ "Tools: " +:+ nl +:+ tool_calls
  | _ => txt
  end.

Section Agent.
Context `{Providers}.

Definition prettyPrint (message : Message) : M unit :=
  console_log [PString (prettyText message)].

(** The function wrapped by [tool(...)]:
    [async ({ query }) => [serialized, retrievedDocs]]. *)
Definition retrieveFn (vectorStore : Ref) (queryText : string)
    : M (string * list Document) :=
  let* retrievedDocs := VectorIndex.similaritySearch vectorStore queryText 2 None in
  let serialized :=
    join nl ((fun doc => "Source: " +:+ source (metadata doc) +:+ nl +:+
                         "Content: " +:+ pageContent doc) <$> retrievedDocs) in
  ret (serialized, retrievedDocs).

(** The [retrieve] tool: arguments are validated against
    [retrieveSchema = z.object({ query: z.string() })] first. *)
Definition retrieve (vectorStore : Ref) (arguments : RawObject)
    : M (string * list Document) :=
  match rawLookup "query" arguments with
  | Some (JsString queryText) => retrieveFn vectorStore queryText
  | Some _ => throw (SchemaError "query: expected string")
  | None => throw (SchemaError "query: required")
  end.

(** Step 1: generate an AIMessage that may include a tool-call. *)
Definition queryOrRespond (state : State) : M Update :=
  run emit (LlmWithToolsInvoke state) in
  let* response := provider (chatInvokeWithTools state) in
  ret [response].

Fixpoint runToolCalls (vectorStore : Ref) (callList : list ToolCall) : M (list Message) :=
  match callList with
  | [] => ret []
  | tc :: rest =>
      let* (text, artifact) :=
        (if decide (name tc = "retrieve") then retrieve vectorStore (args tc)
         else throw (GraphError "Tool not found")) in
      let* others := runToolCalls vectorStore rest in
      ret (ToolMessage text (id tc) artifact :: others)
  end.

(** Modelled from the spec: [new ToolNode([retrieve])], which is library
    code: it "runs the requested tool(s) and appends their results as
    tool-result messages". *)
Definition tools (vectorStore : Ref) (state : State) : M Update :=
  match last state with
  | Some (AIMessage _ (Some callList)) => runToolCalls vectorStore callList
  | _ => throw (GraphError "ToolNode only accepts AIMessages as input")
  end.

(** Step 3: generate a response using the retrieved content. *)
Definition generate (state : State) : M Update :=
  let p := prompt state in
  run emit (LlmInvoke p) in
  let* response := provider (chatInvoke p) in
  ret [response].

(** [graphBuilder]; the stateful variant builds the same graph and only
    compiles it with a checkpointer. *)
Definition graphBuilder (vectorStore : Ref) : Builder State Update :=
  newStateGraph
    |> addNode "queryOrRespond" queryOrRespond
    |> addNode "tools" (tools vectorStore)
    |> addNode "generate" generate
    |> addEdge START "queryOrRespond"
    |> addConditionalEdges "queryOrRespond" toolsCondition
         [(END_NODE, END_NODE); ("tools", "tools")]
    |> addEdge "tools" "generate"
    |> addEdge "generate" END_NODE.

(** The body of the [for await] loops: print the last message of a step. *)
Definition printLast (messages : list Message) : M unit :=
  match last messages with
  | Some lastMessage =>
      run prettyPrint lastMessage in
      console_log [PString ("--------" +:+ nl)]
  | None => throw (UndefinedRead "_getType")
  end.

Definition printStep (c : Chunk State Update) : M unit :=
  match c with
  | ValueChunk st => printLast st
  | UpdateChunk _ update => printLast update
  end.

(** One invocation of the compiled graph on a user message. *)
Definition invoke (vectorStore : Ref) (input : list Message) : M State :=
  stream reduce (graphBuilder vectorStore) values printStep input.

(** The model's response asks for a tool. *)
Definition requestsTool (response : Message) : Prop :=
  exists text tc calls, response = AIMessage text (Some (tc :: calls)).

(** The state ends with a response that asks for a tool. *)
Definition toolCallPresent (st : State) : Prop :=
  exists response, last st = Some response /\ requestsTool response.

(** There is a transition between two nodes, in some state. *)
Definition edge (g : Builder State Update) (a b : string) : Prop :=
  exists st, step g a st b.

(** How far a node is from the terminal state. *)
Definition distanceToEnd (node : string) : nat :=
  if decide (node = START) then 4
  else if decide (node = "queryOrRespond") then 3
  else if decide (node = "tools") then 2
  else if decide (node = "generate") then 1
  else 0.
End Agent.
End Agent.

(** ** The command line entry point *)

Module Cli.
Section Cli.
Context `{Providers}.

Definition usage1 : string :=
  "Error: Please provide a query as a command line argument.".
Definition usage2 : string :=
  "Usage: npx tsx pipeline.ts " +:+ dquote +:+ "Your query here" +:+ dquote.

(** [agent.stream(userInput, { streamMode: "values" })] and its loop: the
    pre-built agent yields its steps, each is printed, and a failure of the
    agent ends the loop. *)
Definition streamAgent (userInput : list Message) : M unit :=
  run emit (AgentStream userInput) in
  let (steps, failure) := agentStream userInput in
  run forEachM Agent.printLast steps in
  match failure with
  | Some reason => throw (ProviderError reason)
  | None => ret tt
  end.

(** [main] of the command line pipeline; [argv] is [process.argv]. *)
Definition main (argv : list string) : M unit :=
  let args := drop 2 argv in
  run (if decide (length args = 0)
       then run console_error usage1 in
            run console_error usage2 in
            process_exit 1
       else ret tt) in
  let userQuery := default "undefined" (args !! 0) in
  run console_log [PString ("Processing query: " +:+ dquote +:+ userQuery +:+ dquote)] in
  let* llm := Models.getLlm in
  let* vectorStore := Models.getVectorStore in
  run emit LoaderLoad in
  let* docs := provider loaderLoad in
  let allSplits := splitDocuments docs in
  let allSplits := Ingestion.labelSections allSplits in
  run VectorIndex.addDocuments vectorStore allSplits in
  let userInput := [HumanMessage userQuery] in
  run console_log [PString ("Processing with agent..." +:+ nl)] in
  streamAgent userInput.
End Cli.
End Cli.

(** ** A concrete process, to run the definitions *)

Module Demo.

Definition postUrl : string := "https://lilianweng.github.io/posts/2023-06-23-agent/".

Definition chunk (text : string) : Document :=
  mkDocument text (mkMetadata postUrl None).

Definition pages : list Document :=
  [chunk "Agents"; chunk "Planning and task decomposition";
   chunk "Memory"; chunk "Tool use"; chunk "Case studies";
   chunk "Challenges"; chunk "Task decomposition, again"].

Definition distance (a b : nat) : nat := (a - b) + (b - a).

(** Collaborators that always answer: texts are embedded as their length,
    the structured model asks for the end of the post, the tool-calling model
    asks for one retrieval when the conversation ends with a human turn. *)
Definition providers : Providers := {|
  Vector := nat;
  Score := nat;
  loaderLoad := inr pages;
  splitDocuments := fun docs => docs;
  embedDocuments := fun texts => inr (String.length <$> texts);
  embedQuery := fun text => inr (String.length text);
  similarity := distance;
  ranksBefore := Nat.ltb;
  chatInvoke := fun _ => inr (AIMessage "It splits a task into steps." (Some []));
  chatInvokeWithTools := fun messages =>
    match last messages with
    | Some (HumanMessage text) =>
        inr (AIMessage EmptyString
               (Some [mkToolCall "retrieve" [("query", JsString text)] "call_1"]))
    | _ => inr (AIMessage "Hello!" (Some []))
    end;
  chatInvokeStructured := fun text =>
    inr [("query", JsString text); ("section", JsString "end")];
  jsonStringify := fun _ => "{}";
  agentStream := fun input =>
    ([input; input ++ [AIMessage "Hello!" (Some [])]], None)
|}.

(** The same collaborators with a structured model that answers outside the
    schema. *)
Definition offSchema : Providers := {|
  Vector := nat;
  Score := nat;
  loaderLoad := inr pages;
  splitDocuments := fun docs => docs;
  embedDocuments := fun texts => inr (String.length <$> texts);
  embedQuery := fun text => inr (String.length text);
  similarity := distance;
  ranksBefore := Nat.ltb;
  chatInvoke := fun _ => inr (AIMessage "It splits a task into steps." (Some []));
  chatInvokeWithTools := fun _ => inr (AIMessage "Hello!" (Some []));
  chatInvokeStructured := fun text =>
    inr [("query", JsString text); ("section", JsString "conclusion")];
  jsonStringify := fun _ => "{}";
  agentStream := fun input => ([input], None)
|}.

(** A process with both API keys set. *)
Definition start `{Providers} : World :=
  Models.freshProcess (Some "sk-ant") (Some "co-key").

(** The process once the index of the lazy module holds the labelled pages. *)
Definition indexed : @World providers :=
  (bind (H := providers) Models.getVectorStore
     (fun vectorStore =>
        VectorIndex.addDocuments vectorStore (Ingestion.labelSections pages))
     start).1.

(** The chunks that index holds. *)
Definition memory : list (MemoryVector nat) :=
  match heap indexed !! 1 with
  | Some (MemoryVectorStore _ memoryVectors) => memoryVectors
  | _ => []
  end.

(** A state of the query-analysed workflow after [analyzeQuery]. *)
Definition endSearch : SearchSpec := mkSearchSpec "Tool use" End.
Definition analysed : QA.State :=
  QA.mkState "What does the end of the post say about tools?"
    (Some endSearch) None None.

End Demo.

(** ** The query-analysed workflow with its own index (earlier revision) *)

Module Unfiltered.
Import StateGraph.
Section Unfiltered.
Context `{Providers}.

(** [const vectorStoreQA = new MemoryVectorStore(embeddings)] *)
Definition newVectorStoreQA (models : Models.Exports) : M Ref :=
  Models.newMemoryVectorStore (Models.embeddings models).

(** retrieve with query analysis: the [filter] closure is built but the call
    passes the query and [2] only. *)
Definition retrieveQA (vectorStoreQA : Ref) (state : QA.State) : M QA.Update :=
  let* s := QA.readSearch state in
  let* retrievedDocs :=
    VectorIndex.similaritySearch vectorStoreQA (query s) 2 None in
  run console_log [PString "RETRIEVED DOCUMENTS"; PDocuments retrievedDocs] in
  ret [QA.SetContext retrievedDocs].

Definition graphQA (vectorStoreQA : Ref) : Builder QA.State QA.Update :=
  newStateGraph
    |> addNode "analyzeQuery" QA.analyzeQuery
    |> addNode "retrieveQA" (retrieveQA vectorStoreQA)
    |> addNode "generateQA" QA.generate
    |> addEdge START "analyzeQuery"
    |> addEdge "analyzeQuery" "retrieveQA"
    |> addEdge "retrieveQA" "generateQA"
    |> addEdge "generateQA" END_NODE.

Definition invoke (vectorStoreQA : Ref) (questionText : string) : M QA.State :=
  stream QA.reduce (graphQA vectorStoreQA) updates QA.printStep
    (QA.inputState questionText).

(** [main]: the chunks go into [vectorStoreQA]. *)
Definition main (vectorStoreQA : Ref) : M unit :=
  run emit LoaderLoad in
  let* docs := provider loaderLoad in
  let allSplits := splitDocuments docs in
  let allSplits := Ingestion.labelSections allSplits in
  run VectorIndex.addDocuments vectorStoreQA allSplits in
  let inputsQA := "What does the end of the post say about task decomposition?" in
  run console_log [PObject [("question", PString inputsQA)]] in
  run console_log [PString QA.separator] in
  let* _ := invoke vectorStoreQA inputsQA in
  ret tt.

(** The program: the import of [models.ts], the module-level index, [main]. *)
Definition program : M unit :=
  let* models := Models.importModels in
  let* vectorStoreQA := newVectorStoreQA models in
  main vectorStoreQA.
End Unfiltered.
End Unfiltered.

(** ** Orders and readings used to state properties *)

(** The position of a label in the document: beginning, middle, end. *)
Definition labelRank (s : SectionLabel) : nat :=
  match s with
  | Beginning => 0
  | Middle => 1
  | End => 2
  end.

(** The JSON object a structured model emits for a search specification. *)
Definition encodeSearch (s : SearchSpec) : RawObject :=
  [("query", JsString (query s)); ("section", JsString (sectionName (searchSection s)))].

(** One entry of the text the [retrieve] tool returns. *)
Definition sourceAndContent (doc : Document) : string :=
  "Source: " +:+ source (metadata doc) +:+ nl +:+ "Content: " +:+ pageContent doc.

(** What a step of the query-analysed graph prints. *)
Definition printed (node : string) (update : QA.Update) : list Event :=
  [ConsoleLog [PObject [(node, PObject (QA.printAssignment <$> update))]];
   ConsoleLog [PString QA.separator]].

(** The collaborators of the demo with a document source that cannot be
    reached. *)
Definition offline : Providers := {|
  Vector := nat;
  Score := nat;
  loaderLoad := inl "fetch failed";
  splitDocuments := fun docs => docs;
  embedDocuments := fun texts => inr (String.length <$> texts);
  embedQuery := fun text => inr (String.length text);
  similarity := Demo.distance;
  ranksBefore := Nat.ltb;
  chatInvoke := fun _ => inr (AIMessage "It splits a task into steps." (Some []));
  chatInvokeWithTools := fun _ => inr (AIMessage "Hello!" (Some []));
  chatInvokeStructured := fun text =>
    inr [("query", JsString text); ("section", JsString "end")];
  jsonStringify := fun _ => "{}";
  agentStream := fun input => ([input], None)
|}.

(** The query a tool call carries, when its arguments fit [retrieveSchema]. *)
Definition toolQuery (tc : ToolCall) : option string :=
  match rawLookup "query" (args tc) with
  | Some (JsString q) => Some q
  | _ => None
  end.

(** The answer to a call of the [retrieve] tool over stored chunks, when the
    call names the tool, carries a query and the query can be embedded. *)
Definition toolReply `{Providers} (mvs : list (MemoryVector Vector))
    (tc : ToolCall) : option Message :=
  if decide (name tc = "retrieve") then
    match toolQuery tc with
    | Some q =>
        match embedQuery q with
        | inr v =>
            let docs := VectorIndex.similaritySearchVectorWithScore v 2 None mvs in
            Some (ToolMessage (join nl (sourceAndContent <$> docs)) (id tc) docs)
        | inl _ => None
        end
    | None => None
    end
  else None.

(** The embedding requests a list of tool calls leads to. *)
Definition toolEmbeddings (calls : list ToolCall) : list Event :=
  omap (fun tc => EmbedQuery <$> toolQuery tc) calls.

(** What the loop of the tool-calling programs prints for a state that ends
    with [m]. *)
Definition shown `{Providers} (m : Message) : list Event :=
  [ConsoleLog [PString (Agent.prettyText m)];
   ConsoleLog [PString ("--------" +:+ nl)]].

(** The records an index gains for a list of chunks and their vectors. *)
Definition records `{Providers} (documents : list Document)
    (vectors : list Vector) : list (MemoryVector Vector) :=
  zip_with (fun d v => mkMemoryVector (pageContent d) v (metadata d))
    documents vectors.

(** The fixed instruction that opens the system message of [generate]. *)
Definition instruction : string :=
  "You are an assistant for question-answering tasks. Use the following pieces of retrieved context to answer the question. If you don't know the answer, say that you don't know. Use three sentences maximum and keep the answer concise.".

(** * Properties *)

(** ** Section labels *)

Lemma parseSection_sectionName s : QA.parseSection (sectionName s) = Some s.
Proof. by destruct s. Qed.

Section IngestionFacts.
Import Ingestion.

Lemma sectionAt_Beginning third i :
  sectionAt third i = Beginning <-> i < third.
Proof. unfold sectionAt. repeat case_decide; split; (congruence || lia). Qed.

Lemma sectionAt_Middle third i :
  sectionAt third i = Middle <-> third <= i < 2 * third.
Proof. unfold sectionAt. repeat case_decide; split; (congruence || lia). Qed.

Lemma sectionAt_End third i :
  sectionAt third i = End <-> 2 * third <= i.
Proof. unfold sectionAt. repeat case_decide; split; (congruence || lia). Qed.

Lemma labelSections_length allSplits :
  length (labelSections allSplits) = length allSplits.
Proof. unfold labelSections. apply length_imap. Qed.

Lemma labelSections_lookup allSplits i :
  labelSections allSplits !! i
  = setSection (sectionAt (length allSplits / 3) i) <$> allSplits !! i.
Proof. unfold labelSections. by rewrite list_lookup_imap. Qed.

Lemma filter_ext_elem {A} (P Q : A -> Prop)
    `{!forall x, Decision (P x)} `{!forall x, Decision (Q x)} (l : list A) :
  (forall x, x ∈ l -> P x <-> Q x) -> filter P l = filter Q l.
Proof.
  induction l as [|x l IH]; intros Hext; [done|].
  rewrite !filter_cons.
  rewrite IH by (intros y Hy; apply Hext; by right).
  pose proof (Hext x ltac:(by left)) as Hx.
  repeat case_decide; tauto.
Qed.

(** Counting the indices of a window [k, k + n) that fall in [a, b). *)
Lemma count_window a b n : forall k,
  length (filter (fun i => a <= i < b) (seq k n))
  = Nat.min b (k + n) - Nat.max a k.
Proof.
  induction n as [|n IH]; intros k; simpl.
  - lia.
  - rewrite filter_cons. case_decide; simpl; rewrite IH; lia.
Qed.

Lemma countSection_offset third s l : forall k,
  countSection s (imap (fun i d => setSection (sectionAt third (k + i)) d) l)
  = length (filter (fun i => sectionAt third i = s) (seq k (length l))).
Proof.
  unfold countSection.
  induction l as [|d l IH]; intros k; [done|].
  rewrite imap_cons. simpl length. simpl seq.
  rewrite !filter_cons. simpl. rewrite Nat.add_0_r.
  assert (Hrest :
    length (filter (fun d0 => section (metadata d0) = Some s)
              (imap ((fun i d0 => setSection (sectionAt third (k + i)) d0) ∘ S) l))
    = length (filter (fun i => sectionAt third i = s) (seq (S k) (length l)))).
  { rewrite <- IH. f_equal. f_equal. apply imap_ext. intros i x _. simpl.
    do 2 f_equal. lia. }
  repeat case_decide; simpl; rewrite Hrest; congruence.
Qed.

Lemma countSection_labelSections s allSplits :
  countSection s (labelSections allSplits)
  = length (filter (fun i => sectionAt (length allSplits / 3) i = s)
              (seq 0 (length allSplits))).
Proof.
  unfold labelSections.
  rewrite <- (countSection_offset (length allSplits / 3) s allSplits 0).
  done.
Qed.
End IngestionFacts.

(** C1. For a list of [N] chunks, the chunk at index [i < N] is labelled
    beginning exactly when [i < N/3], middle exactly when
    [N/3 <= i < 2*(N/3)] and end exactly when [2*(N/3) <= i]; hence [N/3]
    chunks are beginning, [N/3] are middle and [N - 2*(N/3)] are end. The
    label depends on the index and on [N] only: it is the same for any other
    list of the same length, and the text and source of a chunk stay as they
    were. *)
Theorem C1_section_labels (allSplits : list Document) :
  let N := length allSplits in
  let labelled := Ingestion.labelSections allSplits in
  length labelled = N /\
  (forall i, i < N ->
     exists d d', allSplits !! i = Some d /\ labelled !! i = Some d' /\
       pageContent d' = pageContent d /\
       source (metadata d') = source (metadata d) /\
       (section (metadata d') = Some Beginning <-> i < N / 3) /\
       (section (metadata d') = Some Middle <-> N / 3 <= i < 2 * (N / 3)) /\
       (section (metadata d') = Some End <-> 2 * (N / 3) <= i)) /\
  Ingestion.countSection Beginning labelled = N / 3 /\
  Ingestion.countSection Middle labelled = N / 3 /\
  Ingestion.countSection End labelled = N - 2 * (N / 3) /\
  (forall other i, length other = N ->
     (fun d => section (metadata d)) <$> Ingestion.labelSections other !! i
     = (fun d => section (metadata d)) <$> labelled !! i).
Proof.
  intros N labelled. subst labelled.
  assert (Hthird : 3 * (N / 3) <= N) by (apply Nat.Div0.mul_div_le).
  split; [apply labelSections_length|].
  split.
  { intros i Hi.
    destruct (lookup_lt_is_Some_2 allSplits i Hi) as [d Hd].
    exists d, (setSection (Ingestion.sectionAt (N / 3) i) d).
    rewrite labelSections_lookup, Hd. simpl.
    repeat split; try done.
    - intros [= E]. by apply sectionAt_Beginning.
    - intros E. f_equal. by apply sectionAt_Beginning.
    - injection H as E. apply sectionAt_Middle in E. lia.
    - injection H as E. apply sectionAt_Middle in E. lia.
    - intros E. f_equal. by apply sectionAt_Middle.
    - intros [= E]. by apply sectionAt_End.
    - intros E. f_equal. by apply sectionAt_End. }
  rewrite !countSection_labelSections. fold N.
  split; [|split; [|split]].
  - rewrite (list_filter_iff _ (fun i => 0 <= i < N / 3)).
    + rewrite count_window. lia.
    + intros i. rewrite sectionAt_Beginning. lia.
  - rewrite (list_filter_iff _ (fun i => N / 3 <= i < 2 * (N / 3))).
    + rewrite count_window. lia.
    + intros i. apply sectionAt_Middle.
  - rewrite (filter_ext_elem _ (fun i => 2 * (N / 3) <= i < N)).
    + rewrite count_window. lia.
    + intros i Hi. apply elem_of_seq in Hi. rewrite sectionAt_End. lia.
  - intros other i Hlen.
    rewrite !labelSections_lookup, Hlen. fold N.
    rewrite <- !option_fmap_compose.
    destruct (other !! i) eqn:Ho, (allSplits !! i) eqn:Ha; simpl; try done.
    + apply lookup_lt_Some in Ho. apply lookup_ge_None in Ha. lia.
    + apply lookup_lt_Some in Ha. apply lookup_ge_None in Ho. lia.
Qed.

(** ** The lazy provider accessors *)

Section ModelsFacts.
Context `{Providers}.
Import Models.


Lemma constructed_alloc kind o w :
  constructed kind (withHeap (fun h => h ++ [o]) w)
  = constructed kind w + (if kind o then 1 else 0).
Proof.
  unfold constructed. simpl. rewrite filter_app, length_app. f_equal.
  rewrite filter_cons. destruct (kind o); by case_decide.
Qed.

Lemma consistent_fresh a c : consistent (freshProcess a c).
Proof.
  split.
  - by intros [].
  - by intros [] r.
  - by intros r.
Qed.

(** One call: the process stays consistent, nothing already built or
    assigned is lost, and a returned reference is the module variable. *)
Lemma call_step c w w' res :
  call c w = (w', res) ->
  consistent w ->
  consistent w'
  /\ (forall c' r, moduleVar c' w = Some r -> moduleVar c' w' = Some r)
  /\ (forall r, res = Ok r -> moduleVar c w' = Some r)
  /\ ANTHROPIC_API_KEY w' = ANTHROPIC_API_KEY w
  /\ COHERE_API_KEY w' = COHERE_API_KEY w
  /\ (forall e, res = Err e ->
        match c with
        | CallGetLlm => ANTHROPIC_API_KEY w = None
        | _ => COHERE_API_KEY w = None
        end).
Proof.
  intros Hcall [Hcount Hkind Hstore].
  pose proof (Hcount CallGetLlm) as HcL.
  pose proof (Hcount CallGetEmbeddings) as HcE.
  pose proof (Hcount CallGetVectorStore) as HcV.
  pose proof (Hkind CallGetLlm) as HkL.
  pose proof (Hkind CallGetEmbeddings) as HkE.
  pose proof (Hkind CallGetVectorStore) as HkV.
  destruct w as [ev hp ak ck l e v].
  unfold constructed in *. simpl in *.
  destruct c; unfold call, getLlm, getEmbeddings, getVectorStore,
    newChatAnthropic, newCohereEmbeddings, newMemoryVectorStore,
    bind, get, ret, throw, alloc, set_llm, set_embeddings, set_vectorStore,
    withHeap in Hcall; simpl in Hcall.
  - destruct l as [r|]; [|destruct ak as [k|]]; simpl in Hcall;
      inversion Hcall; subst; clear Hcall.
    + repeat split; try done. intros r' [= <-]; done.
    + repeat split; try done; simpl.
      * intros []; unfold constructed; simpl;
          rewrite filter_app, length_app, ?HcL, ?HcE, ?HcV; simpl; lia.
      * intros c' r Hr. destruct c'; simpl in *.
        -- injection Hr as <-. eexists. split; [apply list_lookup_middle; done|done].
        -- destruct (HkE r Hr) as (o & Ho & Hk). exists o.
           split; [by apply lookup_app_l_Some|done].
        -- destruct (HkV r Hr) as (o & Ho & Hk). exists o.
           split; [by apply lookup_app_l_Some|done].
      * intros r Hr. destruct (Hstore r Hr) as (e' & mvs & Ho & He).
        exists e', mvs. split; [by apply lookup_app_l_Some|done].
      * intros []; simpl; done.
      * intros r [= <-]. done.
    + repeat split; try done.
  - destruct e as [r|]; [|destruct ck as [k|]]; simpl in Hcall;
      inversion Hcall; subst; clear Hcall.
    + repeat split; try done. intros r' [= <-]; done.
    + repeat split; try done; simpl.
      * intros []; unfold constructed; simpl;
          rewrite filter_app, length_app, ?HcL, ?HcE, ?HcV; simpl; lia.
      * intros c' r Hr. destruct c'; simpl in *.
        -- destruct (HkL r Hr) as (o & Ho & Hk). exists o.
           split; [by apply lookup_app_l_Some|done].
        -- injection Hr as <-. eexists. split; [apply list_lookup_middle; done|done].
        -- destruct (HkV r Hr) as (o & Ho & Hk). exists o.
           split; [by apply lookup_app_l_Some|done].
      * intros r Hr. destruct (Hstore r Hr) as (e' & mvs & Ho & He). done.
      * intros []; simpl; done.
      * intros r [= <-]. done.
    + repeat split; try done.
  - destruct v as [r|]; simpl in Hcall.
    { inversion Hcall; subst; clear Hcall.
      repeat split; try done. intros r' [= <-]; done. }
    destruct e as [r|]; [|destruct ck as [k|]]; simpl in Hcall;
      inversion Hcall; subst; clear Hcall.
    + repeat split; try done; simpl.
      * intros []; unfold constructed; simpl;
          rewrite filter_app, length_app, ?HcL, ?HcE, ?HcV; simpl; lia.
      * intros c' r' Hr. destruct c'; simpl in *.
        -- destruct (HkL r' Hr) as (o & Ho & Hk). exists o.
           split; [by apply lookup_app_l_Some|done].
        -- destruct (HkE r' Hr) as (o & Ho & Hk). exists o.
           split; [by apply lookup_app_l_Some|done].
        -- injection Hr as <-. eexists. split; [apply list_lookup_middle; done|done].
      * intros r' [= <-]. exists r, []. split; [apply list_lookup_middle; done|done].
      * intros []; simpl; done.
      * intros r' [= <-]. done.
    + repeat split; try done; simpl.
      * intros []; unfold constructed; simpl;
          rewrite !filter_app, !length_app, ?HcL, ?HcE, ?HcV; simpl; lia.
      * intros c' r' Hr. destruct c'; simpl in *.
        -- destruct (HkL r' Hr) as (o & Ho & Hk). exists o.
           split; [|done]. rewrite <- app_assoc. by apply lookup_app_l_Some.
        -- injection Hr as <-. eexists.
           split; [rewrite <- app_assoc; by apply list_lookup_middle|done].
        -- injection Hr as <-. eexists.
           split; [apply list_lookup_middle; rewrite length_app; simpl; lia|done].
      * intros r' [= <-]. exists (length hp), []. split; [|done].
        apply list_lookup_middle. rewrite length_app. simpl. lia.
      * intros []; simpl; done.
      * intros r' [= <-]. done.
    + repeat split; try done.
Qed.

(** A call that finds its module variable set builds nothing and returns the
    object the variable refers to. *)
Lemma call_again c w r :
  moduleVar c w = Some r -> call c w = (w, Ok r).
Proof.
  intros Hvar. destruct w as [ev hp ak ck l e v], c; simpl in Hvar; subst;
    reflexivity.
Qed.

(** Any sequence of calls. *)
Lemma calls_step cs : forall w w' outcomes,
  calls cs w = (w', outcomes) ->
  consistent w ->
  consistent w'
  /\ outcomes.*1 = cs
  /\ (forall c r, moduleVar c w = Some r -> moduleVar c w' = Some r)
  /\ (forall c r, (c, Ok r) ∈ outcomes -> moduleVar c w' = Some r)
  /\ (forall c e, (c, Err e) ∈ outcomes ->
        match c with
        | CallGetLlm => ANTHROPIC_API_KEY w = None
        | _ => COHERE_API_KEY w = None
        end).
Proof.
  induction cs as [|c cs IH]; intros w w' outcomes Hcalls Hcons; simpl in Hcalls.
  - inversion Hcalls; subst. split_and!; try done.
    + intros c r Hin. by apply elem_of_nil in Hin.
    + intros c e Hin. by apply elem_of_nil in Hin.
  - destruct (call c w) as [w1 res] eqn:Hcall.
    destruct (calls cs w1) as [w2 rs] eqn:Hrest.
    inversion Hcalls; subst; clear Hcalls.
    destruct (call_step _ _ _ _ Hcall Hcons)
      as (Hcons1 & Hmono1 & Hres1 & Hak & Hck & Herr1).
    destruct (IH _ _ _ Hrest Hcons1) as (Hcons2 & Hfst & Hmono2 & Hres2 & Herr2).
    split_and!; try done.
    + simpl. f_equal. done.
    + intros c' r Hr. apply Hmono2, Hmono1, Hr.
    + intros c' r Hin. apply elem_of_cons in Hin as [Heq|Hin].
      * injection Heq as -> Hr. apply Hmono2. by apply Hres1.
      * by apply Hres2.
    + intros c' e Hin. apply elem_of_cons in Hin as [Heq|Hin].
      * injection Heq as -> Hr. by apply (Herr1 e).
      * specialize (Herr2 c' e Hin). rewrite Hak, Hck in Herr2. done.
Qed.
End ModelsFacts.

(** C10. Starting from a fresh process and for any sequence of calls to
    [getLlm], [getEmbeddings] and [getVectorStore]: each client is built at
    most once; every call of one accessor that returns, returns the same
    object, which is the one client of its kind; the index returned by
    [getVectorStore] holds the embeddings client that [getEmbeddings]
    returns; a call can only fail for a missing API key; and a call that
    finds its module variable set returns that object and changes nothing. *)
Theorem C10_lazy_singletons `{Providers}
    (anthropicKey cohereKey : option string) (cs : list Models.Call) :
  let final := Models.calls cs (Models.freshProcess anthropicKey cohereKey) in
  let w := final.1 in
  let outcomes := final.2 in
  outcomes.*1 = cs /\
  (forall c, Models.constructed (Models.kindOf c) w <= 1) /\
  (forall c r1 r2, (c, Ok r1) ∈ outcomes -> (c, Ok r2) ∈ outcomes -> r1 = r2) /\
  (forall c r, (c, Ok r) ∈ outcomes ->
     Models.constructed (Models.kindOf c) w = 1 /\
     exists o, heap w !! r = Some o /\ Models.kindOf c o = true) /\
  (forall r, (Models.CallGetVectorStore, Ok r) ∈ outcomes ->
     exists e mvs, heap w !! r = Some (MemoryVectorStore e mvs) /\
       forall r', (Models.CallGetEmbeddings, Ok r') ∈ outcomes -> r' = e) /\
  (forall c e, (c, Err e) ∈ outcomes ->
     match c with
     | Models.CallGetLlm => anthropicKey = None
     | _ => cohereKey = None
     end) /\
  (forall c w0 r, Models.moduleVar c w0 = Some r -> Models.call c w0 = (w0, Ok r)).
Proof.
  intros final w outcomes.
  destruct (Models.calls cs (Models.freshProcess anthropicKey cohereKey))
    as [w' outcomes'] eqn:Hcalls.
  subst final w outcomes. simpl.
  destruct (calls_step cs _ _ _ Hcalls (consistent_fresh _ _))
    as ([Hcount Hkind Hstore] & Hfst & _ & Hres & Herr).
  split_and!; [| | |intros c r Hin; split|..].
  - done.
  - intros c. rewrite Hcount. destruct (Models.moduleVar c w'); lia.
  - intros c r1 r2 H1 H2. apply Hres in H1, H2. congruence.
  - rewrite Hcount. by rewrite (Hres c r).
  - apply Hkind. by apply Hres.
  - intros r Hin. apply Hres in Hin. simpl in Hin.
    destruct (Hstore r Hin) as (e & mvs & Ho & He).
    exists e, mvs. split; [done|].
    intros r' Hin'. apply Hres in Hin'. simpl in Hin'. congruence.
  - intros c e Hin. apply (Herr c e Hin).
  - intros c w0 r. apply call_again.
Qed.

(** ** Retrieval *)

Section RetrievalFacts.
Context `{Providers}.
Import VectorIndex.

Lemma search_length q k filterFn memoryVectors :
  length (similaritySearchVectorWithScore q k filterFn memoryVectors)
  = Nat.min k (length (matching filterFn memoryVectors)).
Proof.
  unfold similaritySearchVectorWithScore, matching.
  rewrite length_fmap, length_take.
  f_equal. apply Permutation_length, merge_sort_Permutation.
Qed.

Lemma search_elem q k filterFn memoryVectors d :
  d ∈ similaritySearchVectorWithScore q k filterFn memoryVectors ->
  exists mv, d = toDocument mv /\ mv ∈ matching filterFn memoryVectors.
Proof.
  unfold similaritySearchVectorWithScore, matching.
  intros Hd. apply list_elem_of_fmap in Hd as (mv & -> & Hmv).
  exists mv. split; [done|].
  apply subseteq_take in Hmv.
  by rewrite merge_sort_Permutation in Hmv.
Qed.

Lemma matching_None memoryVectors : matching None memoryVectors = memoryVectors.
Proof.
  unfold matching. induction memoryVectors as [|mv l IH]; [done|].
  rewrite filter_cons_True by done. by rewrite IH.
Qed.

(** A search on a reference that holds an index: the query is embedded, and
    the search fails exactly when the embedding does. *)
Lemma similaritySearch_run vectorStore queryText k filterFn w e mvs :
  heap w !! vectorStore = Some (MemoryVectorStore e mvs) ->
  similaritySearch vectorStore queryText k filterFn w
  = match embedQuery queryText with
    | inl reason =>
        (withEvents (fun es => es ++ [EmbedQuery queryText]) w,
         Err (ProviderError reason))
    | inr q =>
        (withEvents (fun es => es ++ [EmbedQuery queryText]) w,
         Ok (similaritySearchVectorWithScore q k filterFn mvs))
    end.
Proof.
  intros Hheap.
  unfold similaritySearch, readStore, bind, get, emit, provider, ret, throw.
  rewrite Hheap. by destruct (embedQuery queryText).
Qed.
End RetrievalFacts.


Example demo_indexed_store :
  match heap Demo.indexed !! 1 with
  | Some (MemoryVectorStore e mvs) =>
      e = 0 /\ length mvs = 7 /\
      (fun mv => section (mvMetadata mv)) <$> mvs
      = Some <$> [Beginning; Beginning; Middle; Middle; End; End; End]
  | _ => False
  end.
Proof. vm_compute. done. Qed.

Example demo_retrieve_end :
  (QA.retrieve (H := Demo.providers) 1 Demo.analysed Demo.indexed).2
  = Ok [QA.SetContext
          [mkDocument "Challenges" (mkMetadata Demo.postUrl (Some End));
           mkDocument "Case studies" (mkMetadata Demo.postUrl (Some End))]].
Proof. vm_compute. reflexivity. Qed.

Section RetrieveStep.
Context `{Providers}.
Import VectorIndex.

(** The [retrieve] node on an index: what it returns, in terms of the search
    of the index. *)
Lemma retrieve_run vectorStore state s w e mvs :
  QA.search state = Some s ->
  heap w !! vectorStore = Some (MemoryVectorStore e mvs) ->
  (QA.retrieve vectorStore state w).2
  = match embedQuery (query s) with
    | inl reason => Err (ProviderError reason)
    | inr q =>
        Ok [QA.SetContext
              (similaritySearchVectorWithScore q 2 (Some (QA.sectionFilter s)) mvs)]
    end.
Proof.
  intros Hs Hheap.
  unfold QA.retrieve, QA.readSearch. rewrite Hs.
  unfold bind at 1. unfold ret at 1.
  unfold bind at 1. rewrite (similaritySearch_run _ _ _ _ _ e mvs Hheap).
  by destruct (embedQuery (query s)).
Qed.

(** The [retrieve] tool on an index. *)
Lemma retrieveFn_run vectorStore queryText w e mvs :
  heap w !! vectorStore = Some (MemoryVectorStore e mvs) ->
  (Agent.retrieveFn vectorStore queryText w).2
  = match embedQuery queryText with
    | inl reason => Err (ProviderError reason)
    | inr q =>
        let retrievedDocs := similaritySearchVectorWithScore q 2 None mvs in
        Ok (join nl ((fun doc => "Source: " +:+ source (metadata doc) +:+ nl +:+
                                 "Content: " +:+ pageContent doc) <$> retrievedDocs),
            retrievedDocs)
    end.
Proof.
  intros Hheap. unfold Agent.retrieveFn.
  unfold bind at 1. rewrite (similaritySearch_run _ _ _ _ _ e mvs Hheap).
  by destruct (embedQuery queryText).
Qed.

Lemma sectionFilter_true s d :
  QA.sectionFilter s d = true <-> section (metadata d) = Some (searchSection s).
Proof. unfold QA.sectionFilter. apply bool_decide_eq_true. Qed.
End RetrieveStep.

(** C2. The [retrieve] node of the query-analysed workflow, run on an index
    with a search specification in the state, fails only when embedding the
    query fails; otherwise it returns stored chunks only, each with
    [metadata.section] equal to the requested section, and when no stored
    chunk has that section it returns the empty sequence, not an error. *)
Theorem C2_section_filtered_retrieval `{Providers}
    (vectorStore : Ref) (state : QA.State) (s : SearchSpec) (w : World)
    (e : Ref) (mvs : list (MemoryVector Vector)) :
  QA.search state = Some s ->
  heap w !! vectorStore = Some (MemoryVectorStore e mvs) ->
  let stored := VectorIndex.toDocument <$> mvs in
  let outcome := (QA.retrieve vectorStore state w).2 in
  (forall reason, embedQuery (query s) = inl reason ->
     outcome = Err (ProviderError reason)) /\
  (forall q, embedQuery (query s) = inr q ->
     exists retrievedDocs,
       outcome = Ok [QA.SetContext retrievedDocs] /\
       (forall d, d ∈ retrievedDocs ->
          d ∈ stored /\ section (metadata d) = Some (searchSection s)) /\
       ((forall d, d ∈ stored -> section (metadata d) <> Some (searchSection s)) ->
          retrievedDocs = [])).
Proof.
  intros Hs Hheap stored outcome. subst outcome.
  rewrite (retrieve_run _ _ s _ e mvs Hs Hheap).
  split.
  - intros reason ->. done.
  - intros q ->. eexists. split; [done|].
    assert (Hin : forall d,
      d ∈ VectorIndex.similaritySearchVectorWithScore q 2
            (Some (QA.sectionFilter s)) mvs ->
      d ∈ stored /\ section (metadata d) = Some (searchSection s)).
    { intros d Hd. apply search_elem in Hd as (mv & -> & Hmv).
      unfold VectorIndex.matching in Hmv.
      apply list_elem_of_filter in Hmv as [Hkeep Hmv].
      split.
      - by apply list_elem_of_fmap_2.
      - apply sectionFilter_true. by apply Is_true_true. }
    split; [done|].
    intros Hnone.
    destruct (VectorIndex.similaritySearchVectorWithScore q 2
                (Some (QA.sectionFilter s)) mvs) as [|d rest] eqn:Hres; [done|].
    destruct (Hin d ltac:(by left)) as [Hd Hsec].
    by destruct (Hnone d Hd).
Qed.

Section C2Witness.
#[local] Existing Instance Demo.providers.

(** C2 on the demo index, searched for the end of the post. *)
Lemma C2_section_filtered_retrieval_witness :
  QA.search Demo.analysed = Some Demo.endSearch /\
  heap Demo.indexed !! 1 = Some (MemoryVectorStore 0 Demo.memory) /\
  let stored := VectorIndex.toDocument <$> Demo.memory in
  let outcome := (QA.retrieve 1 Demo.analysed Demo.indexed).2 in
  (forall reason, embedQuery (query Demo.endSearch) = inl reason ->
     outcome = Err (ProviderError reason)) /\
  (forall q, embedQuery (query Demo.endSearch) = inr q ->
     exists retrievedDocs,
       outcome = Ok [QA.SetContext retrievedDocs] /\
       (forall d, d ∈ retrievedDocs ->
          d ∈ stored /\
          section (metadata d) = Some (searchSection Demo.endSearch)) /\
       ((forall d, d ∈ stored ->
           section (metadata d) <> Some (searchSection Demo.endSearch)) ->
          retrievedDocs = [])).
Proof.
  split; [reflexivity|]. split; [reflexivity|].
  apply (C2_section_filtered_retrieval (H := Demo.providers) 1
           Demo.analysed Demo.endSearch Demo.indexed 0 Demo.memory);
    reflexivity.
Defined.
End C2Witness.

(** C3. On an index, both retrieval operations return at most the requested
    top-k of 2 chunks: the [retrieve] node returns exactly the smaller of 2
    and the number of stored chunks its section filter lets through, the
    [retrieve] tool the smaller of 2 and the number of stored chunks. A
    filter that matches fewer than 2 chunks gives a shorter or empty result;
    the only failure is a failure to embed the query. *)
Theorem C3_retrieval_at_most_top_k `{Providers}
    (vectorStore : Ref) (w : World) (e : Ref)
    (mvs : list (MemoryVector Vector)) :
  heap w !! vectorStore = Some (MemoryVectorStore e mvs) ->
  (forall state s, QA.search state = Some s ->
     match (QA.retrieve vectorStore state w).2 with
     | Ok update =>
         exists retrievedDocs,
           update = [QA.SetContext retrievedDocs] /\
           length retrievedDocs <= 2 /\
           length retrievedDocs
           = Nat.min 2 (length (VectorIndex.matching (Some (QA.sectionFilter s)) mvs))
     | Err err =>
         exists reason, embedQuery (query s) = inl reason /\ err = ProviderError reason
     end) /\
  (forall queryText,
     match (Agent.retrieveFn vectorStore queryText w).2 with
     | Ok (_, retrievedDocs) =>
         length retrievedDocs <= 2 /\
         length retrievedDocs = Nat.min 2 (length mvs)
     | Err err =>
         exists reason, embedQuery queryText = inl reason /\ err = ProviderError reason
     end) /\
  (forall arguments queryText,
     rawLookup "query" arguments = Some (JsString queryText) ->
     Agent.retrieve vectorStore arguments w
     = Agent.retrieveFn vectorStore queryText w).
Proof.
  intros Hheap. split_and!.
  - intros state s Hs.
    rewrite (retrieve_run _ _ s _ e mvs Hs Hheap).
    destruct (embedQuery (query s)) as [reason|q].
    + by exists reason.
    + eexists. split; [done|]. rewrite search_length. lia.
  - intros queryText.
    rewrite (retrieveFn_run _ _ _ e mvs Hheap).
    destruct (embedQuery queryText) as [reason|q]; cbv beta iota zeta.
    + by exists reason.
    + rewrite search_length, matching_None. lia.
  - intros arguments queryText Hq. unfold Agent.retrieve. by rewrite Hq.
Qed.

Section C3Witness.
#[local] Existing Instance Demo.providers.

(** C3 on the demo index. *)
Lemma C3_retrieval_at_most_top_k_witness :
  heap Demo.indexed !! 1 = Some (MemoryVectorStore 0 Demo.memory) /\
  (forall state s, QA.search state = Some s ->
     match (QA.retrieve 1 state Demo.indexed).2 with
     | Ok update =>
         exists retrievedDocs,
           update = [QA.SetContext retrievedDocs] /\
           length retrievedDocs <= 2 /\
           length retrievedDocs
           = Nat.min 2 (length (VectorIndex.matching
                                  (Some (QA.sectionFilter s)) Demo.memory))
     | Err err =>
         exists reason, embedQuery (query s) = inl reason /\ err = ProviderError reason
     end) /\
  (forall queryText,
     match (Agent.retrieveFn 1 queryText Demo.indexed).2 with
     | Ok (_, retrievedDocs) =>
         length retrievedDocs <= 2 /\
         length retrievedDocs = Nat.min 2 (length Demo.memory)
     | Err err =>
         exists reason, embedQuery queryText = inl reason /\ err = ProviderError reason
     end) /\
  (forall arguments queryText,
     rawLookup "query" arguments = Some (JsString queryText) ->
     Agent.retrieve 1 arguments Demo.indexed
     = Agent.retrieveFn 1 queryText Demo.indexed).
Proof.
  split; [reflexivity|].
  apply (C3_retrieval_at_most_top_k 1 Demo.indexed 0 Demo.memory).
  reflexivity.
Defined.
End C3Witness.

Example demo_retrieve_tool :
  (Agent.retrieveFn (H := Demo.providers) 1 "Memory" Demo.indexed).2
  = Ok ("Source: " +:+ Demo.postUrl +:+ nl +:+ "Content: Memory" +:+ nl +:+
        "Source: " +:+ Demo.postUrl +:+ nl +:+ "Content: Agents",
        [mkDocument "Memory" (mkMetadata Demo.postUrl (Some Middle));
         mkDocument "Agents" (mkMetadata Demo.postUrl (Some Beginning))]).
Proof. vm_compute. reflexivity. Qed.

(** ** The [generate] step of the tool-calling graph *)

Section GenerateFacts.
Import Agent.

(** The loop never looks past the index it starts from. *)
Lemma collectRecent_app before after : forall n acc,
  n <= length before ->
  collectRecent (before ++ after) n acc = collectRecent before n acc.
Proof.
  induction n as [|i IH]; intros acc Hn; simpl; [done|].
  rewrite lookup_app_l by lia.
  destruct (before !! i) as [m|]; [|done].
  destruct (isToolMessage m); [|done].
  apply IH. lia.
Qed.

(** The loop, started at the end of the list, appends to what it already
    holds the tool messages it meets before the first other message. *)
Lemma collectRecent_spec messages : forall acc,
  collectRecent messages (length messages) acc
  = acc ++ collectWhileTool (reverse messages).
Proof.
  induction messages as [|m l IH] using rev_ind; intros acc.
  - simpl. by rewrite app_nil_r.
  - rewrite length_app. simpl length. rewrite Nat.add_1_r. simpl collectRecent.
    rewrite list_lookup_middle by done.
    rewrite reverse_app. simpl.
    destruct (isToolMessage m); [|by rewrite app_nil_r].
    rewrite collectRecent_app by done.
    rewrite IH. by rewrite <- app_assoc.
Qed.

Lemma toolMessages_trailingToolRun messages :
  toolMessages messages = trailingToolRun messages.
Proof.
  unfold toolMessages, trailingToolRun, recentToolMessages.
  by rewrite collectRecent_spec.
Qed.

(** What the forward scan of a list collects: a prefix of tool messages that
    ends at the first other message. *)
Lemma collectWhileTool_split l :
  exists rest, l = collectWhileTool l ++ rest
    /\ Forall (fun m => isToolMessage m = true) (collectWhileTool l)
    /\ match head rest with
       | Some m => isToolMessage m = false
       | None => True
       end.
Proof.
  induction l as [|m l (rest & Heq & Hall & Hhead)]; simpl.
  - by exists [].
  - destruct (isToolMessage m) eqn:Hm.
    + exists rest. split_and!; [simpl; congruence|by constructor|done].
    + exists (m :: l). by split_and!.
Qed.

(** Every prefix of tool messages lies within the collected one. *)
Lemma collectWhileTool_maximal l p :
  p `prefix_of` l ->
  Forall (fun m => isToolMessage m = true) p ->
  p `prefix_of` collectWhileTool l.
Proof.
  revert p. induction l as [|m l IH]; intros p [k Hk] Hall.
  - destruct p; [by exists []|done].
  - destruct p as [|x p]; [apply prefix_nil|].
    injection Hk as <- Hk. simpl.
    inversion Hall as [|? ? Hx Hp]; subst. rewrite Hx.
    apply prefix_cons, IH; [by exists k|done].
Qed.

Lemma trailingToolRun_split messages :
  exists before, messages = before ++ trailingToolRun messages
    /\ Forall (fun m => isToolMessage m = true) (trailingToolRun messages)
    /\ match last before with
       | Some m => isToolMessage m = false
       | None => True
       end.
Proof.
  unfold trailingToolRun.
  destruct (collectWhileTool_split (reverse messages)) as (rest & Heq & Hall & Hhead).
  exists (reverse rest). split_and!.
  - rewrite <- reverse_app, <- Heq. by rewrite reverse_involutive.
  - by apply Forall_reverse.
  - by rewrite last_reverse.
Qed.

Lemma trailingToolRun_maximal messages s :
  s `suffix_of` messages ->
  Forall (fun m => isToolMessage m = true) s ->
  s `suffix_of` trailingToolRun messages.
Proof.
  intros Hsuf Hall. unfold trailingToolRun.
  apply suffix_prefix_reverse. rewrite reverse_involutive.
  apply collectWhileTool_maximal.
  - by apply suffix_prefix_reverse in Hsuf.
  - by apply Forall_reverse.
Qed.

(** What [generate] does to the process: one call of the chat model on the
    prompt, whose answer is the update. *)
Lemma generate_run `{Providers} messages w :
  Agent.generate messages w
  = (withEvents (fun es => es ++ [LlmInvoke (prompt messages)]) w,
     match chatInvoke (prompt messages) with
     | inl reason => Err (ProviderError reason)
     | inr response => Ok [response]
     end).
Proof.
  unfold Agent.generate, bind, emit, provider, ret, throw.
  by destruct (chatInvoke (prompt messages)).
Qed.
End GenerateFacts.

(** C5. For every message list, the messages [generate] builds its context
    from are the maximal run of tool messages at the end of the list: they
    are what a backward scan collects up to the first message that is not a
    tool message, put back in forward order; the list is some [before]
    followed by them, they are all tool messages, [before] is empty or ends
    with a message that is not one, and any run of tool messages at the end
    of the list lies within them. The context string joins their contents
    with newlines, and the system message sent to the model is the fixed
    instruction followed by that string. *)
Theorem C5_generate_context_window `{Providers} (messages : list Message) :
  let toolRun := Agent.toolMessages messages in
  toolRun = Agent.trailingToolRun messages /\
  (exists before, messages = before ++ toolRun
     /\ Forall (fun m => isToolMessage m = true) toolRun
     /\ match last before with
        | Some m => isToolMessage m = false
        | None => True
        end) /\
  (forall s, s `suffix_of` messages ->
     Forall (fun m => isToolMessage m = true) s -> s `suffix_of` toolRun) /\
  Agent.docsContent messages = join nl (content <$> toolRun) /\
  (forall w,
     exists rest,
       events (Agent.generate messages w).1
       = events w ++
         [LlmInvoke
            (SystemMessage
               ("You are an assistant for question-answering tasks. Use the following pieces of retrieved context to answer the question. If you don't know the answer, say that you don't know. Use three sentences maximum and keep the answer concise."
                +:+ nl +:+ nl +:+ join nl (content <$> toolRun)) :: rest)]).
Proof.
  intros toolRun. subst toolRun.
  split_and!.
  - apply toolMessages_trailingToolRun.
  - rewrite toolMessages_trailingToolRun. apply trailingToolRun_split.
  - rewrite toolMessages_trailingToolRun. apply trailingToolRun_maximal.
  - done.
  - intros w. exists (Agent.conversationMessages messages).
    rewrite generate_run. reflexivity.
Qed.

Example demo_context_window :
  Agent.toolMessages
    [HumanMessage "q1"; ToolMessage "old" "c0" []; AIMessage "a1" (Some []);
     HumanMessage "q2";
     AIMessage EmptyString (Some [mkToolCall "retrieve" [] "c1"; mkToolCall "retrieve" [] "c2"]);
     ToolMessage "first" "c1" []; ToolMessage "second" "c2" []]
  = [ToolMessage "first" "c1" []; ToolMessage "second" "c2" []].
Proof. reflexivity. Qed.

Section ConversationFacts.
Import Agent.

(** The filter of [generate], case by case. *)
Lemma inConversation_spec m :
  inConversation m = true <->
  isHumanMessage m = true \/ isSystemMessage m = true
  \/ exists text, m = AIMessage text (Some []).
Proof.
  destruct m as [c|c|c [[|tc calls]|]|c i a|t c]; simpl; split;
    try (intros [?|[?|[? ?]]]); try done; eauto.
Qed.
End ConversationFacts.

(** C6. For every message list, the prompt [generate] passes to the model is
    its system message followed by the conversation history, and the history
    consists exactly of the human messages, the system messages and the AI
    messages whose tool-call list is empty, in their original order and as
    often as they occur; every AI message that carries a tool call is left
    out, and so is every tool message. *)
Theorem C6_generate_conversation_history `{Providers}
    (messages : list Message) (w : World) :
  let history := Agent.conversationMessages messages in
  events (Agent.generate messages w).1
  = events w ++
    [LlmInvoke (SystemMessage (Agent.systemMessageContent messages) :: history)] /\
  history `sublist_of` messages /\
  (forall m, m ∈ history <->
     m ∈ messages /\
     (isHumanMessage m = true \/ isSystemMessage m = true
      \/ exists text, m = AIMessage text (Some []))) /\
  history ++ filter (fun m => ~ Agent.inConversation m) messages ≡ₚ messages /\
  (forall text tc calls, AIMessage text (Some (tc :: calls)) ∉ history) /\
  (forall text callId artifact, ToolMessage text callId artifact ∉ history).
Proof.
  intros history. subst history. unfold Agent.conversationMessages.
  split_and!.
  - by rewrite generate_run.
  - apply sublist_filter.
  - intros m. rewrite list_elem_of_filter, <- inConversation_spec.
    rewrite Is_true_true. tauto.
  - apply filter_app_complement.
  - intros text tc calls Hin. apply list_elem_of_filter in Hin as [Hin _].
    done.
  - intros text callId artifact Hin. apply list_elem_of_filter in Hin as [Hin _].
    done.
Qed.

Example demo_conversation_history :
  Agent.conversationMessages
    [SystemMessage "be brief"; HumanMessage "q1";
     AIMessage EmptyString (Some [mkToolCall "retrieve" [] "c1"]);
     ToolMessage "first" "c1" []; AIMessage "a1" (Some []);
     AIMessage "no list" None; OtherMessage "function" "f"; HumanMessage "q2"]
  = [SystemMessage "be brief"; HumanMessage "q1"; AIMessage "a1" (Some []);
     HumanMessage "q2"].
Proof. reflexivity. Qed.

(** ** The transitions of the tool-calling graph *)

Section GraphFacts.
Context `{Providers}.
Import StateGraph.


Lemma toolsCondition_spec st :
  (Agent.toolCallPresent st /\ Agent.toolsCondition st = "tools")
  \/ (~ Agent.toolCallPresent st /\ Agent.toolsCondition st = END_NODE).
Proof.
  unfold Agent.toolsCondition, Agent.toolCallPresent, Agent.requestsTool.
  destruct (last st) as [[c|c|c [[|tc calls]|]|c i a|t c]|] eqn:Hlast;
    try (right; split; [|done]; intros (r & Hr & text & tc' & calls' & ->); done).
  left. split; [|done]. eexists. split; [done|]. by eexists _, _, _.
Qed.

Lemma step_graphBuilder vectorStore current st next :
  step (Agent.graphBuilder vectorStore) current st next <->
  (current = START /\ next = "queryOrRespond")
  \/ (current = "queryOrRespond" /\ Agent.toolCallPresent st /\ next = "tools")
  \/ (current = "queryOrRespond" /\ ~ Agent.toolCallPresent st /\ next = END_NODE)
  \/ (current = "tools" /\ next = "generate")
  \/ (current = "generate" /\ next = END_NODE).
Proof.
  unfold step, successors. simpl.
  destruct (toolsCondition_spec st) as [[Hp Hc]|[Hp Hc]]; rewrite Hc;
    repeat case_decide; subst; simpl; rewrite ?elem_of_cons, ?elem_of_nil;
    try discriminate; intuition (try discriminate; try congruence).
Qed.
End GraphFacts.

Section GraphOrder.
Context `{Providers}.
Import StateGraph.

Lemma edge_descends vectorStore a b :
  Agent.edge (Agent.graphBuilder vectorStore) a b -> Agent.distanceToEnd b < Agent.distanceToEnd a.
Proof.
  intros [st Hstep]. apply step_graphBuilder in Hstep.
  destruct Hstep as [[-> ->]|[(-> & _ & ->)|[(-> & _ & ->)|[[-> ->]|[-> ->]]]]];
    vm_compute; lia.
Qed.

Lemma path_descends vectorStore a b :
  tc (Agent.edge (Agent.graphBuilder vectorStore)) a b ->
  Agent.distanceToEnd b < Agent.distanceToEnd a.
Proof.
  induction 1 as [a b Hedge|a b c Hedge _ IH].
  - by apply (edge_descends vectorStore).
  - apply (edge_descends vectorStore) in Hedge. lia.
Qed.
End GraphOrder.

(** C4. The graph built by [graphBuilder] has the nodes queryOrRespond, tools
    and generate, and exactly these transitions: from the start to
    queryOrRespond; from queryOrRespond to tools when the state ends with a
    response that asks for a tool, and to the terminal state when it does
    not; from tools to generate; from generate to the terminal state. After
    queryOrRespond has appended the model's response, a tool call is present
    exactly when that response asks for one. No node can be reached from
    itself through one or more transitions. *)
Theorem C4_tool_graph_transitions `{Providers} (vectorStore : Ref) :
  let g := Agent.graphBuilder vectorStore in
  (StateGraph.nodes g).*1 = ["queryOrRespond"; "tools"; "generate"] /\
  (forall st next,
     StateGraph.step g StateGraph.START st next <-> next = "queryOrRespond") /\
  (forall st next,
     StateGraph.step g "queryOrRespond" st next <->
     (Agent.toolCallPresent st /\ next = "tools")
     \/ (~ Agent.toolCallPresent st /\ next = StateGraph.END_NODE)) /\
  (forall st next, StateGraph.step g "tools" st next <-> next = "generate") /\
  (forall st next,
     StateGraph.step g "generate" st next <-> next = StateGraph.END_NODE) /\
  (forall current st next,
     StateGraph.step g current st next ->
     current ∈ [StateGraph.START; "queryOrRespond"; "tools"; "generate"]) /\
  (forall st response,
     Agent.toolCallPresent (Agent.reduce st [response]) <-> Agent.requestsTool response) /\
  (forall node, ~ tc (Agent.edge g) node node).
Proof.
  intros g. subst g. split_and!.
  - reflexivity.
  - intros st next. rewrite step_graphBuilder. unfold StateGraph.START.
    intuition (try discriminate; try congruence).
  - intros st next. rewrite step_graphBuilder. unfold StateGraph.START.
    intuition (try discriminate; try congruence).
  - intros st next. rewrite step_graphBuilder. unfold StateGraph.START.
    intuition (try discriminate; try congruence).
  - intros st next. rewrite step_graphBuilder. unfold StateGraph.START.
    intuition (try discriminate; try congruence).
  - intros current st next Hstep. apply step_graphBuilder in Hstep.
    rewrite !elem_of_cons. intuition.
  - intros st response. unfold Agent.toolCallPresent, Agent.reduce.
    rewrite last_snoc. split.
    + by intros (r & [= <-] & Hr).
    + intros Hr. by exists response.
  - intros node Hloop. apply (path_descends vectorStore) in Hloop. lia.
Qed.

(** ** The command line *)

Section CliFacts.
Context `{Providers}.


Lemma forEachM_cons {A} (f : A -> M unit) x xs w :
  forEachM f (x :: xs) w
  = match f x w with
    | (w', Ok _) => forEachM f xs w'
    | (w', Err e) => (w', Err e)
    end.
Proof. reflexivity. Qed.

Lemma printLast_run st w :
  Agent.printLast st w
  = match last st with
    | Some m =>
        (withEvents (fun es => es ++ [ConsoleLog [PString (Agent.prettyText m)];
                                      ConsoleLog [PString ("--------" +:+ nl)]]) w,
         Ok tt)
    | None => (w, Err (UndefinedRead "_getType"))
    end.
Proof.
  unfold Agent.printLast. destruct (last st); [|done].
  unfold bind, Agent.prettyPrint, console_log, emit, withEvents. simpl.
  by rewrite <- app_assoc.
Qed.

(** Printing the steps of the agent only writes to standard output, and only
    a step without messages can stop it. *)
Lemma printSteps_events steps : forall w,
  exists added,
    events (forEachM Agent.printLast steps w).1 = events w ++ added
    /\ Forall isConsoleLog added
    /\ forall code, (forEachM Agent.printLast steps w).2 <> Err (ProcessExit code).
Proof.
  induction steps as [|st steps IH]; intros w.
  - exists []. by rewrite app_nil_r.
  - rewrite forEachM_cons, printLast_run.
    destruct (last st) as [m|].
    + destruct (IH (withEvents
                      (fun es => es ++ [ConsoleLog [PString (Agent.prettyText m)];
                                        ConsoleLog [PString ("--------" +:+ nl)]]) w))
        as (added & Hev & Hall & Hres).
      eexists. rewrite Hev. simpl. rewrite <- app_assoc.
      split_and!; [done| |done].
      apply Forall_app. split; [|done]. by repeat constructor.
    + exists []. rewrite app_nil_r. by split_and!.
Qed.

Lemma main_without_arguments argv w :
  drop 2 argv = [] ->
  Cli.main argv w
  = (withEvents (fun es => es ++ [ConsoleError Cli.usage1; ConsoleError Cli.usage2]) w,
     Err (ProcessExit 1)).
Proof.
  intros Hargs. unfold Cli.main. rewrite Hargs. simpl.
  unfold bind, console_error, process_exit, emit, throw, withEvents. simpl.
  by rewrite <- app_assoc.
Qed.

Lemma streamAgent_run userInput w :
  exists added,
    events (Cli.streamAgent userInput w).1
    = events w ++ AgentStream userInput :: added
    /\ Forall isConsoleLog added
    /\ forall code, (Cli.streamAgent userInput w).2 <> Err (ProcessExit code).
Proof.
  unfold Cli.streamAgent. unfold bind at 1. unfold emit at 1.
  destruct (agentStream userInput) as [steps failure].
  unfold bind.
  destruct (printSteps_events steps
              (withEvents (fun es => es ++ [AgentStream userInput]) w))
    as (added & Hev & Hall & Hres).
  exists added.
  destruct (forEachM Agent.printLast steps
              (withEvents (fun es => es ++ [AgentStream userInput]) w))
    as [w1 [[]|e]] eqn:Hrun; simpl in *.
  - rewrite <- app_assoc in Hev. simpl in Hev.
    destruct failure; rewrite ?Hrun; simpl; by split_and!.
  - rewrite <- app_assoc in Hev. rewrite ?Hrun. by split_and!.
Qed.

Lemma bind_ok {A B} (m : M A) (k : A -> M B) w w' a :
  m w = (w', Ok a) -> bind m k w = k a w'.
Proof. intros Hm. unfold bind. by rewrite Hm. Qed.

Lemma bind_err {A B} (m : M A) (k : A -> M B) w w' e :
  m w = (w', Err e) -> bind m k w = (w', Err e).
Proof. intros Hm. unfold bind. by rewrite Hm. Qed.

(** Adding documents to an index: the texts are embedded, and the index
    grows by one record per document when that succeeds. *)
Lemma addDocuments_run vectorStore documents w e mvs :
  heap w !! vectorStore = Some (MemoryVectorStore e mvs) ->
  VectorIndex.addDocuments vectorStore documents w
  = let w1 := withEvents
                (fun es => es ++ [EmbedDocuments (pageContent <$> documents)]) w in
    match embedDocuments (pageContent <$> documents) with
    | inl reason => (w1, Err (ProviderError reason))
    | inr vectors =>
        (withHeap (fun h =>
           <[vectorStore :=
               MemoryVectorStore e
                 (mvs ++ zip_with
                           (fun d v => mkMemoryVector (pageContent d) v (metadata d))
                           documents vectors)]> h) w1,
         Ok tt)
    end.
Proof.
  intros Hheap. unfold VectorIndex.addDocuments.
  unfold bind at 1. unfold emit at 1. unfold bind at 1.
  destruct (embedDocuments (pageContent <$> documents)) as [reason|vectors];
    simpl; [done|].
  unfold VectorIndex.readStore, bind, get, ret. simpl. by rewrite Hheap.
Qed.
End CliFacts.

(** C7. With no positional argument, [main] prints the two usage lines to
    the error stream and exits with status 1, and nothing else happens: no
    client is built and no workflow step runs. With at least one argument,
    in a fresh process, the first thing printed is the first argument inside
    the processing line, nothing goes to the error stream, the process does
    not exit early, every run of the agent is on exactly the first argument
    as the human message, and the agent is run whenever the keys are set and
    loading and embedding the document succeed. *)
Theorem C7_cli_arguments `{Providers} (argv : list string) :
  (drop 2 argv = [] ->
   forall w,
     Cli.main argv w
     = (withEvents
          (fun es => es ++ [ConsoleError Cli.usage1; ConsoleError Cli.usage2]) w,
        Err (ProcessExit 1))) /\
  (forall userQuery rest anthropicKey cohereKey,
     drop 2 argv = userQuery :: rest ->
     let final := Cli.main argv (Models.freshProcess anthropicKey cohereKey) in
     exists later,
       events final.1
       = ConsoleLog [PString ("Processing query: " +:+ dquote +:+ userQuery +:+ dquote)]
         :: later
       /\ (forall line, ConsoleError line ∉ later)
       /\ (forall code, final.2 <> Err (ProcessExit code))
       /\ (forall input, AgentStream input ∈ later ->
             input = [HumanMessage userQuery])
       /\ (is_Some anthropicKey -> is_Some cohereKey ->
           forall docs vectors,
             loaderLoad = inr docs ->
             embedDocuments
               (pageContent <$> Ingestion.labelSections (splitDocuments docs))
             = inr vectors ->
             AgentStream [HumanMessage userQuery] ∈ later)).
Proof.
  split; [intros Hargs w; by apply main_without_arguments|].
  intros userQuery rest a c Hargs final. subst final.
  unfold Cli.main. rewrite Hargs. cbv zeta.
  change (default "undefined" ((userQuery :: rest) !! 0)) with userQuery.
  destruct (decide (length (userQuery :: rest) = 0)) as [Hlen|_]; [done|].
  assert (Hshort : forall (later : list Event),
    Forall (fun e => e = LoaderLoad \/ exists texts, e = EmbedDocuments texts) later ->
    (forall line, ConsoleError line ∉ later)
    /\ (forall input, AgentStream input ∈ later -> input = [HumanMessage userQuery])).
  { intros later Hall. rewrite Forall_forall in Hall. split_and!.
    - intros line Hin. destruct (Hall _ Hin) as [?|[? ?]]; done.
    - intros input Hin. destruct (Hall _ Hin) as [?|[? ?]]; done. }
  erewrite bind_ok by reflexivity.
  erewrite bind_ok by reflexivity.
  destruct a as [ka|].
  2:{ erewrite bind_err by reflexivity. simpl.
      eexists. split; [reflexivity|].
      destruct (Hshort []) as (? & ?); [constructor|].
      split_and!; [done|done|done|]. by intros [? ?]. }
  erewrite bind_ok by reflexivity.
  destruct c as [kc|].
  2:{ erewrite bind_err by reflexivity. simpl.
      eexists. split; [reflexivity|].
      destruct (Hshort []) as (? & ?); [constructor|].
      split_and!; [done|done|done|]. by intros _ [? ?]. }
  erewrite bind_ok by reflexivity.
  erewrite bind_ok by reflexivity.
  destruct loaderLoad as [reason|docs] eqn:Hload.
  { erewrite bind_err by reflexivity. simpl.
    eexists. split; [reflexivity|].
    destruct (Hshort [LoaderLoad]) as (? & ?); [repeat constructor; by left|].
    by split_and!. }
  erewrite bind_ok by reflexivity.
  remember (Ingestion.labelSections (splitDocuments docs)) as labelled eqn:Hlab.
  destruct (embedDocuments (pageContent <$> labelled)) as [reason|vectors] eqn:Hembed.
  { erewrite bind_err; cycle 1.
    { erewrite addDocuments_run by reflexivity. rewrite Hembed. reflexivity. }
    simpl. eexists. split; [reflexivity|].
    destruct (Hshort [LoaderLoad; EmbedDocuments (pageContent <$> labelled)])
      as (? & ?).
    { apply Forall_cons; split; [by left|].
      apply Forall_cons; split; [right; by eexists|]. constructor. }
    split_and!; [done|done|done|].
    intros _ _ docs' vectors' [= <-]. rewrite <- Hlab. congruence. }
  erewrite bind_ok; cycle 1.
  { erewrite addDocuments_run by reflexivity. rewrite Hembed. reflexivity. }
  erewrite bind_ok by reflexivity.
  match goal with
  | |- context [Cli.streamAgent ?input ?w] =>
      destruct (streamAgent_run input w) as (added & Hev & Hall & Hres)
  end.
  rewrite Hev. simpl.
  eexists. split; [reflexivity|].
  rewrite Forall_forall in Hall.
  split_and!.
  - intros line. rewrite !elem_of_cons.
    intros [?|[?|[?|[?|Hin]]]]; try done. by apply Hall in Hin.
  - done.
  - intros input. rewrite !elem_of_cons.
    intros [?|[?|[?|[?|Hin]]]]; try done; [congruence|]. by apply Hall in Hin.
  - intros _ _ docs' vectors' _ _. rewrite !elem_of_cons. tauto.
Qed.

(** ** The query-analysed workflow *)

Section RuntimeFacts.
Context `{Providers} {State Update : Type}.
Import StateGraph.

(** One step of the runtime at a node of the graph: the node runs, its
    update is merged and streamed, and the run goes on at the one successor;
    an error of the node or of the loop body ends the run. *)
Lemma runFrom_node (reduce : State -> Update -> State) fuel g mode body
    current st action w :
  current <> END_NODE ->
  assoc current (nodes g) = Some action ->
  runFrom reduce (S fuel) g mode body current st w
  = match action st (withEvents (fun es => es ++ [NodeRun current]) w) with
    | (w1, Ok update) =>
        match body (chunkOf mode current update (reduce st update)) w1 with
        | (w2, Ok _) =>
            match successors g current (reduce st update) with
            | [next] => runFrom reduce fuel g mode body next (reduce st update) w2
            | _ => (w2, Err (GraphError "No single successor"))
            end
        | (w2, Err e) => (w2, Err e)
        end
    | (w1, Err e) => (w1, Err e)
    end.
Proof.
  intros Hnode Haction. simpl.
  destruct (decide (current = END_NODE)); [done|]. rewrite Haction.
  unfold bind, emit. simpl.
  destruct (action st _) as [w1 [update|e]]; [|done].
  destruct (body _ w1) as [w2 [[]|e]]; [|done].
  by destruct (successors g current (reduce st update)) as [|next [|]].
Qed.

Lemma runFrom_end (reduce : State -> Update -> State) fuel g mode body st :
  runFrom reduce fuel g mode body END_NODE st = ret st.
Proof. by destruct fuel. Qed.
End RuntimeFacts.

Section WorkflowFacts.
Context `{Providers}.
Import StateGraph.

(** [analyzeQuery]: one structured call on the question; its answer is
    validated, and nothing is caught. *)
Lemma analyzeQuery_run state w :
  QA.analyzeQuery state w
  = (withEvents (fun es => es ++ [StructuredInvoke (QA.question state)]) w,
     match chatInvokeStructured (QA.question state) with
     | inl reason => Err (ProviderError reason)
     | inr raw =>
         match QA.searchSchema raw with
         | Ok result => Ok [QA.SetSearch result]
         | Err e => Err e
         end
     end).
Proof.
  unfold QA.analyzeQuery, QA.structuredLlm, bind, emit, provider, ret, throw.
  destruct (chatInvokeStructured (QA.question state)) as [reason|raw]; [done|].
  by destruct (QA.searchSchema raw).
Qed.

(** Validation fails with a schema error only. *)
Lemma searchSchema_error raw e :
  QA.searchSchema raw = Err e -> exists reason, e = SchemaError reason.
Proof.
  unfold QA.searchSchema.
  destruct (rawLookup "query" raw) as [[]|]; try (intros [= <-]; by eexists).
  destruct (rawLookup "section" raw) as [[]|]; try (intros [= <-]; by eexists).
  destruct (QA.parseSection _); [done|]. intros [= <-]. by eexists.
Qed.

Lemma printStep_run c w :
  QA.printStep c w
  = (withEvents (fun es => es ++ [ConsoleLog [QA.printChunk c];
                                  ConsoleLog [PString QA.separator]]) w,
     Ok tt).
Proof.
  unfold QA.printStep, bind, console_log, emit, withEvents. simpl.
  by rewrite <- app_assoc.
Qed.
End WorkflowFacts.

(** C8. When the structured output of the chat model does not validate
    against the search schema, [analyzeQuery] fails with the schema error,
    and so does the invocation of the graph: the model was asked once, the
    only node that ran is analyzeQuery, no update was streamed, nothing was
    retrieved and no answer was generated. *)
Theorem C8_schema_error_is_fatal `{Providers}
    (vectorStore : Ref) (questionText : string) (w : World)
    (raw : RawObject) (e : Error) :
  chatInvokeStructured questionText = inr raw ->
  QA.searchSchema raw = Err e ->
  let aborted :=
    withEvents (fun es => es ++ [NodeRun "analyzeQuery";
                                 StructuredInvoke questionText]) w in
  (exists reason, e = SchemaError reason) /\
  (QA.analyzeQuery (QA.inputState questionText) w).2 = Err e /\
  QA.invoke vectorStore questionText w = (aborted, Err e) /\
  heap aborted = heap w.
Proof.
  intros Hraw Hschema aborted. subst aborted. split_and!.
  - by apply searchSchema_error in Hschema.
  - rewrite analyzeQuery_run. simpl. by rewrite Hraw, Hschema.
  - unfold QA.invoke, StateGraph.stream.
    change (StateGraph.successors (QA.graph vectorStore) StateGraph.START
              (QA.inputState questionText)) with ["analyzeQuery"].
    unfold StateGraph.recursionLimit.
    rewrite (runFrom_node _ _ _ _ _ _ _ QA.analyzeQuery) by done.
    rewrite analyzeQuery_run. simpl. rewrite Hraw, Hschema.
    unfold withEvents. simpl. by rewrite <- app_assoc.
  - done.
Qed.

Section C8Witness.
#[local] Existing Instance Demo.offSchema.

(** C8 on a structured model that names a section outside the schema. *)
Lemma C8_schema_error_is_fatal_witness :
  let raw := [("query", JsString "q"); ("section", JsString "conclusion")] in
  let e := SchemaError "section: invalid enum value" in
  chatInvokeStructured "q" = inr raw /\
  QA.searchSchema raw = Err e /\
  let aborted :=
    withEvents (fun es => es ++ [NodeRun "analyzeQuery"; StructuredInvoke "q"])
      Demo.start in
  (exists reason, e = SchemaError reason) /\
  (QA.analyzeQuery (QA.inputState "q") Demo.start).2 = Err e /\
  QA.invoke 2 "q" Demo.start = (aborted, Err e) /\
  heap aborted = heap Demo.start.
Proof.
  intros raw e. split; [reflexivity|]. split; [reflexivity|].
  apply (C8_schema_error_is_fatal 2 "q" Demo.start raw e); reflexivity.
Defined.
End C8Witness.

Section WorkflowSteps.
Context `{Providers}.
Import StateGraph.

Lemma similaritySearch_cases vectorStore queryText k filterFn w :
  (exists w' docs,
     VectorIndex.similaritySearch vectorStore queryText k filterFn w = (w', Ok docs)
     /\ heap w' = heap w)
  \/ (exists w' e,
        VectorIndex.similaritySearch vectorStore queryText k filterFn w = (w', Err e)
        /\ ((exists reason, e = ProviderError reason)
            \/ e = UndefinedRead "memoryVectors")).
Proof.
  unfold VectorIndex.similaritySearch, VectorIndex.readStore, bind, get, emit,
    provider, ret, throw.
  destruct (heap w !! vectorStore) as [[| |e mvs]|]; simpl;
    try (right; eexists _, _; split; [reflexivity|by right]).
  destruct (embedQuery queryText) as [reason|q].
  - right. eexists _, _. split; [reflexivity|]. left. by eexists.
  - left. eexists _, _. by split.
Qed.

Lemma retrieve_cases vectorStore state s w :
  QA.search state = Some s ->
  (exists w' docs,
     QA.retrieve vectorStore state w = (w', Ok [QA.SetContext docs])
     /\ heap w' = heap w)
  \/ (exists w' e,
        QA.retrieve vectorStore state w = (w', Err e)
        /\ ((exists reason, e = ProviderError reason)
            \/ e = UndefinedRead "memoryVectors")).
Proof.
  intros Hs. unfold QA.retrieve, QA.readSearch. rewrite Hs.
  erewrite bind_ok by reflexivity.
  destruct (similaritySearch_cases vectorStore (query s) 2
              (Some (QA.sectionFilter s)) w)
    as [(w' & docs & Hrun & Hheap)|(w' & e & Hrun & He)].
  - left. erewrite bind_ok by exact Hrun.
    eexists _, docs. split; [reflexivity|]. simpl. done.
  - right. erewrite bind_err by exact Hrun. by eexists _, _.
Qed.

Lemma retrieve_ok vectorStore state w w' update :
  QA.retrieve vectorStore state w = (w', Ok update) ->
  exists docs, update = [QA.SetContext docs].
Proof.
  unfold QA.retrieve, QA.readSearch.
  destruct (QA.search state) as [s|]; [|done].
  erewrite bind_ok by reflexivity.
  destruct (similaritySearch_cases vectorStore (query s) 2
              (Some (QA.sectionFilter s)) w)
    as [(w1 & docs & Hrun & _)|(w1 & e & Hrun & _)].
  - erewrite bind_ok by exact Hrun. intros [= <- <-]. by eexists.
  - erewrite bind_err by exact Hrun. done.
Qed.

Lemma workflow_generate_run state w :
  QA.generate state w
  = match QA.context state with
    | None => (w, Err (UndefinedRead "context"))
    | Some ctx =>
        let messages :=
          QA.promptTemplate (QA.question state) (join nl (pageContent <$> ctx)) in
        (withEvents (fun es => es ++ [LlmInvoke messages]) w,
         match chatInvoke messages with
         | inl reason => Err (ProviderError reason)
         | inr response => Ok [QA.SetAnswer (content response)]
         end)
    end.
Proof.
  unfold QA.generate, QA.readContext.
  destruct (QA.context state) as [ctx|]; [|done].
  unfold bind, emit, provider, ret, throw. simpl.
  by destruct (chatInvoke _).
Qed.
End WorkflowSteps.

Section WorkflowRun.
Context `{Providers}.
Import StateGraph.

(** [retrieve], as a function of the process and the collaborators. *)
Lemma retrieve_full vectorStore state w :
  QA.retrieve vectorStore state w
  = match QA.search state with
    | None => (w, Err (UndefinedRead "search"))
    | Some s =>
        match heap w !! vectorStore with
        | Some (MemoryVectorStore _ mvs) =>
            let w1 := withEvents (fun es => es ++ [EmbedQuery (query s)]) w in
            match embedQuery (query s) with
            | inl reason => (w1, Err (ProviderError reason))
            | inr v =>
                let docs :=
                  VectorIndex.similaritySearchVectorWithScore v 2
                    (Some (QA.sectionFilter s)) mvs in
                (withEvents
                   (fun es => es ++ [ConsoleLog [PString "RETRIEVED DOCUMENTS";
                                                 PDocuments docs]]) w1,
                 Ok [QA.SetContext docs])
            end
        | _ => (w, Err (UndefinedRead "memoryVectors"))
        end
    end.
Proof.
  unfold QA.retrieve, QA.readSearch.
  destruct (QA.search state) as [s|]; [|done].
  erewrite bind_ok by reflexivity.
  unfold bind at 1.
  destruct (heap w !! vectorStore) as [[| |e mvs]|] eqn:Hheap.
  - unfold VectorIndex.similaritySearch, VectorIndex.readStore, bind, get, throw.
    by rewrite Hheap.
  - unfold VectorIndex.similaritySearch, VectorIndex.readStore, bind, get, throw.
    by rewrite Hheap.
  - rewrite (similaritySearch_run _ _ _ _ _ e mvs Hheap).
    by destruct (embedQuery (query s)).
  - unfold VectorIndex.similaritySearch, VectorIndex.readStore, bind, get, throw.
    by rewrite Hheap.
Qed.

(** The outcome of one invocation of the query-analysed graph, in terms of
    what the collaborators answer. *)
Lemma invoke_outcome vectorStore questionText w :
  (QA.invoke vectorStore questionText w).2
  = match chatInvokeStructured questionText with
    | inl reason => Err (ProviderError reason)
    | inr raw =>
        match QA.searchSchema raw with
        | Err e => Err e
        | Ok s =>
            match heap w !! vectorStore with
            | Some (MemoryVectorStore _ mvs) =>
                match embedQuery (query s) with
                | inl reason => Err (ProviderError reason)
                | inr v =>
                    let docs :=
                      VectorIndex.similaritySearchVectorWithScore v 2
                        (Some (QA.sectionFilter s)) mvs in
                    match chatInvoke
                            (QA.promptTemplate questionText
                               (join nl (pageContent <$> docs))) with
                    | inl reason => Err (ProviderError reason)
                    | inr response =>
                        Ok (QA.mkState questionText (Some s) (Some docs)
                              (Some (content response)))
                    end
                end
            | _ => Err (UndefinedRead "memoryVectors")
            end
        end
    end.
Proof.
  unfold QA.invoke, stream.
  change (successors (QA.graph vectorStore) START (QA.inputState questionText))
    with ["analyzeQuery"].
  unfold recursionLimit.
  rewrite (runFrom_node _ _ _ _ _ _ _ QA.analyzeQuery) by done.
  rewrite analyzeQuery_run.
  change (QA.question (QA.inputState questionText)) with questionText.
  destruct (chatInvokeStructured questionText) as [reason|raw]; [done|].
  destruct (QA.searchSchema raw) as [s|e]; [|done].
  rewrite printStep_run.
  change (successors (QA.graph vectorStore) "analyzeQuery" _) with ["retrieve"].
  cbv beta iota.
  rewrite (runFrom_node _ _ _ _ _ _ _ (QA.retrieve vectorStore)) by done.
  rewrite retrieve_full.
  change (QA.search (QA.reduce (QA.inputState questionText) [QA.SetSearch s]))
    with (Some s).
  change (heap _ !! vectorStore) with (heap w !! vectorStore).
  cbv beta iota zeta.
  destruct (heap w !! vectorStore) as [[| |e mvs]|]; try done.
  destruct (embedQuery (query s)) as [reason|v]; [done|].
  rewrite printStep_run.
  change (successors (QA.graph vectorStore) "retrieve" _) with ["generate"].
  cbv beta iota.
  rewrite (runFrom_node _ _ _ _ _ _ _ QA.generate) by done.
  rewrite workflow_generate_run.
  cbn [QA.reduce foldl QA.assign QA.context QA.question QA.search QA.answer
       QA.inputState].
  cbv beta iota zeta.
  destruct (chatInvoke _) as [reason|response]; [done|].
  rewrite printStep_run.
  change (successors (QA.graph vectorStore) "generate" _) with [END_NODE].
  cbv beta iota.
  rewrite runFrom_end. reflexivity.
Qed.
End WorkflowRun.

(** C9. In the query-analysed workflow, the update a step returns has one
    key, the field the step is responsible for ([search] for analyzeQuery,
    [context] for retrieve, [answer] for generate), and merging it leaves
    every other field as it was. What a step does depends on the fields it
    reads only: [question] for analyzeQuery, [search] for retrieve,
    [question] and [context] for generate. In a run of the graph each of
    these fields has been produced before the step that reads it: the run
    never stops on an undefined [search] or [context], and a run that
    succeeds ends with the question it was given and all three fields set. *)
Theorem C9_workflow_state_frame `{Providers} (vectorStore : Ref) :
  (forall st w w' update,
     QA.analyzeQuery st w = (w', Ok update) ->
     QA.keys update = ["search"] /\
     QA.question (QA.reduce st update) = QA.question st /\
     QA.context (QA.reduce st update) = QA.context st /\
     QA.answer (QA.reduce st update) = QA.answer st) /\
  (forall st w w' update,
     QA.retrieve vectorStore st w = (w', Ok update) ->
     QA.keys update = ["context"] /\
     QA.question (QA.reduce st update) = QA.question st /\
     QA.search (QA.reduce st update) = QA.search st /\
     QA.answer (QA.reduce st update) = QA.answer st) /\
  (forall st w w' update,
     QA.generate st w = (w', Ok update) ->
     QA.keys update = ["answer"] /\
     QA.question (QA.reduce st update) = QA.question st /\
     QA.search (QA.reduce st update) = QA.search st /\
     QA.context (QA.reduce st update) = QA.context st) /\
  (forall st1 st2 w,
     QA.question st1 = QA.question st2 ->
     QA.analyzeQuery st1 w = QA.analyzeQuery st2 w) /\
  (forall st1 st2 w,
     QA.search st1 = QA.search st2 ->
     QA.retrieve vectorStore st1 w = QA.retrieve vectorStore st2 w) /\
  (forall st1 st2 w,
     QA.question st1 = QA.question st2 -> QA.context st1 = QA.context st2 ->
     QA.generate st1 w = QA.generate st2 w) /\
  (forall questionText w,
     let outcome := (QA.invoke vectorStore questionText w).2 in
     outcome <> Err (UndefinedRead "search") /\
     outcome <> Err (UndefinedRead "context") /\
     forall st, outcome = Ok st ->
       QA.question st = questionText /\ is_Some (QA.search st) /\
       is_Some (QA.context st) /\ is_Some (QA.answer st)).
Proof.
  split_and!.
  - intros st w w' update. rewrite analyzeQuery_run.
    destruct (chatInvokeStructured (QA.question st)) as [reason|raw]; [done|].
    destruct (QA.searchSchema raw) as [s|e]; [|done].
    by intros [= <- <-].
  - intros st w w' update Hrun.
    apply retrieve_ok in Hrun as [docs ->]. done.
  - intros st w w' update. rewrite workflow_generate_run.
    destruct (QA.context st) as [ctx|] eqn:Hctx; [|done]. cbv zeta.
    destruct (chatInvoke _) as [reason|response]; [done|].
    intros [= <- <-]. simpl. by rewrite Hctx.
  - intros st1 st2 w Hq. by rewrite !analyzeQuery_run, Hq.
  - intros st1 st2 w Hs. by rewrite !retrieve_full, Hs.
  - intros st1 st2 w Hq Hc. by rewrite !workflow_generate_run, Hq, Hc.
  - intros questionText w outcome. subst outcome. rewrite invoke_outcome.
    destruct (chatInvokeStructured questionText) as [reason|raw];
      [by split_and!|].
    destruct (QA.searchSchema raw) as [s|e] eqn:Hschema.
    2:{ apply searchSchema_error in Hschema as [reason ->]. by split_and!. }
    destruct (heap w !! vectorStore) as [[| |e mvs]|]; try by split_and!.
    destruct (embedQuery (query s)) as [reason|v]; [by split_and!|].
    cbv zeta.
    destruct (chatInvoke _) as [reason|response]; [by split_and!|].
    split_and!; try done.
    intros st [= <-]. simpl. by split_and!.
Qed.

Section DemoRuns.
#[local] Existing Instance Demo.providers.

Example demo_invoke :
  (QA.invoke 1 "What does the end of the post say about tools?" Demo.indexed).2
  = Ok (QA.mkState "What does the end of the post say about tools?"
          (Some (mkSearchSpec "What does the end of the post say about tools?" End))
          (Some [mkDocument "Task decomposition, again"
                   (mkMetadata Demo.postUrl (Some End));
                 mkDocument "Case studies" (mkMetadata Demo.postUrl (Some End))])
          (Some "It splits a task into steps.")).
Proof. vm_compute. reflexivity. Qed.

Example demo_invoke_nodes :
  filter (fun e => isNodeRun e)
    (events (QA.invoke 1 "What does the end of the post say about tools?"
               Demo.indexed).1)
  = [NodeRun "analyzeQuery"; NodeRun "retrieve"; NodeRun "generate"].
Proof. vm_compute. reflexivity. Qed.

Example demo_agent_nodes :
  filter (fun e => isNodeRun e)
    (events (Agent.invoke 1 [HumanMessage "Memory"] Demo.indexed).1)
  = [NodeRun "queryOrRespond"; NodeRun "tools"; NodeRun "generate"].
Proof. vm_compute. reflexivity. Qed.

Example demo_agent_direct_answer :
  filter (fun e => isNodeRun e)
    (events (Agent.invoke 1 [HumanMessage "hello"; AIMessage "hi" (Some [])]
               Demo.indexed).1)
  = [NodeRun "queryOrRespond"].
Proof. vm_compute. reflexivity. Qed.

Example demo_cli_usage :
  Cli.main ["node"; "pipeline.ts"] Demo.start
  = (withEvents (fun _ => [ConsoleError Cli.usage1; ConsoleError Cli.usage2])
       Demo.start,
     Err (ProcessExit 1)).
Proof. reflexivity. Qed.

Example demo_cli_query :
  AgentStream [HumanMessage "What is Task Decomposition?"]
  ∈ events (Cli.main ["node"; "pipeline.ts"; "What is Task Decomposition?"]
              Demo.start).1
  /\ (Cli.main ["node"; "pipeline.ts"; "What is Task Decomposition?"]
        Demo.start).2 = Ok tt.
Proof. vm_compute. split; [|done]. do 4 right. left. Qed.
End DemoRuns.

(** * Further properties of the sources *)

(** ** The search schema *)

Lemma parseSection_Some text label :
  QA.parseSection text = Some label <-> text = sectionName label.
Proof.
  unfold QA.parseSection. split.
  - repeat case_decide; subst; intros [= <-]; done.
  - intros ->. by destruct label.
Qed.

(** X1. [searchSchema] accepts an object exactly when its [query] is a string
    and its [section] is one of the strings beginning, middle, end, and then
    returns these two values unchanged, whatever other keys the object has;
    the object written for a search specification is read back as that
    specification; anything else is rejected with a schema error. *)
Theorem X1_searchSchema_accepts (raw : RawObject) :
  (forall s,
     QA.searchSchema raw = Ok s <->
     rawLookup "query" raw = Some (JsString (query s)) /\
     rawLookup "section" raw = Some (JsString (sectionName (searchSection s)))) /\
  (forall s, QA.searchSchema (encodeSearch s) = Ok s) /\
  (forall e, QA.searchSchema raw = Err e -> exists reason, e = SchemaError reason) /\
  (forall s extra,
     QA.searchSchema raw = Ok s -> QA.searchSchema (raw ++ extra) = Ok s).
Proof.
  assert (Hiff : forall raw' s,
    QA.searchSchema raw' = Ok s <->
    rawLookup "query" raw' = Some (JsString (query s)) /\
    rawLookup "section" raw' = Some (JsString (sectionName (searchSection s)))).
  { intros raw' s. unfold QA.searchSchema. split.
    - destruct (rawLookup "query" raw') as [[| | |q]|]; try done.
      destruct (rawLookup "section" raw') as [[| | |text]|]; try done.
      destruct (QA.parseSection text) as [label|] eqn:Hparse; [|done].
      intros [= <-]. simpl. apply parseSection_Some in Hparse. by subst.
    - intros [-> ->]. rewrite parseSection_sectionName. by destruct s. }
  assert (Happ : forall key (o extra : RawObject) v,
    rawLookup key o = Some v -> rawLookup key (o ++ extra) = Some v).
  { intros key o extra v. induction o as [|[k x] o IH]; simpl; [done|].
    case_decide; [done|]. apply IH. }
  split_and!.
  - apply Hiff.
  - intros s. apply Hiff. by destruct s as [q []].
  - apply searchSchema_error.
  - intros s extra Hok. apply Hiff in Hok as [Hq Hs]. apply Hiff.
    split; by apply Happ.
Qed.

(** ** More on the section labels *)

Section LabelFacts.
Import Ingestion.

Lemma labelSections_elem allSplits d :
  d ∈ labelSections allSplits ->
  exists i, i < length allSplits /\
    section (metadata d) = Some (sectionAt (length allSplits / 3) i).
Proof.
  intros Hd. apply list_elem_of_lookup in Hd as [i Hi].
  rewrite labelSections_lookup in Hi.
  destruct (allSplits !! i) as [d0|] eqn:Hd0; [|done].
  injection Hi as <-. exists i. split; [|done].
  by apply lookup_lt_Some in Hd0.
Qed.

Lemma countSection_positive s allSplits i :
  i < length allSplits ->
  sectionAt (length allSplits / 3) i = s ->
  0 < countSection s (labelSections allSplits).
Proof.
  intros Hi Hs. rewrite countSection_labelSections.
  assert (Hin : i ∈ filter (fun j => sectionAt (length allSplits / 3) j = s)
                      (seq 0 (length allSplits))).
  { apply list_elem_of_filter. split; [done|]. apply elem_of_seq. lia. }
  destruct (filter _ _); [by apply elem_of_nil in Hin|simpl; lia].
Qed.
End LabelFacts.

(** X2. A document of fewer than three chunks has every chunk labelled end,
    so no chunk is labelled beginning or middle; from three chunks on, each
    of the three labels is carried by at least one chunk, and end is never
    carried by fewer chunks than beginning. *)
Theorem X2_labels_of_short_documents (allSplits : list Document) :
  let labelled := Ingestion.labelSections allSplits in
  (length allSplits < 3 ->
     Forall (fun d => section (metadata d) = Some End) labelled /\
     Ingestion.countSection Beginning labelled = 0 /\
     Ingestion.countSection Middle labelled = 0) /\
  (3 <= length allSplits ->
     forall s, 0 < Ingestion.countSection s labelled) /\
  Ingestion.countSection Beginning labelled <= Ingestion.countSection End labelled.
Proof.
  intros labelled. subst labelled.
  set (N := length allSplits).
  assert (Hthird : 3 * (N / 3) <= N) by apply Nat.Div0.mul_div_le.
  assert (Hb : Ingestion.countSection Beginning (Ingestion.labelSections allSplits)
               = N / 3).
  { rewrite countSection_labelSections. fold N.
    rewrite (list_filter_iff _ (fun i => 0 <= i < N / 3)).
    - rewrite count_window. lia.
    - intros i. rewrite sectionAt_Beginning. lia. }
  assert (Hm : Ingestion.countSection Middle (Ingestion.labelSections allSplits)
               = N / 3).
  { rewrite countSection_labelSections. fold N.
    rewrite (list_filter_iff _ (fun i => N / 3 <= i < 2 * (N / 3))).
    - rewrite count_window. lia.
    - intros i. apply sectionAt_Middle. }
  assert (He : Ingestion.countSection End (Ingestion.labelSections allSplits)
               = N - 2 * (N / 3)).
  { rewrite countSection_labelSections. fold N.
    rewrite (filter_ext_elem _ (fun i => 2 * (N / 3) <= i < N)).
    - rewrite count_window. lia.
    - intros i Hi. apply elem_of_seq in Hi. rewrite sectionAt_End. lia. }
  split_and!.
  - intros Hshort.
    assert (Hzero : N / 3 = 0) by (apply Nat.div_small; lia).
    split_and!; [|lia|lia].
    apply Forall_forall. intros d Hd.
    apply labelSections_elem in Hd as (i & Hi & ->). fold N. rewrite Hzero.
    f_equal; apply sectionAt_End; lia.
  - intros Hlong s.
    assert (Hpos : 1 <= N / 3) by (apply Nat.div_le_lower_bound; lia).
    destruct s; lia.
  - lia.
Qed.

(** X3. Labels never go backwards along the document: of two labelled chunks
    the later one is labelled with the same or a later section than the
    earlier one. *)
Theorem X3_labels_follow_position (allSplits : list Document)
    (i j : nat) (d d' : Document) :
  i <= j ->
  Ingestion.labelSections allSplits !! i = Some d ->
  Ingestion.labelSections allSplits !! j = Some d' ->
  exists a b, section (metadata d) = Some a /\ section (metadata d') = Some b /\
    labelRank a <= labelRank b.
Proof.
  intros Hij Hi Hj. rewrite labelSections_lookup in Hi, Hj.
  destruct (allSplits !! i) as [x|]; [|done].
  destruct (allSplits !! j) as [y|]; [|done].
  injection Hi as <-. injection Hj as <-.
  eexists _, _. split; [done|]. split; [done|].
  unfold Ingestion.sectionAt. repeat case_decide; simpl; lia.
Qed.

Lemma X3_labels_follow_position_witness :
  1 <= 5 /\
  Ingestion.labelSections Demo.pages !! 1
  = Some (mkDocument "Planning and task decomposition"
            (mkMetadata Demo.postUrl (Some Beginning))) /\
  Ingestion.labelSections Demo.pages !! 5
  = Some (mkDocument "Challenges" (mkMetadata Demo.postUrl (Some End))) /\
  exists a b,
    section (metadata (mkDocument "Planning and task decomposition"
                         (mkMetadata Demo.postUrl (Some Beginning)))) = Some a /\
    section (metadata (mkDocument "Challenges"
                         (mkMetadata Demo.postUrl (Some End)))) = Some b /\
    labelRank a <= labelRank b.
Proof.
  split; [lia|]. split; [reflexivity|]. split; [reflexivity|].
  apply (X3_labels_follow_position Demo.pages 1 5); [lia|reflexivity|reflexivity].
Defined.

(** X4. Labelling overwrites whatever label a chunk had: chunks that differ
    in their old labels only get the same labelled list, and labelling a
    labelled list again changes nothing. *)
Theorem X4_labels_overwrite (allSplits : list Document) :
  (forall old,
     Ingestion.labelSections (setSection old <$> allSplits)
     = Ingestion.labelSections allSplits) /\
  Ingestion.labelSections (Ingestion.labelSections allSplits)
  = Ingestion.labelSections allSplits.
Proof.
  split.
  - intros old. apply list_eq. intros i.
    rewrite !labelSections_lookup, length_fmap, list_lookup_fmap.
    by destruct (allSplits !! i).
  - apply list_eq. intros i.
    rewrite !labelSections_lookup, labelSections_length.
    by destruct (allSplits !! i).
Qed.

(** ** Runs of the query-analysed graph *)

Section RuntimeHeap.
Context `{Providers} {State Update : Type}.
Import StateGraph.

Lemma assoc_elem {V} key (entries : list (string * V)) v :
  assoc key entries = Some v -> (key, v) ∈ entries.
Proof.
  induction entries as [|[k x] entries IH]; simpl; [done|].
  case_decide as Hk.
  - intros [= <-]. subst. by left.
  - intros Hv. right. by apply IH.
Qed.

(** A run of a graph leaves the objects of the process as they are when its
    nodes and the body of the consuming loop do. *)
Lemma runFrom_heap (reduce : State -> Update -> State) g mode body :
  (forall name action st w,
     (name, action) ∈ nodes g -> heap (action st w).1 = heap w) ->
  (forall c w, heap (body c w).1 = heap w) ->
  forall fuel current st w,
    heap (runFrom reduce fuel g mode body current st w).1 = heap w.
Proof.
  intros Hnodes Hbody.
  induction fuel as [|fuel IH]; intros current st w; simpl.
  - by case_decide.
  - case_decide; [done|].
    destruct (assoc current (nodes g)) as [action|] eqn:Haction; [|done].
    apply assoc_elem in Haction.
    unfold bind, emit.
    pose proof (Hnodes current action st
                  (withEvents (fun es => es ++ [NodeRun current]) w) Haction) as Ha.
    destruct (action st _) as [w1 [update|e]]; simpl in Ha; [|done].
    pose proof (Hbody (chunkOf mode current update (reduce st update)) w1) as Hb.
    destruct (body _ w1) as [w2 [[]|e]]; simpl in Hb; [|simpl; congruence].
    destruct (successors g current (reduce st update)) as [|next [|]];
      simpl; rewrite ?IH; congruence.
Qed.
End RuntimeHeap.

Section WorkflowTrace.
Context `{Providers}.
Import StateGraph.

Lemma step_graph vectorStore current (st : QA.State) next :
  step (QA.graph vectorStore) current st next <->
  (current = START /\ next = "analyzeQuery")
  \/ (current = "analyzeQuery" /\ next = "retrieve")
  \/ (current = "retrieve" /\ next = "generate")
  \/ (current = "generate" /\ next = END_NODE).
Proof.
  unfold step, successors. simpl.
  repeat case_decide; subst; simpl; rewrite ?elem_of_cons, ?elem_of_nil;
    try discriminate; intuition (try discriminate; try congruence).
Qed.

(** Appending to the trace twice is appending once. *)
Lemma withEvents_app (a b : list Event) w :
  withEvents (fun es => es ++ b) (withEvents (fun es => es ++ a) w)
  = withEvents (fun es => es ++ (a ++ b)) w.
Proof. unfold withEvents. simpl. by rewrite <- app_assoc. Qed.

(** One invocation of the query-analysed graph: the process it leaves and its
    outcome, in terms of what the collaborators answer. *)
Lemma invoke_full vectorStore questionText w :
  QA.invoke vectorStore questionText w
  = let w1 := withEvents (fun es => es ++ [NodeRun "analyzeQuery";
                                           StructuredInvoke questionText]) w in
    match chatInvokeStructured questionText with
    | inl reason => (w1, Err (ProviderError reason))
    | inr raw =>
        match QA.searchSchema raw with
        | Err e => (w1, Err e)
        | Ok s =>
            let w2 := withEvents
                        (fun es => es ++ printed "analyzeQuery" [QA.SetSearch s]
                                      ++ [NodeRun "retrieve"]) w1 in
            match heap w !! vectorStore with
            | Some (MemoryVectorStore _ mvs) =>
                let w3 := withEvents (fun es => es ++ [EmbedQuery (query s)]) w2 in
                match embedQuery (query s) with
                | inl reason => (w3, Err (ProviderError reason))
                | inr v =>
                    let docs :=
                      VectorIndex.similaritySearchVectorWithScore v 2
                        (Some (QA.sectionFilter s)) mvs in
                    let messages :=
                      QA.promptTemplate questionText
                        (join nl (pageContent <$> docs)) in
                    let w4 := withEvents
                                (fun es =>
                                   es ++ [ConsoleLog [PString "RETRIEVED DOCUMENTS";
                                                      PDocuments docs]]
                                      ++ printed "retrieve" [QA.SetContext docs]
                                      ++ [NodeRun "generate"; LlmInvoke messages])
                                w3 in
                    match chatInvoke messages with
                    | inl reason => (w4, Err (ProviderError reason))
                    | inr response =>
                        (withEvents
                           (fun es => es ++ printed "generate"
                                               [QA.SetAnswer (content response)]) w4,
                         Ok (QA.mkState questionText (Some s) (Some docs)
                               (Some (content response))))
                    end
                end
            | _ => (w2, Err (UndefinedRead "memoryVectors"))
            end
        end
    end.
Proof.
  unfold QA.invoke, stream.
  change (successors (QA.graph vectorStore) START (QA.inputState questionText))
    with ["analyzeQuery"].
  unfold recursionLimit.
  rewrite (runFrom_node _ _ _ _ _ _ _ QA.analyzeQuery) by done.
  rewrite analyzeQuery_run.
  change (QA.question (QA.inputState questionText)) with questionText.
  rewrite (withEvents_app [NodeRun "analyzeQuery"] [StructuredInvoke questionText]).
  cbv zeta.
  destruct (chatInvokeStructured questionText) as [reason|raw]; [done|].
  destruct (QA.searchSchema raw) as [s|e]; [|done].
  rewrite printStep_run.
  change (successors (QA.graph vectorStore) "analyzeQuery" _) with ["retrieve"].
  cbv beta iota.
  rewrite (runFrom_node _ _ _ _ _ _ _ (QA.retrieve vectorStore)) by done.
  rewrite retrieve_full.
  change (QA.search (QA.reduce (QA.inputState questionText) [QA.SetSearch s]))
    with (Some s).
  change (heap _ !! vectorStore) with (heap w !! vectorStore).
  cbv beta iota zeta.
  rewrite !withEvents_app.
  destruct (heap w !! vectorStore) as [[| |e mvs]|]; try done.
  destruct (embedQuery (query s)) as [reason|v]; [done|].
  rewrite printStep_run.
  change (successors (QA.graph vectorStore) "retrieve" _) with ["generate"].
  cbv beta iota.
  rewrite (runFrom_node _ _ _ _ _ _ _ QA.generate) by done.
  rewrite workflow_generate_run.
  cbn [QA.reduce foldl QA.assign QA.context QA.question QA.search QA.answer
       QA.inputState].
  cbv beta iota zeta.
  rewrite !withEvents_app.
  destruct (chatInvoke _) as [reason|response]; [done|].
  rewrite printStep_run.
  change (successors (QA.graph vectorStore) "generate" _) with [END_NODE].
  cbv beta iota.
  rewrite runFrom_end. unfold ret.
  rewrite !withEvents_app. reflexivity.
Qed.
End WorkflowTrace.


(** X5. The query-analysed graph is a chain: its nodes are analyzeQuery,
    retrieve and generate, and its only transitions lead from the start to
    analyzeQuery, from there to retrieve, from there to generate and from
    there to the end, whatever the state; so a node has one successor and the
    end has none. *)
Theorem X5_workflow_is_a_chain `{Providers} (vectorStore : Ref) :
  let g := QA.graph vectorStore in
  (StateGraph.nodes g).*1 = ["analyzeQuery"; "retrieve"; "generate"] /\
  (forall current st next,
     StateGraph.step g current st next <->
     (current = StateGraph.START /\ next = "analyzeQuery")
     \/ (current = "analyzeQuery" /\ next = "retrieve")
     \/ (current = "retrieve" /\ next = "generate")
     \/ (current = "generate" /\ next = StateGraph.END_NODE)) /\
  (forall current st st' next next',
     StateGraph.step g current st next -> StateGraph.step g current st' next' ->
     next = next') /\
  (forall st next, ~ StateGraph.step g StateGraph.END_NODE st next).
Proof.
  intros g. subst g. split_and!.
  - reflexivity.
  - apply step_graph.
  - intros current st st' next next' H1 H2.
    apply step_graph in H1, H2. unfold StateGraph.START in *.
    intuition (try discriminate; try congruence).
  - intros st next Hstep. apply step_graph in Hstep.
    unfold StateGraph.START, StateGraph.END_NODE in *.
    intuition discriminate.
Qed.

(** X6. When every collaborator answers and the structured answer is valid,
    one invocation of the query-analysed graph is a single pass: analyzeQuery,
    retrieve and generate run once each in this order, the structured model,
    the embedding provider and the chat model are called once each, the
    update of a step is printed before the next step starts, no object of
    the process changes, and the final state holds the question, the
    validated search, the retrieved chunks and the content of the answer. *)
Theorem X6_workflow_single_pass `{Providers}
    (vectorStore : Ref) (questionText : string) (w : World)
    (e : Ref) (mvs : list (MemoryVector Vector))
    (raw : RawObject) (s : SearchSpec) (v : Vector) (response : Message) :
  heap w !! vectorStore = Some (MemoryVectorStore e mvs) ->
  chatInvokeStructured questionText = inr raw ->
  QA.searchSchema raw = Ok s ->
  embedQuery (query s) = inr v ->
  let docs :=
    VectorIndex.similaritySearchVectorWithScore v 2 (Some (QA.sectionFilter s)) mvs in
  let messages := QA.promptTemplate questionText (join nl (pageContent <$> docs)) in
  chatInvoke messages = inr response ->
  QA.invoke vectorStore questionText w
  = (withEvents
       (fun es =>
          es ++ [NodeRun "analyzeQuery"; StructuredInvoke questionText]
             ++ printed "analyzeQuery" [QA.SetSearch s]
             ++ [NodeRun "retrieve"; EmbedQuery (query s);
                 ConsoleLog [PString "RETRIEVED DOCUMENTS"; PDocuments docs]]
             ++ printed "retrieve" [QA.SetContext docs]
             ++ [NodeRun "generate"; LlmInvoke messages]
             ++ printed "generate" [QA.SetAnswer (content response)]) w,
     Ok (QA.mkState questionText (Some s) (Some docs) (Some (content response)))).
Proof.
  intros Hheap Hraw Hschema Hembed docs messages Hchat.
  rewrite invoke_full. cbv zeta.
  rewrite Hraw, Hschema, Hheap, Hembed. fold docs. fold messages. rewrite Hchat.
  rewrite !withEvents_app. f_equal.
Qed.

Section X6Witness.
#[local] Existing Instance Demo.providers.

Lemma X6_workflow_single_pass_witness :
  let questionText := "Tool use" in
  let raw := [("query", JsString "Tool use"); ("section", JsString "end")] in
  let response := AIMessage "It splits a task into steps." (Some []) in
  heap Demo.indexed !! 1 = Some (MemoryVectorStore 0 Demo.memory) /\
  chatInvokeStructured questionText = inr raw /\
  QA.searchSchema raw = Ok Demo.endSearch /\
  embedQuery (query Demo.endSearch) = inr 8 /\
  let docs :=
    VectorIndex.similaritySearchVectorWithScore 8 2
      (Some (QA.sectionFilter Demo.endSearch)) Demo.memory in
  let messages := QA.promptTemplate questionText (join nl (pageContent <$> docs)) in
  chatInvoke messages = inr response /\
  QA.invoke 1 questionText Demo.indexed
  = (withEvents
       (fun es =>
          es ++ [NodeRun "analyzeQuery"; StructuredInvoke questionText]
             ++ printed "analyzeQuery" [QA.SetSearch Demo.endSearch]
             ++ [NodeRun "retrieve"; EmbedQuery (query Demo.endSearch);
                 ConsoleLog [PString "RETRIEVED DOCUMENTS"; PDocuments docs]]
             ++ printed "retrieve" [QA.SetContext docs]
             ++ [NodeRun "generate"; LlmInvoke messages]
             ++ printed "generate" [QA.SetAnswer (content response)]) Demo.indexed,
     Ok (QA.mkState questionText (Some Demo.endSearch) (Some docs)
           (Some (content response)))).
Proof.
  intros questionText raw response.
  split; [reflexivity|]. split; [reflexivity|]. split; [reflexivity|].
  split; [reflexivity|]. intros docs messages. split; [reflexivity|].
  apply (X6_workflow_single_pass 1 questionText Demo.indexed 0 Demo.memory
           raw Demo.endSearch 8 response); reflexivity.
Defined.
End X6Witness.

(** X7. An invocation of the query-analysed graph stops at the first
    collaborator that fails, with that failure as its outcome: when the
    structured model fails nothing is printed and nothing is retrieved; when
    embedding the query fails the chat model is not called; when the chat
    model fails the retrieved chunks have been printed but no answer is. *)
Theorem X7_workflow_stops_at_first_failure `{Providers}
    (vectorStore : Ref) (questionText : string) (w : World) :
  (forall reason,
     chatInvokeStructured questionText = inl reason ->
     QA.invoke vectorStore questionText w
     = (withEvents (fun es => es ++ [NodeRun "analyzeQuery";
                                     StructuredInvoke questionText]) w,
        Err (ProviderError reason))) /\
  (forall e mvs raw s reason,
     heap w !! vectorStore = Some (MemoryVectorStore e mvs) ->
     chatInvokeStructured questionText = inr raw ->
     QA.searchSchema raw = Ok s ->
     embedQuery (query s) = inl reason ->
     QA.invoke vectorStore questionText w
     = (withEvents
          (fun es =>
             es ++ [NodeRun "analyzeQuery"; StructuredInvoke questionText]
                ++ printed "analyzeQuery" [QA.SetSearch s]
                ++ [NodeRun "retrieve"; EmbedQuery (query s)]) w,
        Err (ProviderError reason))) /\
  (forall e mvs raw s v reason,
     heap w !! vectorStore = Some (MemoryVectorStore e mvs) ->
     chatInvokeStructured questionText = inr raw ->
     QA.searchSchema raw = Ok s ->
     embedQuery (query s) = inr v ->
     let docs :=
       VectorIndex.similaritySearchVectorWithScore v 2
         (Some (QA.sectionFilter s)) mvs in
     let messages :=
       QA.promptTemplate questionText (join nl (pageContent <$> docs)) in
     chatInvoke messages = inl reason ->
     QA.invoke vectorStore questionText w
     = (withEvents
          (fun es =>
             es ++ [NodeRun "analyzeQuery"; StructuredInvoke questionText]
                ++ printed "analyzeQuery" [QA.SetSearch s]
                ++ [NodeRun "retrieve"; EmbedQuery (query s);
                    ConsoleLog [PString "RETRIEVED DOCUMENTS"; PDocuments docs]]
                ++ printed "retrieve" [QA.SetContext docs]
                ++ [NodeRun "generate"; LlmInvoke messages]) w,
        Err (ProviderError reason))).
Proof.
  split_and!.
  - intros reason Hraw. rewrite invoke_full. cbv zeta. by rewrite Hraw.
  - intros e mvs raw s reason Hheap Hraw Hschema Hembed.
    rewrite invoke_full. cbv zeta. rewrite Hraw, Hschema, Hheap, Hembed.
    rewrite !withEvents_app. f_equal.
  - intros e mvs raw s v reason Hheap Hraw Hschema Hembed docs messages Hchat.
    rewrite invoke_full. cbv zeta. rewrite Hraw, Hschema, Hheap, Hembed.
    fold docs. fold messages. rewrite Hchat.
    rewrite !withEvents_app. f_equal.
Qed.

(** ** Ingestion and the indexes of the programs *)

Section HeapFacts.
Context `{Providers}.
Import StateGraph.

Lemma bind_ret_world {A B} (m : M A) (b : B) w :
  (bind m (fun _ => ret b) w).1 = (m w).1.
Proof. unfold bind, ret. by destruct (m w) as [w' [a|e]]. Qed.

Lemma analyzeQuery_heap st w : heap (QA.analyzeQuery st w).1 = heap w.
Proof. by rewrite analyzeQuery_run. Qed.

Lemma retrieve_heap vectorStore st w :
  heap (QA.retrieve vectorStore st w).1 = heap w.
Proof.
  rewrite retrieve_full.
  destruct (QA.search st) as [s|]; [|done].
  destruct (heap w !! vectorStore) as [[| |e mvs]|]; try done.
  cbv zeta. by destruct (embedQuery (query s)).
Qed.

Lemma generate_heap st w : heap (QA.generate st w).1 = heap w.
Proof.
  rewrite workflow_generate_run. by destruct (QA.context st).
Qed.

Lemma printStep_heap c w : heap (QA.printStep c w).1 = heap w.
Proof. by rewrite printStep_run. Qed.

(** [retrieveQA], as a function of the process and the collaborators. *)
Lemma retrieveQA_full vectorStoreQA state w :
  Unfiltered.retrieveQA vectorStoreQA state w
  = match QA.search state with
    | None => (w, Err (UndefinedRead "search"))
    | Some s =>
        match heap w !! vectorStoreQA with
        | Some (MemoryVectorStore _ mvs) =>
            let w1 := withEvents (fun es => es ++ [EmbedQuery (query s)]) w in
            match embedQuery (query s) with
            | inl reason => (w1, Err (ProviderError reason))
            | inr v =>
                let docs :=
                  VectorIndex.similaritySearchVectorWithScore v 2 None mvs in
                (withEvents
                   (fun es => es ++ [ConsoleLog [PString "RETRIEVED DOCUMENTS";
                                                 PDocuments docs]]) w1,
                 Ok [QA.SetContext docs])
            end
        | _ => (w, Err (UndefinedRead "memoryVectors"))
        end
    end.
Proof.
  unfold Unfiltered.retrieveQA, QA.readSearch.
  destruct (QA.search state) as [s|]; [|done].
  erewrite bind_ok by reflexivity.
  unfold bind at 1.
  destruct (heap w !! vectorStoreQA) as [[| |e mvs]|] eqn:Hheap.
  - unfold VectorIndex.similaritySearch, VectorIndex.readStore, bind, get, throw.
    by rewrite Hheap.
  - unfold VectorIndex.similaritySearch, VectorIndex.readStore, bind, get, throw.
    by rewrite Hheap.
  - rewrite (similaritySearch_run _ _ _ _ _ e mvs Hheap).
    by destruct (embedQuery (query s)).
  - unfold VectorIndex.similaritySearch, VectorIndex.readStore, bind, get, throw.
    by rewrite Hheap.
Qed.

Lemma retrieveQA_heap vectorStoreQA st w :
  heap (Unfiltered.retrieveQA vectorStoreQA st w).1 = heap w.
Proof.
  rewrite retrieveQA_full.
  destruct (QA.search st) as [s|]; [|done].
  destruct (heap w !! vectorStoreQA) as [[| |e mvs]|]; try done.
  cbv zeta. by destruct (embedQuery (query s)).
Qed.

(** Neither graph changes an object of the process. *)
Lemma invoke_heap vectorStore questionText w :
  heap (QA.invoke vectorStore questionText w).1 = heap w.
Proof.
  unfold QA.invoke, stream.
  change (successors (QA.graph vectorStore) START (QA.inputState questionText))
    with ["analyzeQuery"].
  apply runFrom_heap; [|apply printStep_heap].
  intros name action st w' Hin. simpl in Hin.
  rewrite !elem_of_cons, elem_of_nil in Hin.
  destruct Hin as [[= -> ->]|[[= -> ->]|[[= -> ->]|[]]]].
  - apply analyzeQuery_heap.
  - apply retrieve_heap.
  - apply generate_heap.
Qed.

Lemma invokeQA_heap vectorStoreQA questionText w :
  heap (Unfiltered.invoke vectorStoreQA questionText w).1 = heap w.
Proof.
  unfold Unfiltered.invoke, stream.
  change (successors (Unfiltered.graphQA vectorStoreQA) START
            (QA.inputState questionText)) with ["analyzeQuery"].
  apply runFrom_heap; [|apply printStep_heap].
  intros name action st w' Hin. simpl in Hin.
  rewrite !elem_of_cons, elem_of_nil in Hin.
  destruct Hin as [[= -> ->]|[[= -> ->]|[[= -> ->]|[]]]].
  - apply analyzeQuery_heap.
  - apply retrieveQA_heap.
  - apply generate_heap.
Qed.

Lemma records_documents documents : forall vectors,
  length vectors = length documents ->
  VectorIndex.toDocument <$> records documents vectors = documents.
Proof.
  unfold records.
  induction documents as [|[text meta] documents IH]; intros [|v vectors] Hlen;
    try done.
  simpl. f_equal. apply IH. by injection Hlen.
Qed.
End HeapFacts.

(** X8. In the revision whose [retrieveQA] leaves the filter out of the
    call, retrieval does not depend on the section of the search
    specification: two states whose searches have the same query give the
    same result, and that result is the two nearest of all stored chunks
    (or all of them when fewer than two are stored), of whatever section. *)
Theorem X8_unfiltered_retrieval_ignores_section `{Providers}
    (vectorStoreQA : Ref) (w : World) (e : Ref)
    (mvs : list (MemoryVector Vector)) :
  heap w !! vectorStoreQA = Some (MemoryVectorStore e mvs) ->
  (forall state state' s s',
     QA.search state = Some s -> QA.search state' = Some s' ->
     query s = query s' ->
     Unfiltered.retrieveQA vectorStoreQA state w
     = Unfiltered.retrieveQA vectorStoreQA state' w) /\
  (forall state s v,
     QA.search state = Some s -> embedQuery (query s) = inr v ->
     let docs := VectorIndex.similaritySearchVectorWithScore v 2 None mvs in
     (Unfiltered.retrieveQA vectorStoreQA state w).2 = Ok [QA.SetContext docs] /\
     length docs = Nat.min 2 (length mvs)).
Proof.
  intros Hheap. split.
  - intros state state' s s' Hs Hs' Hq.
    rewrite !retrieveQA_full, Hs, Hs', Hheap, Hq. done.
  - intros state s v Hs Hv docs. subst docs.
    rewrite retrieveQA_full, Hs, Hheap. cbv zeta. rewrite Hv.
    split; [done|]. by rewrite search_length, matching_None.
Qed.

Section X8Witness.
#[local] Existing Instance Demo.providers.

Lemma X8_unfiltered_retrieval_ignores_section_witness :
  heap Demo.indexed !! 1 = Some (MemoryVectorStore 0 Demo.memory) /\
  (forall state state' s s',
     QA.search state = Some s -> QA.search state' = Some s' ->
     query s = query s' ->
     Unfiltered.retrieveQA 1 state Demo.indexed
     = Unfiltered.retrieveQA 1 state' Demo.indexed) /\
  (forall state s v,
     QA.search state = Some s -> embedQuery (query s) = inr v ->
     let docs := VectorIndex.similaritySearchVectorWithScore v 2 None Demo.memory in
     (Unfiltered.retrieveQA 1 state Demo.indexed).2 = Ok [QA.SetContext docs] /\
     length docs = Nat.min 2 (length Demo.memory)).
Proof.
  split; [reflexivity|].
  apply (X8_unfiltered_retrieval_ignores_section 1 Demo.indexed 0 Demo.memory).
  reflexivity.
Defined.
End X8Witness.

Section ProgramFacts.
Context `{Providers}.

Lemma records_labelled allSplits vectors :
  Forall (fun mv => is_Some (section (mvMetadata mv)))
    (records (Ingestion.labelSections allSplits) vectors).
Proof.
  apply Forall_forall. intros mv Hmv. unfold records in Hmv.
  apply elem_of_lookup_zip_with in Hmv as (i & d & v & -> & Hd & _).
  simpl. apply list_elem_of_lookup_2, labelSections_elem in Hd as (j & _ & ->).
  by eexists.
Qed.
End ProgramFacts.

(** X9. When both API keys are set, the page loads and every chunk gets its
    vector, the program of [pipeline.ts] builds the chat client, the
    embeddings client and one index over that embeddings client, and leaves
    in the index exactly the labelled chunks in document order, each with a
    section label, whatever the outcome of the graph that runs afterwards. *)
Theorem X9_pipeline_indexes_labelled_chunks `{Providers}
    (anthropicKey cohereKey : string) (docs : list Document)
    (vectors : list Vector) :
  loaderLoad = inr docs ->
  let allSplits := Ingestion.labelSections (splitDocuments docs) in
  embedDocuments (pageContent <$> allSplits) = inr vectors ->
  length vectors = length allSplits ->
  let final :=
    (QA.program (Models.freshProcess (Some anthropicKey) (Some cohereKey))).1 in
  heap final
  = [ChatAnthropic "claude-3-7-sonnet-20250219" 0 anthropicKey;
     CohereEmbeddings "embed-english-v3.0";
     MemoryVectorStore 1 (records allSplits vectors)] /\
  VectorIndex.toDocument <$> records allSplits vectors = allSplits /\
  Forall (fun mv => is_Some (section (mvMetadata mv))) (records allSplits vectors).
Proof.
  intros Hload allSplits Hembed Hlen final. subst final.
  split; [|split; [by apply records_documents|apply records_labelled]].
  unfold QA.program.
  erewrite bind_ok by reflexivity.
  unfold QA.main.
  erewrite bind_ok by reflexivity.
  rewrite Hload.
  erewrite bind_ok by reflexivity.
  cbv zeta. fold allSplits.
  erewrite bind_ok; cycle 1.
  { erewrite addDocuments_run by reflexivity. rewrite Hembed. reflexivity. }
  erewrite bind_ok by reflexivity.
  erewrite bind_ok by reflexivity.
  rewrite bind_ret_world, invoke_heap. reflexivity.
Qed.

Section X9Witness.
#[local] Existing Instance Demo.providers.

Lemma X9_pipeline_indexes_labelled_chunks_witness :
  let vectors : list Vector := [6; 31; 6; 8; 12; 10; 25] in
  loaderLoad = inr Demo.pages /\
  let allSplits := Ingestion.labelSections (splitDocuments Demo.pages) in
  embedDocuments (pageContent <$> allSplits) = inr vectors /\
  length vectors = length allSplits /\
  let final :=
    (QA.program (Models.freshProcess (Some "sk-ant") (Some "co-key"))).1 in
  heap final
  = [ChatAnthropic "claude-3-7-sonnet-20250219" 0 "sk-ant";
     CohereEmbeddings "embed-english-v3.0";
     MemoryVectorStore 1 (records allSplits vectors)] /\
  VectorIndex.toDocument <$> records allSplits vectors = allSplits /\
  Forall (fun mv => is_Some (section (mvMetadata mv))) (records allSplits vectors).
Proof.
  intros vectors. split; [reflexivity|]. intros allSplits.
  split; [reflexivity|]. split; [reflexivity|].
  apply (X9_pipeline_indexes_labelled_chunks "sk-ant" "co-key" Demo.pages vectors);
    reflexivity.
Defined.
End X9Witness.

(** X10. The revision with its own index [vectorStoreQA] puts the labelled
    chunks there and nowhere else: after its program has run with both keys
    set, the page loaded and the chunks embedded, the index exported by
    [models.ts] is still empty, [vectorStoreQA] holds the labelled chunks,
    and both indexes hold the one embeddings client. *)
Theorem X10_own_index_leaves_shared_index_empty `{Providers}
    (anthropicKey cohereKey : string) (docs : list Document)
    (vectors : list Vector) :
  loaderLoad = inr docs ->
  let allSplits := Ingestion.labelSections (splitDocuments docs) in
  embedDocuments (pageContent <$> allSplits) = inr vectors ->
  let final :=
    (Unfiltered.program
       (Models.freshProcess (Some anthropicKey) (Some cohereKey))).1 in
  heap final
  = [ChatAnthropic "claude-3-7-sonnet-20250219" 0 anthropicKey;
     CohereEmbeddings "embed-english-v3.0";
     MemoryVectorStore 1 [];
     MemoryVectorStore 1 (records allSplits vectors)].
Proof.
  intros Hload allSplits Hembed final. subst final.
  unfold Unfiltered.program.
  erewrite bind_ok by reflexivity.
  erewrite bind_ok by reflexivity.
  unfold Unfiltered.main.
  erewrite bind_ok by reflexivity.
  rewrite Hload.
  erewrite bind_ok by reflexivity.
  cbv zeta. fold allSplits.
  erewrite bind_ok; cycle 1.
  { erewrite addDocuments_run by reflexivity. rewrite Hembed. reflexivity. }
  erewrite bind_ok by reflexivity.
  erewrite bind_ok by reflexivity.
  rewrite bind_ret_world, invokeQA_heap. reflexivity.
Qed.

Section X10Witness.
#[local] Existing Instance Demo.providers.

Lemma X10_own_index_leaves_shared_index_empty_witness :
  let vectors : list Vector := [6; 31; 6; 8; 12; 10; 25] in
  loaderLoad = inr Demo.pages /\
  let allSplits := Ingestion.labelSections (splitDocuments Demo.pages) in
  embedDocuments (pageContent <$> allSplits) = inr vectors /\
  let final :=
    (Unfiltered.program (Models.freshProcess (Some "sk-ant") (Some "co-key"))).1 in
  heap final
  = [ChatAnthropic "claude-3-7-sonnet-20250219" 0 "sk-ant";
     CohereEmbeddings "embed-english-v3.0";
     MemoryVectorStore 1 [];
     MemoryVectorStore 1 (records allSplits vectors)].
Proof.
  intros vectors. split; [reflexivity|]. intros allSplits.
  split; [reflexivity|].
  apply (X10_own_index_leaves_shared_index_empty "sk-ant" "co-key" Demo.pages vectors);
    reflexivity.
Defined.
End X10Witness.

(** ** [generate] after a tool round *)

Section WindowFacts.
Import Agent.

Lemma collectWhileTool_app p l :
  Forall (fun m => isToolMessage m = true) p ->
  collectWhileTool (p ++ l) = p ++ collectWhileTool l.
Proof.
  induction 1 as [|m p Hm _ IH]; simpl; [done|]. by rewrite Hm, IH.
Qed.

Lemma collectWhileTool_stop m l :
  isToolMessage m = false -> collectWhileTool (m :: l) = [].
Proof. intros Hm. simpl. by rewrite Hm. Qed.

(** After a message that is not a tool message, a run of tool messages is
    the whole window. *)
Lemma toolMessages_round older m tms :
  isToolMessage m = false ->
  Forall (fun x => isToolMessage x = true) tms ->
  toolMessages (older ++ m :: tms) = tms.
Proof.
  intros Hm Htms. rewrite toolMessages_trailingToolRun. unfold trailingToolRun.
  rewrite reverse_app, reverse_cons, <- app_assoc. simpl.
  rewrite collectWhileTool_app by (by apply Forall_reverse).
  rewrite collectWhileTool_stop by done.
  by rewrite app_nil_r, reverse_involutive.
Qed.

Lemma conversationMessages_app l1 l2 :
  conversationMessages (l1 ++ l2)
  = conversationMessages l1 ++ conversationMessages l2.
Proof. apply filter_app. Qed.

Lemma conversationMessages_tools tms :
  Forall (fun x => isToolMessage x = true) tms -> conversationMessages tms = [].
Proof.
  induction 1 as [|m tms Hm _ IH]; [done|].
  unfold conversationMessages in *. rewrite filter_cons_False; [done|].
  destruct m; try done. by intros [].
Qed.
End WindowFacts.

(** X11. The context of [generate] is decided by what follows the last
    message that is not a tool message: everything before that message is
    irrelevant, a list that is empty or ends with such a message gives the
    empty context string, and a list of tool messages only is taken whole. *)
Theorem X11_context_window_is_local (messages : list Message) :
  (forall older m rest,
     messages = older ++ m :: rest -> isToolMessage m = false ->
     Agent.toolMessages messages = Agent.toolMessages (m :: rest)) /\
  (Agent.toolMessages messages = [] <->
   match last messages with
   | Some m => isToolMessage m = false
   | None => True
   end) /\
  (Agent.toolMessages messages = [] -> Agent.docsContent messages = EmptyString) /\
  (Forall (fun m => isToolMessage m = true) messages ->
   Agent.toolMessages messages = messages).
Proof.
  split_and!.
  - intros older m rest -> Hm.
    rewrite !toolMessages_trailingToolRun. unfold Agent.trailingToolRun.
    rewrite reverse_app.
    destruct (collectWhileTool_split (reverse (m :: rest)))
      as (tail & Heq & Hall & Hhead).
    assert (Htail : tail <> []).
    { intros ->. rewrite app_nil_r in Heq. rewrite <- Heq in Hall.
      apply Forall_reverse in Hall. rewrite reverse_involutive in Hall.
      inversion Hall; congruence. }
    rewrite Heq at 1. rewrite <- app_assoc.
    rewrite collectWhileTool_app by done.
    destruct tail as [|x tail]; [done|]. simpl in Hhead.
    rewrite <- app_comm_cons. rewrite collectWhileTool_stop by done.
    by rewrite app_nil_r.
  - rewrite toolMessages_trailingToolRun. unfold Agent.trailingToolRun.
    destruct messages as [|m l _] using rev_ind; [done|].
    rewrite last_snoc, reverse_app. simpl.
    destruct (isToolMessage m); split; try done.
    intros Hnil. apply (f_equal length) in Hnil.
    rewrite length_reverse in Hnil. done.
  - unfold Agent.docsContent. by intros ->.
  - intros Hall. rewrite toolMessages_trailingToolRun. unfold Agent.trailingToolRun.
    rewrite <- (app_nil_r (reverse messages)).
    rewrite collectWhileTool_app by (by apply Forall_reverse).
    simpl. by rewrite app_nil_r, reverse_involutive.
Qed.

Lemma prompt_after_round (before tms : list Message)
    (text : string) (tc : ToolCall) (calls : list ToolCall) :
  Forall (fun m => isToolMessage m = true) tms ->
  Agent.prompt (before ++ AIMessage text (Some (tc :: calls)) :: tms)
  = SystemMessage (instruction +:+ nl +:+ nl +:+ join nl (content <$> tms))
    :: Agent.conversationMessages before.
Proof.
  intros Htms. unfold Agent.prompt, Agent.systemMessageContent, Agent.docsContent.
  rewrite toolMessages_round by done.
  rewrite conversationMessages_app.
  change (AIMessage text (Some (tc :: calls)) :: tms)
    with ([AIMessage text (Some (tc :: calls))] ++ tms).
  rewrite conversationMessages_app, (conversationMessages_tools tms) by done.
  change (Agent.conversationMessages [AIMessage text (Some (tc :: calls))])
    with (@nil Message).
  by rewrite !app_nil_r.
Qed.

(** X12. After a tool round, that is a state that ends with an AI message
    carrying tool calls followed by the tool messages that answer it, the
    prompt of [generate] is the instruction with the contents of exactly
    these tool messages, followed by the filtered conversation that preceded
    the round: the requesting AI message and the tool messages are not part
    of the conversation. *)
Theorem X12_prompt_after_tool_round (before tms : list Message)
    (text : string) (tc : ToolCall) (calls : list ToolCall) :
  Forall (fun m => isToolMessage m = true) tms ->
  Agent.prompt (before ++ AIMessage text (Some (tc :: calls)) :: tms)
  = SystemMessage (instruction +:+ nl +:+ nl +:+ join nl (content <$> tms))
    :: Agent.conversationMessages before.
Proof. apply prompt_after_round. Qed.

Lemma X12_prompt_after_tool_round_witness :
  let tms := [ToolMessage "first" "c1" []; ToolMessage "second" "c2" []] in
  Forall (fun m => isToolMessage m = true) tms /\
  Agent.prompt
    ([HumanMessage "q1"; AIMessage "a1" (Some []); HumanMessage "q2"]
     ++ AIMessage EmptyString (Some (mkToolCall "retrieve" [] "c1"
                                       :: [mkToolCall "retrieve" [] "c2"])) :: tms)
  = SystemMessage (instruction +:+ nl +:+ nl +:+ join nl (content <$> tms))
    :: Agent.conversationMessages
         [HumanMessage "q1"; AIMessage "a1" (Some []); HumanMessage "q2"].
Proof.
  intros tms. split; [by repeat constructor|].
  apply (X12_prompt_after_tool_round
           [HumanMessage "q1"; AIMessage "a1" (Some []); HumanMessage "q2"] tms).
  by repeat constructor.
Defined.

(** ** Runs of the tool-calling graph *)

Section AgentRun.
Context `{Providers}.
Import StateGraph.

Lemma queryOrRespond_run st w :
  Agent.queryOrRespond st w
  = (withEvents (fun es => es ++ [LlmWithToolsInvoke st]) w,
     match chatInvokeWithTools st with
     | inl reason => Err (ProviderError reason)
     | inr response => Ok [response]
     end).
Proof.
  unfold Agent.queryOrRespond, bind, emit, provider, ret, throw.
  by destruct (chatInvokeWithTools st).
Qed.

Lemma printStep_values st m w :
  last st = Some m ->
  Agent.printStep (ValueChunk st) w
  = (withEvents (fun es => es ++ shown m) w, Ok tt).
Proof. intros Hlast. simpl. by rewrite printLast_run, Hlast. Qed.

Lemma successors_queryOrRespond vectorStore st :
  successors (Agent.graphBuilder vectorStore) "queryOrRespond" st
  = [Agent.toolsCondition st].
Proof.
  unfold successors. simpl.
  destruct (toolsCondition_spec st) as [[_ ->]|[_ ->]]; reflexivity.
Qed.

Lemma toolsCondition_response st response :
  Agent.toolsCondition (st ++ [response])
  = match response with
    | AIMessage _ (Some (_ :: _)) => "tools"
    | _ => END_NODE
    end.
Proof. unfold Agent.toolsCondition. by rewrite last_snoc. Qed.
End AgentRun.

(** X13. When the model answers a conversation without asking for a tool,
    an invocation of the tool-calling graph ends after queryOrRespond: the
    final state is the input followed by the answer, the model was called
    once with the tools bound, the answer was printed, and there was neither
    a retrieval nor a second call of the model. *)
Theorem X13_direct_answer_skips_retrieval `{Providers}
    (vectorStore : Ref) (input : list Message) (w : World) (response : Message) :
  chatInvokeWithTools input = inr response ->
  ~ Agent.requestsTool response ->
  Agent.invoke vectorStore input w
  = (withEvents
       (fun es => es ++ [NodeRun "queryOrRespond"; LlmWithToolsInvoke input]
                     ++ shown response) w,
     Ok (input ++ [response])).
Proof.
  intros Hmodel Hno.
  unfold Agent.invoke, StateGraph.stream.
  change (StateGraph.successors (Agent.graphBuilder vectorStore) StateGraph.START input)
    with ["queryOrRespond"].
  unfold StateGraph.recursionLimit.
  rewrite (runFrom_node _ _ _ _ _ _ _ Agent.queryOrRespond) by done.
  rewrite queryOrRespond_run, Hmodel.
  unfold StateGraph.chunkOf, Agent.reduce.
  rewrite (printStep_values _ response) by apply last_snoc.
  rewrite successors_queryOrRespond, toolsCondition_response.
  assert (Hend : match response with
                 | AIMessage _ (Some (_ :: _)) => "tools"
                 | _ => StateGraph.END_NODE
                 end = StateGraph.END_NODE).
  { destruct response as [c|c|c [[|tc calls]|]|c i a|t c]; try done.
    destruct Hno. by eexists _, _, _. }
  rewrite Hend, runFrom_end. unfold ret.
  rewrite !withEvents_app. reflexivity.
Qed.

Section X13Witness.
#[local] Existing Instance Demo.providers.

Lemma X13_direct_answer_skips_retrieval_witness :
  let input := [HumanMessage "hello"; AIMessage "hi" (Some [])] in
  let response := AIMessage "Hello!" (Some []) in
  chatInvokeWithTools input = inr response /\
  ~ Agent.requestsTool response /\
  Agent.invoke 1 input Demo.indexed
  = (withEvents
       (fun es => es ++ [NodeRun "queryOrRespond"; LlmWithToolsInvoke input]
                     ++ shown response) Demo.indexed,
     Ok (input ++ [response])).
Proof.
  intros input response.
  assert (Hno : ~ Agent.requestsTool response).
  { intros (text & tc & calls & Heq). discriminate Heq. }
  split; [reflexivity|]. split; [exact Hno|].
  apply (X13_direct_answer_skips_retrieval 1 input Demo.indexed response);
    [reflexivity|exact Hno].
Defined.
End X13Witness.

Section ToolRound.
Context `{Providers}.
Import StateGraph.

Lemma toolReply_isTool mvs tc tm :
  toolReply mvs tc = Some tm -> isToolMessage tm = true.
Proof.
  unfold toolReply. case_decide; [|done].
  destruct (toolQuery tc) as [q|]; [|done].
  destruct (embedQuery q) as [reason|v]; [done|]. by intros [= <-].
Qed.

Lemma toolReplies_areTools mvs calls tms :
  Forall2 (fun tc tm => toolReply mvs tc = Some tm) calls tms ->
  Forall (fun m => isToolMessage m = true) tms.
Proof.
  induction 1 as [|tc tm calls tms Htm _ IH]; constructor; [|done].
  by apply toolReply_isTool in Htm.
Qed.

(** The tool node on calls that can all be answered: one embedding request
    and one tool message per call, in call order. *)
Lemma runToolCalls_ok vectorStore e mvs calls : forall tms w,
  heap w !! vectorStore = Some (MemoryVectorStore e mvs) ->
  Forall2 (fun tc tm => toolReply mvs tc = Some tm) calls tms ->
  Agent.runToolCalls vectorStore calls w
  = (withEvents (fun es => es ++ toolEmbeddings calls) w, Ok tms).
Proof.
  induction calls as [|tc calls IH]; intros tms w Hheap Hall.
  - inversion Hall; subst. simpl. unfold ret, withEvents.
    destruct w. simpl. by rewrite app_nil_r.
  - destruct tms as [|tm tms']; [inversion Hall|].
    apply Forall2_cons in Hall as [Htm Hrest].
    unfold toolReply in Htm. case_decide as Hname; [|done].
    destruct (toolQuery tc) as [q|] eqn:Hq; [|done].
    destruct (embedQuery q) as [reason|v] eqn:Hv; [done|].
    injection Htm as <-.
    unfold toolQuery in Hq.
    destruct (rawLookup "query" (args tc)) as [[| | |q']|] eqn:Hlook; try done.
    injection Hq as ->.
    simpl Agent.runToolCalls. rewrite decide_True by done.
    unfold Agent.retrieve. rewrite Hlook.
    unfold Agent.retrieveFn.
    unfold bind at 1. unfold bind at 1.
    rewrite (similaritySearch_run _ _ _ _ _ e mvs Hheap), Hv.
    unfold ret at 1. cbv beta iota zeta.
    erewrite bind_ok; cycle 1.
    { apply IH; [simpl; exact Hheap|exact Hrest]. }
    assert (Htq : toolQuery tc = Some q) by (unfold toolQuery; by rewrite Hlook).
    unfold ret, toolEmbeddings. simpl. rewrite Htq.
    simpl. rewrite withEvents_app. reflexivity.
Qed.
End ToolRound.

(** X14. When the model asks for the [retrieve] tool, every call can be
    answered and the chat model answers the final prompt, an invocation of
    the tool-calling graph makes exactly one tool round: queryOrRespond,
    tools and generate run once each in this order, each call is answered
    by one tool message in call order, the final prompt is the instruction
    with the contents of these tool messages followed by the filtered input
    conversation, and the final state is the input followed by the request,
    the tool messages and the answer. *)
Theorem X14_one_tool_round `{Providers}
    (vectorStore : Ref) (input : list Message) (w : World)
    (e : Ref) (mvs : list (MemoryVector Vector))
    (text : string) (tc : ToolCall) (calls : list ToolCall)
    (tms : list Message) (final : Message) :
  heap w !! vectorStore = Some (MemoryVectorStore e mvs) ->
  let request := AIMessage text (Some (tc :: calls)) in
  chatInvokeWithTools input = inr request ->
  Forall2 (fun c tm => toolReply mvs c = Some tm) (tc :: calls) tms ->
  let finalPrompt :=
    SystemMessage (instruction +:+ nl +:+ nl +:+ join nl (content <$> tms))
    :: Agent.conversationMessages input in
  chatInvoke finalPrompt = inr final ->
  exists lastTool,
    last tms = Some lastTool /\
    Agent.invoke vectorStore input w
    = (withEvents
         (fun es =>
            es ++ [NodeRun "queryOrRespond"; LlmWithToolsInvoke input]
               ++ shown request
               ++ [NodeRun "tools"] ++ toolEmbeddings (tc :: calls)
               ++ shown lastTool
               ++ [NodeRun "generate"; LlmInvoke finalPrompt]
               ++ shown final) w,
       Ok (input ++ request :: tms ++ [final])).
Proof.
  intros Hheap request Hmodel Hreplies finalPrompt Hchat. subst request.
  pose proof (toolReplies_areTools _ _ _ Hreplies) as Htools.
  destruct tms as [|tm tms'] using rev_ind; [inversion Hreplies|].
  clear IHtms'. exists tm. split; [apply last_snoc|].
  unfold Agent.invoke, StateGraph.stream.
  change (StateGraph.successors (Agent.graphBuilder vectorStore) StateGraph.START input)
    with ["queryOrRespond"].
  unfold StateGraph.recursionLimit.
  rewrite (runFrom_node _ _ _ _ _ _ _ Agent.queryOrRespond) by done.
  rewrite queryOrRespond_run, Hmodel.
  unfold StateGraph.chunkOf, Agent.reduce.
  rewrite (printStep_values _ (AIMessage text (Some (tc :: calls))))
    by apply last_snoc.
  rewrite successors_queryOrRespond, toolsCondition_response.
  cbv beta iota.
  rewrite (runFrom_node _ _ _ _ _ _ _ (Agent.tools vectorStore)) by done.
  unfold Agent.tools at 1. rewrite last_snoc.
  rewrite (runToolCalls_ok vectorStore e mvs (tc :: calls) (tms' ++ [tm]))
    by (simpl; done).
  unfold StateGraph.chunkOf, Agent.reduce.
  rewrite (printStep_values _ tm) by (by rewrite app_assoc, last_snoc).
  change (StateGraph.successors (Agent.graphBuilder vectorStore) "tools" _)
    with ["generate"].
  cbv beta iota.
  rewrite (runFrom_node _ _ _ _ _ _ _ Agent.generate) by done.
  rewrite generate_run.
  rewrite <- (app_assoc input [AIMessage text (Some (tc :: calls))]).
  simpl ([AIMessage text (Some (tc :: calls))] ++ _).
  rewrite (prompt_after_round input (tms' ++ [tm]) text tc calls Htools).
  fold finalPrompt. rewrite Hchat.
  unfold StateGraph.chunkOf, Agent.reduce.
  rewrite (printStep_values _ final) by apply last_snoc.
  change (StateGraph.successors (Agent.graphBuilder vectorStore) "generate" _)
    with [StateGraph.END_NODE].
  cbv beta iota.
  rewrite runFrom_end. unfold ret.
  rewrite !withEvents_app. f_equal.
  f_equal. by rewrite <- (app_assoc input).
Qed.

Section X14Witness.
#[local] Existing Instance Demo.providers.

Lemma X14_one_tool_round_witness :
  let input := [HumanMessage "Memory"] in
  let tc := mkToolCall "retrieve" [("query", JsString "Memory")] "call_1" in
  let docs := [mkDocument "Memory" (mkMetadata Demo.postUrl (Some Middle));
               mkDocument "Agents" (mkMetadata Demo.postUrl (Some Beginning))] in
  let tms := [ToolMessage (join nl (sourceAndContent <$> docs)) "call_1" docs] in
  let final := AIMessage "It splits a task into steps." (Some []) in
  heap Demo.indexed !! 1 = Some (MemoryVectorStore 0 Demo.memory) /\
  let request := AIMessage EmptyString (Some (tc :: [])) in
  chatInvokeWithTools input = inr request /\
  Forall2 (fun c tm => toolReply Demo.memory c = Some tm) (tc :: []) tms /\
  let finalPrompt :=
    SystemMessage (instruction +:+ nl +:+ nl +:+ join nl (content <$> tms))
    :: Agent.conversationMessages input in
  chatInvoke finalPrompt = inr final /\
  exists lastTool,
    last tms = Some lastTool /\
    Agent.invoke 1 input Demo.indexed
    = (withEvents
         (fun es =>
            es ++ [NodeRun "queryOrRespond"; LlmWithToolsInvoke input]
               ++ shown request
               ++ [NodeRun "tools"] ++ toolEmbeddings (tc :: [])
               ++ shown lastTool
               ++ [NodeRun "generate"; LlmInvoke finalPrompt]
               ++ shown final) Demo.indexed,
       Ok (input ++ request :: tms ++ [final])).
Proof.
  intros input tc docs tms final.
  assert (Hreplies :
    Forall2 (fun c tm => toolReply Demo.memory c = Some tm) (tc :: []) tms).
  { repeat constructor. }
  split; [reflexivity|]. intros request. split; [reflexivity|].
  split; [exact Hreplies|]. intros finalPrompt. split; [reflexivity|].
  apply (X14_one_tool_round 1 input Demo.indexed 0 Demo.memory
           EmptyString tc [] tms final);
    [reflexivity|reflexivity|exact Hreplies|reflexivity].
Defined.
End X14Witness.

(** ** The [retrieve] tool *)

Section ToolFacts.
Context `{Providers}.

Lemma join_empty sep parts :
  Forall (fun p => p <> EmptyString) parts ->
  join sep parts = EmptyString <-> parts = [].
Proof.
  intros Hall. split; [|by intros ->].
  destruct parts as [|p [|p' rest]]; [done| |].
  - simpl. intros ->. by inversion Hall.
  - simpl. inversion Hall as [|? ? Hp _]; subst.
    destruct p; [done|]. by simpl.
Qed.

Lemma sourceAndContent_nonempty docs :
  Forall (fun p => p <> EmptyString) (sourceAndContent <$> docs).
Proof. apply Forall_fmap, Forall_forall. by intros d _. Qed.
End ToolFacts.

(** X15. The [retrieve] tool rejects arguments without a string [query] with
    a schema error before anything is asked of the embedding provider or the
    index; on an index and a query that can be embedded it returns the two
    nearest stored chunks and a text of one source-and-content entry per
    chunk, and this text is empty exactly when no chunk is returned, as on
    an empty index. *)
Theorem X15_retrieve_tool_edges `{Providers} (vectorStore : Ref) (w : World) :
  (forall arguments,
     (forall q, rawLookup "query" arguments <> Some (JsString q)) ->
     exists reason,
       Agent.retrieve vectorStore arguments w = (w, Err (SchemaError reason))) /\
  (forall e mvs queryText v,
     heap w !! vectorStore = Some (MemoryVectorStore e mvs) ->
     embedQuery queryText = inr v ->
     exists text docs,
       (Agent.retrieveFn vectorStore queryText w).2 = Ok (text, docs) /\
       docs = VectorIndex.similaritySearchVectorWithScore v 2 None mvs /\
       text = join nl (sourceAndContent <$> docs) /\
       (text = EmptyString <-> docs = []) /\
       (mvs = [] -> docs = [])).
Proof.
  split.
  - intros arguments Hq. unfold Agent.retrieve.
    destruct (rawLookup "query" arguments) as [[| | |q]|]; try (by eexists).
    by destruct (Hq q).
  - intros e mvs queryText v Hheap Hv.
    rewrite (retrieveFn_run _ _ _ e mvs Hheap), Hv. cbv zeta.
    exists (join nl (sourceAndContent
                       <$> VectorIndex.similaritySearchVectorWithScore v 2 None mvs)),
      (VectorIndex.similaritySearchVectorWithScore v 2 None mvs).
    split; [reflexivity|]. split; [reflexivity|].
    split; [reflexivity|]. split.
    + rewrite join_empty by apply sourceAndContent_nonempty.
      split; [apply fmap_nil_inv|by intros ->].
    + intros ->. reflexivity.
Qed.

(** ** More on the command line program *)

Section CliRun.
Context `{Providers}.

(** Printing the steps of the agent changes the trace only. *)
Lemma printSteps_world steps : forall w,
  exists added,
    (forEachM Agent.printLast steps w).1 = withEvents (fun es => es ++ added) w.
Proof.
  induction steps as [|st steps IH]; intros w.
  - exists []. simpl. unfold withEvents. destruct w. simpl. by rewrite app_nil_r.
  - rewrite forEachM_cons, printLast_run.
    destruct (last st) as [m|].
    + destruct (IH (withEvents
                      (fun es => es ++ [ConsoleLog [PString (Agent.prettyText m)];
                                        ConsoleLog [PString ("--------" +:+ nl)]]) w))
        as (added & ->).
      eexists. by rewrite withEvents_app.
    + exists []. simpl. unfold withEvents. destruct w. simpl. by rewrite app_nil_r.
Qed.

Lemma streamAgent_world userInput w :
  exists added,
    (Cli.streamAgent userInput w).1 = withEvents (fun es => es ++ added) w.
Proof.
  unfold Cli.streamAgent. unfold bind at 1. unfold emit at 1.
  destruct (agentStream userInput) as [steps failure].
  destruct (printSteps_world steps
              (withEvents (fun es => es ++ [AgentStream userInput]) w))
    as (added & Hw).
  exists ([AgentStream userInput] ++ added). rewrite <- withEvents_app, <- Hw.
  unfold bind.
  destruct (forEachM Agent.printLast steps _) as [w1 [[]|err]]; [|done].
  by destruct failure.
Qed.

(** [main] reads [process.argv] at index 2 only. *)
Lemma main_reads_third argv q rest w :
  drop 2 argv = q :: rest ->
  Cli.main argv w = Cli.main [EmptyString; EmptyString; q] w.
Proof. intros Hargs. unfold Cli.main. rewrite Hargs. reflexivity. Qed.
End CliRun.

(** X16. [main] looks at no element of [process.argv] but the third: two
    argument vectors with the same third element, or both without one, give
    the same run, so further positional arguments are ignored. *)
Theorem X16_only_the_first_argument_counts `{Providers}
    (argv argv' : list string) (w : World) :
  argv !! 2 = argv' !! 2 -> Cli.main argv w = Cli.main argv' w.
Proof.
  intros Heq.
  assert (Hdrop : forall l : list string,
    match l !! 2 with
    | Some q => exists rest, drop 2 l = q :: rest
    | None => drop 2 l = []
    end).
  { intros [|a [|b [|q rest]]]; simpl; try done. by eexists. }
  pose proof (Hdrop argv) as Ha. pose proof (Hdrop argv') as Ha'.
  rewrite <- Heq in Ha'.
  destruct (argv !! 2) as [q|].
  - destruct Ha as [rest Ha], Ha' as [rest' Ha'].
    by rewrite (main_reads_third _ _ _ _ Ha), (main_reads_third _ _ _ _ Ha').
  - by rewrite !main_without_arguments.
Qed.

Lemma X16_only_the_first_argument_counts_witness :
  ["node"; "pipeline.ts"; "What is Task Decomposition?"; "ignored"] !! 2
  = ["node"; "pipeline.ts"; "What is Task Decomposition?"] !! 2 /\
  Cli.main (H := Demo.providers)
    ["node"; "pipeline.ts"; "What is Task Decomposition?"; "ignored"] Demo.start
  = Cli.main (H := Demo.providers)
      ["node"; "pipeline.ts"; "What is Task Decomposition?"] Demo.start.
Proof.
  split; [reflexivity|].
  apply (X16_only_the_first_argument_counts (H := Demo.providers)). reflexivity.
Defined.

(** X17. API keys are checked before the page is fetched: in a fresh process
    and with a query given, a missing Anthropic key ends [main] with a
    configuration error after the processing line and nothing else, whether
    the Cohere key is set or not; a missing Cohere key ends it with a
    configuration error once the chat client has been built, with no
    embeddings client and no index. In neither case is the page loaded. *)
Theorem X17_keys_are_checked_before_loading `{Providers}
    (argv : list string) (userQuery : string) (rest : list string) :
  drop 2 argv = userQuery :: rest ->
  let line :=
    ConsoleLog [PString ("Processing query: " +:+ dquote +:+ userQuery +:+ dquote)] in
  (forall cohereKey,
     Cli.main argv (Models.freshProcess None cohereKey)
     = (withEvents (fun _ => [line]) (Models.freshProcess None cohereKey),
        Err (ConfigurationError "Anthropic API key not found"))) /\
  (forall anthropicKey,
     Cli.main argv (Models.freshProcess (Some anthropicKey) None)
     = ({| events := [line];
           heap := [ChatAnthropic "claude-3-7-sonnet-20250219" 0 anthropicKey];
           ANTHROPIC_API_KEY := Some anthropicKey; COHERE_API_KEY := None;
           _llm := Some 0; _embeddings := None; _vectorStore := None |},
        Err (ConfigurationError "Cohere API key not found"))).
Proof.
  intros Hargs line. split.
  - intros cohereKey. unfold Cli.main. rewrite Hargs. reflexivity.
  - intros anthropicKey. unfold Cli.main. rewrite Hargs. reflexivity.
Qed.

Lemma X17_keys_are_checked_before_loading_witness :
  let argv := ["node"; "pipeline.ts"; "What is Task Decomposition?"] in
  let userQuery := "What is Task Decomposition?" in
  drop 2 argv = userQuery :: [] /\
  let line :=
    ConsoleLog [PString ("Processing query: " +:+ dquote +:+ userQuery +:+ dquote)] in
  (forall cohereKey,
     Cli.main (H := Demo.providers) argv (Models.freshProcess None cohereKey)
     = (withEvents (fun _ => [line]) (Models.freshProcess None cohereKey),
        Err (ConfigurationError "Anthropic API key not found"))) /\
  (forall anthropicKey,
     Cli.main (H := Demo.providers) argv
       (Models.freshProcess (Some anthropicKey) None)
     = ({| events := [line];
           heap := [ChatAnthropic "claude-3-7-sonnet-20250219" 0 anthropicKey];
           ANTHROPIC_API_KEY := Some anthropicKey; COHERE_API_KEY := None;
           _llm := Some 0; _embeddings := None; _vectorStore := None |},
        Err (ConfigurationError "Cohere API key not found"))).
Proof.
  intros argv userQuery. split; [reflexivity|].
  apply (X17_keys_are_checked_before_loading (H := Demo.providers) argv userQuery []).
  reflexivity.
Defined.

(** X18. With both keys set and a query given, a failure to load the page
    ends [main] with that failure before any text is embedded, and a failure
    to embed the chunks ends it with that failure and leaves the index empty;
    in both cases the three clients have been built and the agent is never
    run. *)
Theorem X18_ingestion_failure_stops_main `{Providers}
    (argv : list string) (userQuery : string) (rest : list string)
    (anthropicKey cohereKey : string) :
  drop 2 argv = userQuery :: rest ->
  let line :=
    ConsoleLog [PString ("Processing query: " +:+ dquote +:+ userQuery +:+ dquote)] in
  let built (trace : list Event) : World :=
    {| events := trace;
       heap := [ChatAnthropic "claude-3-7-sonnet-20250219" 0 anthropicKey;
                CohereEmbeddings "embed-english-v3.0";
                MemoryVectorStore 1 []];
       ANTHROPIC_API_KEY := Some anthropicKey; COHERE_API_KEY := Some cohereKey;
       _llm := Some 0; _embeddings := Some 1; _vectorStore := Some 2 |} in
  let w := Models.freshProcess (Some anthropicKey) (Some cohereKey) in
  (forall reason,
     loaderLoad = inl reason ->
     Cli.main argv w = (built [line; LoaderLoad], Err (ProviderError reason))) /\
  (forall docs reason,
     loaderLoad = inr docs ->
     let texts := pageContent <$> Ingestion.labelSections (splitDocuments docs) in
     embedDocuments texts = inl reason ->
     Cli.main argv w
     = (built [line; LoaderLoad; EmbedDocuments texts], Err (ProviderError reason))).
Proof.
  intros Hargs line built w. subst w. split.
  - intros reason Hload. unfold Cli.main. rewrite Hargs. cbv zeta.
    erewrite bind_ok by reflexivity.
    erewrite bind_ok by reflexivity.
    erewrite bind_ok by reflexivity.
    erewrite bind_ok by reflexivity.
    erewrite bind_ok by reflexivity.
    rewrite Hload. reflexivity.
  - intros docs reason Hload texts Hembed. unfold Cli.main. rewrite Hargs. cbv zeta.
    erewrite bind_ok by reflexivity.
    erewrite bind_ok by reflexivity.
    erewrite bind_ok by reflexivity.
    erewrite bind_ok by reflexivity.
    erewrite bind_ok by reflexivity.
    rewrite Hload.
    erewrite bind_ok by reflexivity.
    erewrite bind_err; cycle 1.
    { erewrite addDocuments_run by reflexivity. fold texts. rewrite Hembed.
      reflexivity. }
    reflexivity.
Qed.

(** X19. With both keys set, a query given, the page loaded and every chunk
    embedded, [main] leaves a process with the chat client, the embeddings
    client and one index over that embeddings client, the module variables of
    [models] referring to them, and in the index exactly the labelled chunks
    in document order; the agent, whatever it streams and however it ends,
    changes none of this. *)
Theorem X19_main_indexes_labelled_chunks `{Providers}
    (argv : list string) (userQuery : string) (rest : list string)
    (anthropicKey cohereKey : string) (docs : list Document)
    (vectors : list Vector) :
  drop 2 argv = userQuery :: rest ->
  loaderLoad = inr docs ->
  let allSplits := Ingestion.labelSections (splitDocuments docs) in
  embedDocuments (pageContent <$> allSplits) = inr vectors ->
  length vectors = length allSplits ->
  let final :=
    (Cli.main argv (Models.freshProcess (Some anthropicKey) (Some cohereKey))).1 in
  heap final
  = [ChatAnthropic "claude-3-7-sonnet-20250219" 0 anthropicKey;
     CohereEmbeddings "embed-english-v3.0";
     MemoryVectorStore 1 (records allSplits vectors)] /\
  _llm final = Some 0 /\ _embeddings final = Some 1 /\ _vectorStore final = Some 2 /\
  VectorIndex.toDocument <$> records allSplits vectors = allSplits.
Proof.
  intros Hargs Hload allSplits Hembed Hlen final. subst final.
  assert (Hrun : exists added,
    (Cli.main argv (Models.freshProcess (Some anthropicKey) (Some cohereKey))).1
    = withEvents (fun es => es ++ added)
        {| events :=
             [ConsoleLog [PString ("Processing query: " +:+ dquote +:+ userQuery
                                   +:+ dquote)];
              LoaderLoad; EmbedDocuments (pageContent <$> allSplits);
              ConsoleLog [PString ("Processing with agent..." +:+ nl)]];
           heap := [ChatAnthropic "claude-3-7-sonnet-20250219" 0 anthropicKey;
                    CohereEmbeddings "embed-english-v3.0";
                    MemoryVectorStore 1 (records allSplits vectors)];
           ANTHROPIC_API_KEY := Some anthropicKey;
           COHERE_API_KEY := Some cohereKey;
           _llm := Some 0; _embeddings := Some 1; _vectorStore := Some 2 |}).
  { unfold Cli.main. rewrite Hargs. cbv zeta.
    erewrite bind_ok by reflexivity.
    erewrite bind_ok by reflexivity.
    erewrite bind_ok by reflexivity.
    erewrite bind_ok by reflexivity.
    erewrite bind_ok by reflexivity.
    rewrite Hload.
    erewrite bind_ok by reflexivity.
    fold allSplits.
    erewrite bind_ok; cycle 1.
    { erewrite addDocuments_run by reflexivity. rewrite Hembed. reflexivity. }
    erewrite bind_ok by reflexivity.
    apply streamAgent_world. }
  destruct Hrun as [added ->].
  split_and!; try reflexivity. by apply records_documents.
Qed.

Section X19Witness.
#[local] Existing Instance Demo.providers.

Lemma X19_main_indexes_labelled_chunks_witness :
  let argv := ["node"; "pipeline.ts"; "What is Task Decomposition?"] in
  let vectors : list Vector := [6; 31; 6; 8; 12; 10; 25] in
  drop 2 argv = "What is Task Decomposition?" :: [] /\
  loaderLoad = inr Demo.pages /\
  let allSplits := Ingestion.labelSections (splitDocuments Demo.pages) in
  embedDocuments (pageContent <$> allSplits) = inr vectors /\
  length vectors = length allSplits /\
  let final :=
    (Cli.main argv (Models.freshProcess (Some "sk-ant") (Some "co-key"))).1 in
  heap final
  = [ChatAnthropic "claude-3-7-sonnet-20250219" 0 "sk-ant";
     CohereEmbeddings "embed-english-v3.0";
     MemoryVectorStore 1 (records allSplits vectors)] /\
  _llm final = Some 0 /\ _embeddings final = Some 1 /\ _vectorStore final = Some 2 /\
  VectorIndex.toDocument <$> records allSplits vectors = allSplits.
Proof.
  intros argv vectors. split; [reflexivity|]. split; [reflexivity|].
  intros allSplits. split; [reflexivity|]. split; [reflexivity|].
  apply (X19_main_indexes_labelled_chunks argv "What is Task Decomposition?" []
           "sk-ant" "co-key" Demo.pages vectors); reflexivity.
Defined.
End X19Witness.

Section X18Witness.
#[local] Existing Instance offline.

Lemma X18_ingestion_failure_stops_main_witness :
  let argv := ["node"; "pipeline.ts"; "What is Task Decomposition?"] in
  let userQuery := "What is Task Decomposition?" in
  drop 2 argv = userQuery :: [] /\
  let line :=
    ConsoleLog [PString ("Processing query: " +:+ dquote +:+ userQuery +:+ dquote)] in
  let built (trace : list Event) : World :=
    {| events := trace;
       heap := [ChatAnthropic "claude-3-7-sonnet-20250219" 0 "sk-ant";
                CohereEmbeddings "embed-english-v3.0";
                MemoryVectorStore 1 []];
       ANTHROPIC_API_KEY := Some "sk-ant"; COHERE_API_KEY := Some "co-key";
       _llm := Some 0; _embeddings := Some 1; _vectorStore := Some 2 |} in
  let w := Models.freshProcess (Some "sk-ant") (Some "co-key") in
  (forall reason,
     loaderLoad = inl reason ->
     Cli.main argv w = (built [line; LoaderLoad], Err (ProviderError reason))) /\
  (forall docs reason,
     loaderLoad = inr docs ->
     let texts := pageContent <$> Ingestion.labelSections (splitDocuments docs) in
     embedDocuments texts = inl reason ->
     Cli.main argv w
     = (built [line; LoaderLoad; EmbedDocuments texts], Err (ProviderError reason))).
Proof.
  intros argv userQuery. split; [reflexivity|].
  apply (X18_ingestion_failure_stops_main argv userQuery [] "sk-ant" "co-key").
  reflexivity.
Defined.

Example offline_main :
  (Cli.main ["node"; "pipeline.ts"; "What is Task Decomposition?"]
     (Models.freshProcess (Some "sk-ant") (Some "co-key"))).2
  = Err (ProviderError "fetch failed").
Proof. reflexivity. Qed.
End X18Witness.

(** X20. The eager [models.ts] needs both keys before anything else can
    happen: without the Anthropic key its import fails with nothing built,
    and so does the program of [pipeline.ts], before the page is fetched.
    The lazy accessors separate the clients: [getVectorStore] needs the
    Cohere key only and builds the embeddings client and the index without
    a chat client. With both keys, the eager import and the accessors called
    in the order chat model, embeddings, index build the same three
    objects. *)
Theorem X20_eager_and_lazy_models `{Providers} :
  (forall cohereKey,
     Models.importModels (Models.freshProcess None cohereKey)
     = (Models.freshProcess None cohereKey,
        Err (ConfigurationError "Anthropic API key not found")) /\
     QA.program (Models.freshProcess None cohereKey)
     = (Models.freshProcess None cohereKey,
        Err (ConfigurationError "Anthropic API key not found"))) /\
  (forall cohereKey,
     Models.getVectorStore (Models.freshProcess None (Some cohereKey))
     = ({| events := [];
           heap := [CohereEmbeddings "embed-english-v3.0"; MemoryVectorStore 0 []];
           ANTHROPIC_API_KEY := None; COHERE_API_KEY := Some cohereKey;
           _llm := None; _embeddings := Some 0; _vectorStore := Some 1 |},
        Ok 1)) /\
  (forall anthropicKey cohereKey,
     let w := Models.freshProcess (Some anthropicKey) (Some cohereKey) in
     let lazy :=
       Models.calls [Models.CallGetLlm; Models.CallGetEmbeddings;
                     Models.CallGetVectorStore] w in
     heap lazy.1 = heap (Models.importModels w).1 /\
     lazy.2 = [(Models.CallGetLlm, Ok 0); (Models.CallGetEmbeddings, Ok 1);
               (Models.CallGetVectorStore, Ok 2)] /\
     (Models.importModels w).2 = Ok (Models.mkExports 0 1 2)).
Proof.
  split_and!.
  - intros cohereKey. split; reflexivity.
  - intros cohereKey. reflexivity.
  - intros anthropicKey cohereKey w lazy. split_and!; reflexivity.
Qed.
